(** * DeFi data pipeline: swap-event ingestion, persistence and wallet statistics

    A shallow embedding of the Python sources

    - [defi_pipeline.py] (class [DeFiDataPipeline]): [init_database],
      [get_token_info], [fetch_swap_events], [save_trades_to_db],
      [update_wallet_stats], [get_top_tokens], [run_full_pipeline];
    - [utils/helpers.py]: [retry_web3_call], [format_address],
      [check_web3_connection], [get_block_timestamp_range], and the bar of
      [ProgressTracker];
    - [config.py]: [get_web3_provider_url], [validate_config];
    - [run_pipeline.py]: the choice of the provider in [main].

    Python values are modelled by their mathematical counterparts: [int] is
    [Z], [str] is [string], [bytes]/[HexBytes] is [list byte], a [float] that
    is only ever multiplied by a power of two is [Q]. Code that raises returns
    a [result]; code that talks to the node, the clock, the logger or the
    database threads an explicit state. *)

From Stdlib Require Import ZArith QArith Lia List Ascii String.
From Stdlib.Strings Require Import Byte.
From stdpp Require Import base option list sorting gmap strings.
Import ListNotations.

Local Open Scope Z_scope.

(** * Python built-ins used by the sources *)

Module Py.

(** Exceptions the modelled code can meet. All of them derive from
    [Exception], so every [except Exception] clause catches them. *)
Inductive exn : Type :=
| ValueError                      (* int('', 16), time.sleep(-1) *)
| IndexError                      (* event['topics'][1] on a short list *)
| OverflowError                   (* sqlite3: Python int too large for SQLite INTEGER *)
| TimeoutError                    (* transport timeout *)
| HTTPError (status : Z)          (* 429, 5xx, ... *)
| Web3Exception (msg : string).   (* anything else the client library raises *)

Inductive result (A : Type) : Type :=
| Ok (a : A)
| Raise (e : exn).
Arguments Ok {A} a.
Arguments Raise {A} e.

Definition is_ok {A} (r : result A) : bool :=
  match r with Ok _ => true | Raise _ => false end.

(** ** Sequences: slicing and indexing *)

(** Normalisation of one slice bound against a sequence of length [n]:
    negative bounds count from the end, everything is clamped to [0..n]. *)
Definition clamp_index (n i : Z) : Z :=
  if i <? 0 then Z.max 0 (i + n) else Z.min i n.

(** [l[lo:hi]]; [None] is an omitted bound. *)
Definition py_slice {A} (l : list A) (lo hi : option Z) : list A :=
  let n := Z.of_nat (length l) in
  let a := match lo with None => 0 | Some i => clamp_index n i end in
  let b := match hi with None => n | Some j => clamp_index n j end in
  firstn (Z.to_nat (b - a)) (skipn (Z.to_nat a) l).

(** [l[i]]: negative indices count from the end, anything outside raises. *)
Definition py_index {A} (l : list A) (i : Z) : result A :=
  let n := Z.of_nat (length l) in
  let j := if i <? 0 then i + n else i in
  if (0 <=? j) && (j <? n) then
    match nth_error l (Z.to_nat j) with
    | Some x => Ok x
    | None => Raise IndexError
    end
  else Raise IndexError.

(** [s[lo:hi]] on a [str]. *)
Definition str_slice (s : string) (lo hi : option Z) : string :=
  string_of_list_ascii (py_slice (list_ascii_of_string s) lo hi).

(** ** Hexadecimal text *)

Definition hex_digit (n : N) : ascii :=
  match n with
  | 0%N => "0" | 1%N => "1" | 2%N => "2" | 3%N => "3"
  | 4%N => "4" | 5%N => "5" | 6%N => "6" | 7%N => "7"
  | 8%N => "8" | 9%N => "9" | 10%N => "a" | 11%N => "b"
  | 12%N => "c" | 13%N => "d" | 14%N => "e" | _ => "f"
  end%char.

Definition hex_of_byte (b : byte) : list ascii :=
  let n := Byte.to_N b in
  [hex_digit (n / 16); hex_digit (n mod 16)].

(** [bytes.hex()]: two lower-case digits per byte, no prefix. *)
Definition bytes_hex (bs : list byte) : string :=
  string_of_list_ascii (flat_map hex_of_byte bs).

(** [HexBytes.hex()] as the pipeline's client library gives it: the digits
    behind a [0x] prefix. (Newer releases of the [hexbytes] package drop the
    prefix; the one slice the pipeline takes of such a string, [[-40:]] of a
    32-byte topic, does not reach it.) *)
Definition HexBytes_hex (bs : list byte) : string :=
  "0x" +:+ bytes_hex bs.

(** The unsigned big-endian value of a byte string. *)
Definition be_value (bs : list byte) : Z :=
  fold_left (fun acc b => 256 * acc + Z.of_N (Byte.to_N b)) bs 0.

Definition hex_digit_value (c : ascii) : option Z :=
  let n := Z.of_N (N_of_ascii c) in
  if (48 <=? n) && (n <=? 57) then Some (n - 48)
  else if (97 <=? n) && (n <=? 102) then Some (n - 87)
  else if (65 <=? n) && (n <=? 70) then Some (n - 55)
  else None.

Fixpoint int16_digits (acc : Z) (cs : list ascii) : option Z :=
  match cs with
  | [] => Some acc
  | c :: cs' =>
      match hex_digit_value c with
      | Some d => int16_digits (16 * acc + d) cs'
      | None => None
      end
  end.

(** [int(s, 16)] on the literals the pipeline feeds it, windows of a
    hex-encoded payload: a non-empty run of hexadecimal digits is its value,
    the empty string is a [ValueError]. (Signs, blanks, underscores and a
    [0x] prefix, which [int] also accepts, never occur in such a window and
    are rejected here.) *)
Definition py_int16 (s : string) : result Z :=
  match list_ascii_of_string s with
  | [] => Raise ValueError
  | cs =>
      match int16_digits 0 cs with
      | Some v => Ok v
      | None => Raise ValueError
      end
  end.

End Py.

(** * utils/helpers.py *)

Module Helpers.
Import Py.

Section Retry.

(** The callee [func] is any Python callable: calling it may change its own
    state [S] (a simulated endpoint counting its calls, a socket, ...) and
    either returns a value or raises. *)
Context {S A : Type}.
Variable func : S -> result A * S.

(** What [retry_web3_call] does to the outside: the callee's state, the
    arguments of [time.sleep] in the order of the calls, and the records
    sent to [logger.warning] (attempt number shown, error, announced wait). *)
Record retry_state : Type := mk_retry_state {
  callee : S;
  sleeps : list Q;
  warnings : list (Z * exn * Q)
}.

(** [range(n)] *)
Definition py_range (n : Z) : list Z :=
  map Z.of_nat (seq 0 (Z.to_nat n)).

(** [time.sleep(d)] raises [ValueError] on a negative length. *)
Definition time_sleep (d : Q) (st : retry_state) : result unit * retry_state :=
  if Qle_bool 0 d
  then (Ok tt, mk_retry_state (callee st) (sleeps st ++ [d]) (warnings st))
  else (Raise ValueError, st).

(** The body of [for attempt in range(max_retries)], over the attempts still
    to come. Falling off the end of the loop returns [None]. *)
Fixpoint retry_attempts (max_retries : Z) (delay : Q) (attempts : list Z)
    (st : retry_state) : result (option A) * retry_state :=
  match attempts with
  | [] => (Ok None, st)
  | attempt :: rest =>
      match func (callee st) with
      | (Ok v, s') => (Ok (Some v), mk_retry_state s' (sleeps st) (warnings st))
      | (Raise e, s') =>
          let st1 := mk_retry_state s' (sleeps st) (warnings st) in
          if attempt =? max_retries - 1 then (Raise e, st1)
          else
            let wait_time := (delay * inject_Z (2 ^ attempt))%Q in
            let st2 := mk_retry_state (callee st1) (sleeps st1)
                         (warnings st1 ++ [(attempt + 1, e, wait_time)]) in
            match time_sleep wait_time st2 with
            | (Ok _, st3) => retry_attempts max_retries delay rest st3
            | (Raise e', st3) => (Raise e', st3)
            end
      end
  end.

(** [def retry_web3_call(func, max_retries: int = 3, delay: float = 1.0)] *)
Definition retry_web3_call (max_retries : Z) (delay : Q) (st : retry_state)
    : result (option A) * retry_state :=
  retry_attempts max_retries delay (py_range max_retries) st.

Definition default_max_retries : Z := 3.
Definition default_delay : Q := 1%Q.

(** The wait before the retry that follows attempt number [k]. *)
Definition backoff (delay : Q) (k : nat) : Q :=
  (delay * inject_Z (2 ^ Z.of_nat k))%Q.

(** [failures n s]: the errors of [n] calls of [func] in a row from state
    [s], all of them failing, and the state they leave; [None] if one of them
    succeeds. *)
Fixpoint failures (n : nat) (s : S) : option (list exn * S) :=
  match n with
  | O => Some ([], s)
  | Datatypes.S n' =>
      match func s with
      | (Raise e, s1) =>
          match failures n' s1 with
          | Some (es, s') => Some (e :: es, s')
          | None => None
          end
      | (Ok _, _) => None
      end
  end.

End Retry.

End Helpers.

(** * Values exchanged with the node *)

Module Chain.

(** A log entry as [get_all_entries] returns it: [data] is the [0x]-prefixed
    hexadecimal text of the payload, the topics and the hash are byte
    strings. *)
Record RawLog : Type := mk_RawLog {
  blockNumber : Z;
  transactionHash : list byte;
  address : string;
  topics : list (list byte);
  data : string
}.

Record Block : Type := mk_Block { timestamp : Z }.
Record Transaction : Type := mk_Transaction { gasPrice : Z }.
Record Receipt : Type := mk_Receipt { gasUsed : Z }.

(** The dictionary passed to [w3.eth.filter]. *)
Record FilterParams : Type := mk_FilterParams {
  fromBlock : option Z;
  toBlock : option Z;
  filter_topics : list string
}.

(** The [data] text a node sends for a payload of raw bytes. *)
Definition data_of_payload (payload : list byte) : string :=
  "0x" +:+ Py.bytes_hex payload.

(** The [i]-th 32-byte window of a payload, shorter or empty where the
    payload ends early. *)
Definition word (i : nat) (payload : list byte) : list byte :=
  firstn 32 (skipn (32 * i) payload).

End Chain.

(** * The SQLite store *)

Module Sqlite.

(** ** Storage classes *)
Inductive sqlval : Type :=
| SqlNull
| SqlInt (n : Z)
| SqlReal (q : Q)
| SqlText (s : string).

(** ** [datetime(X, 'unixepoch')] *)

(** Modelled from the SQLite documentation, the function itself being part of
    the database engine: a count of days since 1970-01-01 as a date of the
    proleptic Gregorian calendar, computed era by era (an era is 400 years,
    146097 days, and starts on a 1st of March). *)
Definition year_of_era (doe : Z) : Z :=
  (doe - doe / 1460 + doe / 36524 - doe / 146096) / 365.

Definition day_of_year (doe : Z) : Z :=
  let yoe := year_of_era doe in doe - (365 * yoe + yoe / 4 - yoe / 100).

(** Months counted from March, which is 0. *)
Definition month_index (doy : Z) : Z := (5 * doy + 2) / 153.

Definition day_of_month (doy : Z) : Z :=
  doy - (153 * month_index doy + 2) / 5 + 1.

Definition month (doy : Z) : Z :=
  let mp := month_index doy in if mp <? 10 then mp + 3 else mp - 9.

Definition civil_from_days (z : Z) : Z * Z * Z :=
  let z := z + 719468 in
  let era := z / 146097 in
  let doe := z mod 146097 in
  let doy := day_of_year doe in
  let y := year_of_era doe + 400 * era in
  (if month doy <=? 2 then y + 1 else y, month doy, day_of_month doy).

Definition digit_char (d : Z) : ascii := ascii_of_N (Z.to_N (48 + d)).

(** The last [width] decimal digits of [n], most significant first. *)
Fixpoint pad_digits (width : nat) (n : Z) : list ascii :=
  match width with
  | O => []
  | S w => pad_digits w (n / 10) ++ [digit_char (n mod 10)]
  end.

(** [YYYY-MM-DD HH:MM:SS] *)
Definition render_datetime (y m d hh mi ss : Z) : list ascii :=
  pad_digits 4 y ++ ["-"%char] ++ pad_digits 2 m ++ ["-"%char]
  ++ pad_digits 2 d ++ [" "%char] ++ pad_digits 2 hh
  ++ [":"%char] ++ pad_digits 2 mi ++ [":"%char] ++ pad_digits 2 ss.

(** Range of the ['unixepoch'] modifier: outside it the function yields
    NULL, here [None]. Inside it the text is [YYYY-MM-DD HH:MM:SS], with a
    leading minus sign for the years before year 0. *)
Definition unixepoch_min : Z := -210866760000.
Definition unixepoch_end : Z := 253402300800.

Definition datetime_unixepoch (ts : Z) : option string :=
  if (unixepoch_min <=? ts) && (ts <? unixepoch_end) then
    let secs := ts mod 86400 in
    let '(y, m, d) := civil_from_days (ts / 86400) in
    let text :=
      render_datetime (Z.abs y) m d (secs / 3600) (secs mod 3600 / 60) (secs mod 60) in
    Some (string_of_list_ascii (if y <? 0 then "-"%char :: text else text))
  else None.

(** Calendar order on (year, month, day). *)
Definition date_lt (a b : Z * Z * Z) : Prop :=
  let '(y, m, d) := a in
  let '(y', m', d') := b in
  y < y' \/ (y = y' /\ (m < m' \/ (m = m' /\ d < d'))).

(** ** Aggregates over text: [MIN], [MAX] under the BINARY collation, which
    compares byte by byte; NULLs are skipped, and no value at all gives
    NULL. *)
Definition text_min (a b : string) : string := if String.ltb b a then b else a.
Definition text_max (a b : string) : string := if String.ltb a b then b else a.

Fixpoint agg (pick : string -> string -> string) (acc : option string)
    (vs : list (option string)) : option string :=
  match vs with
  | [] => acc
  | None :: vs' => agg pick acc vs'
  | Some v :: vs' =>
      agg pick (Some (match acc with None => v | Some a => pick a v end)) vs'
  end.

Definition sql_MIN (vs : list (option string)) : option string := agg text_min None vs.
Definition sql_MAX (vs : list (option string)) : option string := agg text_max None vs.

Definition text_or_null (v : option string) : sqlval :=
  match v with Some s => SqlText s | None => SqlNull end.

(** ** Schema, as [init_database] creates it *)

(** The fourteen values [save_trades_to_db] binds to its INSERT, which are
    the entries of the dictionary [fetch_swap_events] builds for a swap. *)
Record trade_values : Type := mk_trade_values {
  block_number : Z;
  transaction_hash : string;
  pair_address : string;
  sender : string;
  to_address : string;
  amount0_in : Z;
  amount1_in : Z;
  amount0_out : Z;
  amount1_out : Z;
  token0_address : option string;
  token1_address : option string;
  timestamp : Z;
  gas_price : Z;
  gas_used : Z
}.

(** A row of [trades]: [id INTEGER PRIMARY KEY AUTOINCREMENT], the fourteen
    columns above, [created_at TIMESTAMP DEFAULT CURRENT_TIMESTAMP]. The
    table declares no other key and no UNIQUE constraint. (The columns of
    REAL affinity hold the double nearest to the bound integer; the model
    keeps the integer.) *)
Record trade_row : Type := mk_trade_row {
  id : Z;
  cols : trade_values;
  created_at : string
}.

(** A row of [wallets], keyed by [address TEXT PRIMARY KEY]:
    [total_trades INTEGER DEFAULT 0], [total_volume_usd REAL DEFAULT 0],
    [first_trade_date TIMESTAMP], [last_trade_date TIMESTAMP],
    [created_at TIMESTAMP DEFAULT CURRENT_TIMESTAMP]. *)
Record wallet_row : Type := mk_wallet_row {
  total_trades : sqlval;
  total_volume_usd : sqlval;
  first_trade_date : sqlval;
  last_trade_date : sqlval;
  wallet_created_at : string
}.

(** The database file: the rows of [trades] in rowid order, the counter
    AUTOINCREMENT keeps in [sqlite_sequence], and [wallets] by primary key.
    ([tokens] is created but no modelled function reads or writes it.) *)
Record Db : Type := mk_Db {
  trades : list trade_row;
  trades_seq : Z;
  wallets : gmap string wallet_row
}.

Definition init_database : Db := mk_Db [] 0 ∅.

(** ** Statements *)

(** The [sqlite3] module binds a Python [int] as a 64-bit INTEGER and raises
    [OverflowError] when it does not fit: [cursor.execute] fails before the
    statement runs. *)
Definition fits_int64 (n : Z) : bool := (- 2 ^ 63 <=? n) && (n <? 2 ^ 63).

Definition bindable (v : trade_values) : bool :=
  fits_int64 (block_number v) && fits_int64 (amount0_in v)
  && fits_int64 (amount1_in v) && fits_int64 (amount0_out v)
  && fits_int64 (amount1_out v) && fits_int64 (timestamp v)
  && fits_int64 (gas_price v) && fits_int64 (gas_used v).

Definition bind_trade (v : trade_values) : Py.result trade_values :=
  if bindable v then Py.Ok v else Py.Raise Py.OverflowError.

Definition max_id (rows : list trade_row) : Z :=
  fold_right (fun r acc => Z.max (id r) acc) 0 rows.

(** The rowid AUTOINCREMENT assigns: one more than the largest rowid the
    table has ever held. *)
Definition next_id (db : Db) : Z := Z.max (max_id (trades db)) (trades_seq db) + 1.

(** [INSERT OR IGNORE INTO trades (block_number, ..., gas_used) VALUES (?, ...)]
    at time [now]. The statement names neither [id] nor [created_at], so
    both take their defaults; OR IGNORE drops the row if it violates a
    uniqueness constraint of the table, and the only one is the primary key
    [id]. *)
Definition insert_or_ignore_trade (now : string) (v : trade_values) (db : Db) : Db :=
  let row := mk_trade_row (next_id db) v now in
  if existsb (fun r => id r =? id row) (trades db)
  then db
  else mk_Db (trades db ++ [row]) (id row) (wallets db).

(** One row of the result of
    [SELECT sender as wallet, COUNT( * ) as trade_count,
            MIN(datetime(timestamp, 'unixepoch')) as first_trade,
            MAX(datetime(timestamp, 'unixepoch')) as last_trade
     FROM trades GROUP BY sender]. *)
Record wallet_stat : Type := mk_wallet_stat {
  wallet : string;
  trade_count : Z;
  first_trade : option string;
  last_trade : option string
}.

Definition trades_of (a : string) (rows : list trade_row) : list trade_row :=
  filter (fun r => sender (cols r) = a) rows.

Definition timestamps_of (a : string) (rows : list trade_row) : list Z :=
  map (fun r => timestamp (cols r)) (trades_of a rows).

Definition senders (rows : list trade_row) : list string :=
  map (fun r => sender (cols r)) rows.

Definition group_stat (rows : list trade_row) (a : string) : wallet_stat :=
  let dates := map datetime_unixepoch (timestamps_of a rows) in
  mk_wallet_stat a (Z.of_nat (length (trades_of a rows))) (sql_MIN dates) (sql_MAX dates).

(** SQL leaves the order of the groups open; the model lists them by first
    appearance of the sender. *)
Definition select_wallet_stats (db : Db) : list wallet_stat :=
  map (group_stat (trades db)) (remove_dups (senders (trades db))).

(** [INSERT OR REPLACE INTO wallets (address, total_trades, first_trade_date,
    last_trade_date) VALUES (?, ?, ?, ?)] at time [now]: a row with the same
    primary key is deleted, and the new row takes the defaults of the columns
    the statement does not name: 0 for [total_volume_usd], the current time
    for [created_at]. *)
Definition wallet_row_of (s : wallet_stat) (now : string) : wallet_row :=
  mk_wallet_row (SqlInt (trade_count s)) (SqlReal 0)
    (text_or_null (first_trade s)) (text_or_null (last_trade s)) now.

Definition insert_or_replace_wallet (now : string) (s : wallet_stat) (db : Db) : Db :=
  mk_Db (trades db) (trades_seq db) (<[wallet s := wallet_row_of s now]> (wallets db)).

End Sqlite.

(** * class DeFiDataPipeline *)

Module Pipeline.
Import Py.

(** ** The outside world *)

(** Everything the pipeline asks of its surroundings: the JSON-RPC node
    behind [self.w3] and the clock SQLite reads for CURRENT_TIMESTAMP. The
    world [W] is arbitrary and every answer may change it, so a node may
    fail once and answer the next time, or answer differently each time.
    Each field is one call of the client library as the pipeline sees it: it
    returns or raises. What the library's HTTP provider does inside a call,
    re-sending the request before it gives up included, belongs to the
    world. *)
Class Node (W : Type) : Type := {
  eth_block_number : W -> result Z * W;
  eth_filter_get_all_entries : Chain.FilterParams -> W -> result (list Chain.RawLog) * W;
  eth_get_block : Z -> W -> result Chain.Block * W;
  eth_get_transaction : list byte -> W -> result Chain.Transaction * W;
  eth_get_transaction_receipt : list byte -> W -> result Chain.Receipt * W;
  eth_contract : string -> W -> result unit * W;
  call_symbol : string -> W -> result string * W;
  call_name : string -> W -> result string * W;
  call_decimals : string -> W -> result Z * W;
  call_totalSupply : string -> W -> result Z * W;
  current_timestamp : W -> string * W
}.

Inductive request : Type :=
| ReqBlockNumber
| ReqLogs (p : Chain.FilterParams)
| ReqBlock (n : Z)
| ReqTransaction (h : list byte)
| ReqReceipt (h : list byte)
| ReqContract (a : string)
| ReqSymbol (a : string)
| ReqName (a : string)
| ReqDecimals (a : string)
| ReqTotalSupply (a : string).

(** ** Logging and printing *)

Inductive level : Type := INFO | WARNING | ERROR.

(** The messages of the source, by format string. *)
Inductive message : Type :=
| Fetching (from_block to_block : option Z)   (* "Fetching swap events from block {} to {}" *)
| ErrorProcessingEvent (tx : string) (e : exn) (* "Error processing event {}: {}" *)
| Fetched (n : Z)                             (* "Successfully fetched {} swap events" *)
| ErrorFetching (e : exn)                     (* "Error fetching swap events: {}" *)
| Saved (n : Z)                               (* "Saved {} trades to database" *)
| UpdatedWalletStatistics                     (* "Updated wallet statistics" *)
| ErrorTokenInfo (a : string) (e : exn)       (* "Error fetching token info for {}: {}" *)
| Progress (text : string).                   (* fixed progress lines of run_full_pipeline *)

Inductive printed : Type :=
| TotalTradesProcessed (n : Z).               (* "Total trades processed: {}" *)

(** ** State and the monad of pipeline code *)

Record state (W : Type) : Type := mk_state {
  world : W;
  db : Sqlite.Db;                  (* the committed contents of the database file *)
  log : list (level * message);    (* records handed to [logger], oldest first *)
  requests : list request;         (* calls made to the client library, oldest first *)
  stdout : list printed
}.
Arguments mk_state {W}.
Arguments world {W}.
Arguments db {W}.
Arguments log {W}.
Arguments requests {W}.
Arguments stdout {W}.

(** A computation runs on a state and returns or raises; the state it leaves
    behind survives a raise, as the effects of Python code do. *)
Definition M (W A : Type) : Type := state W -> result A * state W.

Definition ret {W A} (a : A) : M W A := fun st => (Ok a, st).

Definition raise {W A} (e : exn) : M W A := fun st => (Raise e, st).

Definition bind {W A B} (c : M W A) (k : A -> M W B) : M W B :=
  fun st =>
    match c st with
    | (Ok a, st') => k a st'
    | (Raise e, st') => (Raise e, st')
    end.

(** [try: c  except Exception as e: handler e] *)
Definition try_except {W A} (c : M W A) (handler : exn -> M W A) : M W A :=
  fun st =>
    match c st with
    | (Ok a, st') => (Ok a, st')
    | (Raise e, st') => handler e st'
    end.

Definition lift {W A} (r : result A) : M W A := fun st => (r, st).

Declare Scope py_scope.
Delimit Scope py_scope with py.
Notation "x <- c ;; k" := (bind c (fun x => k))
  (at level 100, c at next level, right associativity) : py_scope.
Notation "c ;;; k" := (bind c (fun _ => k))
  (at level 100, right associativity) : py_scope.
Local Open Scope py_scope.

(** A request to the node: noted, then answered by the world. *)
Definition ask {W A} (r : request) (answer : W -> result A * W) : M W A :=
  fun st =>
    let '(a, w') := answer (world st) in
    (a, mk_state w' (db st) (log st) (requests st ++ [r]) (stdout st)).

Definition logger {W} (l : level) (m : message) : M W unit :=
  fun st => (Ok tt, mk_state (world st) (db st) (log st ++ [(l, m)]) (requests st) (stdout st)).

Definition print {W} (p : printed) : M W unit :=
  fun st => (Ok tt, mk_state (world st) (db st) (log st) (requests st) (stdout st ++ [p])).

(** SQLite evaluating CURRENT_TIMESTAMP. *)
Definition sql_now {W} `{Node W} : M W string :=
  fun st =>
    let '(t, w') := current_timestamp (world st) in
    (Ok t, mk_state w' (db st) (log st) (requests st) (stdout st)).

(** [sqlite3.connect(self.db_path)]: the connection starts from the committed
    contents; [conn.commit()] makes the pending contents the committed ones.
    A connection dropped before its commit leaves the file as it was. *)
Definition connect {W} : M W Sqlite.Db := fun st => (Ok (db st), st).

Definition commit {W} (pending : Sqlite.Db) : M W unit :=
  fun st => (Ok tt, mk_state (world st) pending (log st) (requests st) (stdout st)).

Section Methods.
Context {W : Type} `{Node W}.

(** ** __init__ *)

Definition swap_topic : string :=
  "0xd78ad95fa46c994b6551d0da85fc275fe613ce37657fb8d5e3d130840159d822".

(** ** get_token_info *)

Record TokenInfo : Type := mk_TokenInfo {
  address : string;
  symbol : string;
  name : string;
  decimals : Z;
  total_supply : Z
}.

(** The body of the [try]. *)
Definition token_lookup (token_address : string) : M W TokenInfo :=
  _ <- ask (ReqContract token_address) (eth_contract token_address) ;;
  symbol <- ask (ReqSymbol token_address) (call_symbol token_address) ;;
  name <- ask (ReqName token_address) (call_name token_address) ;;
  decimals <- ask (ReqDecimals token_address) (call_decimals token_address) ;;
  total_supply <- ask (ReqTotalSupply token_address) (call_totalSupply token_address) ;;
  ret (mk_TokenInfo token_address symbol name decimals total_supply).

Definition unknown_token (token_address : string) : TokenInfo :=
  mk_TokenInfo token_address "UNKNOWN" "Unknown Token" 18 0.

Definition get_token_info (token_address : string) : M W TokenInfo :=
  try_except (token_lookup token_address)
    (fun e =>
       logger ERROR (ErrorTokenInfo token_address e) ;;;
       ret (unknown_token token_address)).

(** ** fetch_swap_events *)

(** The dictionary literal [swap_data = {...}], its entries evaluated in the
    order written, given the block, transaction and receipt already
    fetched. *)
Definition parse_swap_data (event : Chain.RawLog) (block : Chain.Block)
    (transaction : Chain.Transaction) (receipt : Chain.Receipt)
    : result Sqlite.trade_values :=
  match py_index (Chain.topics event) 1 with
  | Raise e => Raise e
  | Ok topic1 =>
  match py_index (Chain.topics event) 2 with
  | Raise e => Raise e
  | Ok topic2 =>
  match py_int16 (str_slice (Chain.data event) (Some 2) (Some 66)) with
  | Raise e => Raise e
  | Ok amount0_in =>
  match py_int16 (str_slice (Chain.data event) (Some 66) (Some 130)) with
  | Raise e => Raise e
  | Ok amount1_in =>
  match py_int16 (str_slice (Chain.data event) (Some 130) (Some 194)) with
  | Raise e => Raise e
  | Ok amount0_out =>
  match py_int16 (str_slice (Chain.data event) (Some 194) (Some 258)) with
  | Raise e => Raise e
  | Ok amount1_out =>
      Ok (Sqlite.mk_trade_values
            (Chain.blockNumber event)
            (HexBytes_hex (Chain.transactionHash event))
            (Chain.address event)
            ("0x" +:+ str_slice (HexBytes_hex topic1) (Some (-40)) None)
            ("0x" +:+ str_slice (HexBytes_hex topic2) (Some (-40)) None)
            amount0_in amount1_in amount0_out amount1_out
            None None
            (Chain.timestamp block)
            (Chain.gasPrice transaction)
            (Chain.gasUsed receipt))
  end end end end end end.

(** The body of the inner [try]: three lookups, then the dictionary. *)
Definition decode_event (event : Chain.RawLog) : M W Sqlite.trade_values :=
  block <- ask (ReqBlock (Chain.blockNumber event))
               (eth_get_block (Chain.blockNumber event)) ;;
  transaction <- ask (ReqTransaction (Chain.transactionHash event))
                     (eth_get_transaction (Chain.transactionHash event)) ;;
  receipt <- ask (ReqReceipt (Chain.transactionHash event))
                 (eth_get_transaction_receipt (Chain.transactionHash event)) ;;
  lift (parse_swap_data event block transaction receipt).

(** [for event in ...:] with its [try]/[except]/[continue]; [swap_events] is
    the list being appended to. *)
Fixpoint process_events (events : list Chain.RawLog)
    (swap_events : list Sqlite.trade_values) : M W (list Sqlite.trade_values) :=
  match events with
  | [] => ret swap_events
  | event :: rest =>
      swap_events' <-
        try_except
          (swap_data <- decode_event event ;; ret (swap_events ++ [swap_data]))
          (fun e =>
             logger ERROR (ErrorProcessingEvent
                             (HexBytes_hex (Chain.transactionHash event)) e) ;;;
             ret swap_events) ;;
      process_events rest swap_events'
  end.

Definition len {A} (l : list A) : Z := Z.of_nat (length l).

Definition default_limit : Z := 1000.

Definition fetch_swap_events (from_block to_block : option Z) (limit : Z)
    : M W (list Sqlite.trade_values) :=
  logger INFO (Fetching from_block to_block) ;;;
  try_except
    (events <- ask (ReqLogs (Chain.mk_FilterParams from_block to_block [swap_topic]))
                   (eth_filter_get_all_entries
                      (Chain.mk_FilterParams from_block to_block [swap_topic])) ;;
     swap_events <- process_events (py_slice events None (Some limit)) [] ;;
     logger INFO (Fetched (len swap_events)) ;;;
     ret swap_events)
    (fun e =>
       logger ERROR (ErrorFetching e) ;;;
       ret []).

(** ** save_trades_to_db *)

(** [for trade in trades: cursor.execute(INSERT OR IGNORE ...)] on the pending
    contents of the connection. *)
Fixpoint insert_trades (trades : list Sqlite.trade_values) (pending : Sqlite.Db)
    : M W Sqlite.Db :=
  match trades with
  | [] => ret pending
  | trade :: rest =>
      v <- lift (Sqlite.bind_trade trade) ;;
      now <- sql_now ;;
      insert_trades rest (Sqlite.insert_or_ignore_trade now v pending)
  end.

Definition save_trades_to_db (trades : list Sqlite.trade_values) : M W unit :=
  match trades with
  | [] => ret tt
  | _ =>
      conn <- connect ;;
      pending <- insert_trades trades conn ;;
      commit pending ;;;
      logger INFO (Saved (len trades))
  end.

(** ** update_wallet_stats *)

Fixpoint replace_wallets (stats : list Sqlite.wallet_stat) (pending : Sqlite.Db)
    : M W Sqlite.Db :=
  match stats with
  | [] => ret pending
  | row :: rest =>
      now <- sql_now ;;
      replace_wallets rest (Sqlite.insert_or_replace_wallet now row pending)
  end.

Definition update_wallet_stats : M W unit :=
  conn <- connect ;;
  pending <- replace_wallets (Sqlite.select_wallet_stats conn) conn ;;
  commit pending ;;;
  logger INFO UpdatedWalletStatistics.

(** ** run_full_pipeline *)

(** Steps 1 to 3 and the first line of the summary. The reports, charts and
    CSV export that follow only read the tables. *)
Definition run_full_pipeline (from_block to_block : option Z) : M W unit :=
  logger INFO (Progress "Starting full DeFi data pipeline...") ;;;
  range <- match from_block with
           | None =>
               latest_block <- ask ReqBlockNumber eth_block_number ;;
               ret (Some (latest_block - 100), Some latest_block)
           | Some _ => ret (from_block, to_block)
           end ;;
  logger INFO (Progress "Step 1: Extracting swap events...") ;;;
  swap_events <- fetch_swap_events (fst range) (snd range) default_limit ;;
  logger INFO (Progress "Step 2: Saving data to database...") ;;;
  save_trades_to_db swap_events ;;;
  logger INFO (Progress "Step 3: Updating wallet statistics...") ;;;
  update_wallet_stats ;;;
  print (TotalTradesProcessed (len swap_events)).

End Methods.

(** ** Vocabulary for the statements *)

(** A log the dictionary literal cannot be built from: it lacks one of the
    three topics, or its [data] text ends at or before character 194, where
    the fourth amount starts. *)
Definition malformed_log (event : Chain.RawLog) : bool :=
  (length (Chain.topics event) <? 3)%nat
  || (String.length (Chain.data event) <=? 194)%nat.

(** A Swap log as the pair contract emits it, three topics and four 32-byte
    words of payload, whose numbers SQLite can take: block number and amounts
    within 64 bits. *)
Definition storable_swap_log (event : Chain.RawLog) : Prop :=
  exists t0 t1 t2 w0 w1 w2 w3 : list byte,
    Chain.topics event = [t0; t1; t2]
    /\ length w0 = 32%nat /\ length w1 = 32%nat
    /\ length w2 = 32%nat /\ length w3 = 32%nat
    /\ Chain.data event = Chain.data_of_payload (w0 ++ w1 ++ w2 ++ w3)
    /\ Sqlite.fits_int64 (Chain.blockNumber event) = true
    /\ be_value w0 < 2 ^ 63 /\ be_value w1 < 2 ^ 63
    /\ be_value w2 < 2 ^ 63 /\ be_value w3 < 2 ^ 63.

(** A node that answers every block, transaction and receipt lookup, with
    numbers within 64 bits. *)
Definition reliable_context (W : Type) `{Node W} : Prop :=
  (forall n w, exists b w',
      eth_get_block n w = (Ok b, w')
      /\ Sqlite.fits_int64 (Chain.timestamp b) = true)
  /\ (forall h w, exists t w',
        eth_get_transaction h w = (Ok t, w')
        /\ Sqlite.fits_int64 (Chain.gasPrice t) = true)
  /\ (forall h w, exists r w',
        eth_get_transaction_receipt h w = (Ok r, w')
        /\ Sqlite.fits_int64 (Chain.gasUsed r) = true).

(** The text under which a log's transaction appears in the trades table and
    in the log records. *)
Definition tx_text (event : Chain.RawLog) : string :=
  HexBytes_hex (Chain.transactionHash event).

(** The transaction hashes of the logs reported as skipped, in the order of
    the reports. *)
Fixpoint skipped (records : list (level * message)) : list string :=
  match records with
  | [] => []
  | (ERROR, ErrorProcessingEvent tx _) :: rest => tx :: skipped rest
  | _ :: rest => skipped rest
  end.

(** The readings of CURRENT_TIMESTAMP that [n] statements in a row take,
    starting in world [w]. *)
Fixpoint timestamps_read {W} `{Node W} (n : nat) (w : W) : list string :=
  match n with
  | O => []
  | Datatypes.S n' =>
      let '(t, w') := current_timestamp w in
      t :: timestamps_read n' w'
  end.

(** The state in which the loop starts once the node has answered the log
    query. *)
Definition after_query {W} (from_block to_block : option Z) (w1 : W) (st : state W)
    : state W :=
  mk_state w1 (db st) (log st ++ [(INFO, Fetching from_block to_block)])
    (requests st
     ++ [ReqLogs (Chain.mk_FilterParams from_block to_block [swap_topic])])
    (stdout st).

(** A fresh pipeline object: [__init__] has run [init_database] on a new
    file. *)
Definition initial_state {W} (w : W) : state W :=
  mk_state w Sqlite.init_database [] [] [].

End Pipeline.

(** * Simulated endpoints and nodes *)

Module Fixtures.
Import Py.

(** An endpoint that times out on its first [n] calls and answers 42 from
    then on; its state is the number of calls it has seen. *)
Definition flaky_endpoint (n : nat) (calls : nat) : result Z * nat :=
  if (calls <? n)%nat
  then (Raise TimeoutError, Datatypes.S calls)
  else (Ok 42, Datatypes.S calls).

Definition fresh_retry_state : Helpers.retry_state (S := nat) :=
  Helpers.mk_retry_state 0%nat [] [].

(** [n.to_bytes(width, 'big')], for building byte strings. *)
Definition byte_of_Z (n : Z) : byte :=
  match Byte.of_N (Z.to_N (n mod 256)) with
  | Some b => b
  | None => x00
  end.

Fixpoint be_bytes (width : nat) (n : Z) : list byte :=
  match width with
  | O => []
  | Datatypes.S w => be_bytes w (n / 256) ++ [byte_of_Z n]
  end.

(** The signature topic of the Uniswap V2 Swap event, as bytes. *)
Definition swap_topic_bytes : list byte :=
  be_bytes 32 0xd78ad95fa46c994b6551d0da85fc275fe613ce37657fb8d5e3d130840159d822.

Definition pair : string := "0xB4e16d0168e52d35CaCD2c6185b44281Ec28C9Dc".

(** A Swap log of transaction [tx] in block [block]: three topics, a payload
    of four 32-byte words. *)
Definition swap_log (block tx sender to a0 a1 a2 a3 : Z) : Chain.RawLog :=
  Chain.mk_RawLog block (be_bytes 32 tx) pair
    [swap_topic_bytes; be_bytes 32 sender; be_bytes 32 to]
    (Chain.data_of_payload
       (be_bytes 32 a0 ++ be_bytes 32 a1 ++ be_bytes 32 a2 ++ be_bytes 32 a3)).

(** The same log with a fifth word behind the four: 160 bytes of payload. *)
Definition long_log (block tx sender to a0 a1 a2 a3 extra : Z) : Chain.RawLog :=
  Chain.mk_RawLog block (be_bytes 32 tx) pair
    [swap_topic_bytes; be_bytes 32 sender; be_bytes 32 to]
    (Chain.data_of_payload
       (be_bytes 32 a0 ++ be_bytes 32 a1 ++ be_bytes 32 a2 ++ be_bytes 32 a3
        ++ be_bytes 32 extra)).

(** A log with the three topics but only [n] bytes of payload. *)
Definition short_log (block tx sender to : Z) (n : nat) : Chain.RawLog :=
  Chain.mk_RawLog block (be_bytes 32 tx) pair
    [swap_topic_bytes; be_bytes 32 sender; be_bytes 32 to]
    (Chain.data_of_payload (repeat xff n)).

(** A log of some other event: its first topic is not the Swap signature. *)
Definition foreign_log (block tx sender to a0 a1 a2 a3 : Z) : Chain.RawLog :=
  Chain.mk_RawLog block (be_bytes 32 tx) pair
    [be_bytes 32 0xddf252ad1be2c89b69c2b068fc378daa952ba7f163c4a11628f55a4df523b3ef;
     be_bytes 32 sender; be_bytes 32 to]
    (Chain.data_of_payload
       (be_bytes 32 a0 ++ be_bytes 32 a1 ++ be_bytes 32 a2 ++ be_bytes 32 a3)).

(** A scripted node. The answers to successive log queries are taken from
    [answers] (an empty script answers with no logs); block [n] carries the
    timestamp [n] (modulo 2^32); every transaction has the same gas price and
    gas use; no
    token contract answers; the clock reads [clock] seconds after the epoch
    and moves on by a second with each reading. *)
Record sim : Type := mk_sim {
  answers : list (result (list Chain.RawLog));
  clock : Z
}.

Definition sim_text (t : Z) : string :=
  match Sqlite.datetime_unixepoch t with Some s => s | None => "" end.

#[export] Instance sim_node : Pipeline.Node sim := {|
  Pipeline.eth_block_number w := (Ok 18000000, w);
  Pipeline.eth_filter_get_all_entries _ w :=
    match answers w with
    | [] => (Ok [], w)
    | a :: rest => (a, mk_sim rest (clock w))
    end;
  Pipeline.eth_get_block n w := (Ok (Chain.mk_Block (n mod 2 ^ 32)), w);
  Pipeline.eth_get_transaction _ w := (Ok (Chain.mk_Transaction 20000000000), w);
  Pipeline.eth_get_transaction_receipt _ w := (Ok (Chain.mk_Receipt 120000), w);
  Pipeline.eth_contract _ w := (Raise (Web3Exception "no contract"), w);
  Pipeline.call_symbol _ w := (Raise (Web3Exception "no contract"), w);
  Pipeline.call_name _ w := (Raise (Web3Exception "no contract"), w);
  Pipeline.call_decimals _ w := (Raise (Web3Exception "no contract"), w);
  Pipeline.call_totalSupply _ w := (Raise (Web3Exception "no contract"), w);
  Pipeline.current_timestamp w := (sim_text (clock w), mk_sim (answers w) (clock w + 1))
|}.

(** Sender 0xAA trading in blocks 100, 500 and 300, and one log of the same
    range cut short to ten bytes of payload. *)
Definition aa_events : list Chain.RawLog :=
  [swap_log 100 1 0xAA 0xBB 5 0 0 7;
   short_log 100 2 0xAA 0xBB 10;
   swap_log 500 3 0xAA 0xBB 0 9 4 0;
   swap_log 300 4 0xAA 0xCC 2 0 0 3].

(** A node that answers two log queries in a row with these logs. *)
Definition aa_world : sim := mk_sim [Ok aa_events; Ok aa_events] 1700000000.

(** The pipeline after fetching and saving them once, before the wallet
    refresh. *)
Definition aa_stored : Pipeline.state sim :=
  snd (Pipeline.bind
         (Pipeline.fetch_swap_events (Some 100) (Some 500) Pipeline.default_limit)
         Pipeline.save_trades_to_db
         (Pipeline.initial_state aa_world)).

(** Two trades of sender 0xAA stored directly, one stamped 100 and one
    stamped with the first second of the year 10000. *)
Definition aa_trade (tx : Z) (stamp : Z) : Sqlite.trade_values :=
  Sqlite.mk_trade_values 1 (HexBytes_hex (be_bytes 32 tx)) pair
    "0x00000000000000000000000000000000000000aa"
    "0x00000000000000000000000000000000000000bb"
    5 0 0 7 None None stamp 20000000000 120000.

Definition far_future_stored : Pipeline.state sim :=
  snd (Pipeline.save_trades_to_db [aa_trade 1 100; aa_trade 2 253402300800]
         (Pipeline.initial_state (mk_sim [] 1700000000))).

(** A node whose log query is refused with HTTP 429. *)
Definition rate_limited_world : sim := mk_sim [Raise (HTTPError 429)] 1700000000.

End Fixtures.

(** * utils/helpers.py: the functions besides the retry loop *)

Module HelpersText.
Import Py.

(** [def format_address(address: str) -> str]: [None] and the empty string
    are falsy. *)
Definition format_address (address : option string) : string :=
  match address with
  | None => "N/A"
  | Some a =>
      if String.eqb a "" then "N/A"
      else str_slice a None (Some 6) +:+ "..." +:+ str_slice a (Some (-4)) None
  end.

End HelpersText.

Module HelpersNode.
Import Py.

(** The two functions of helpers.py that take a [w3] object. They talk to the
    node and to the module's own logger, which records the errors below. *)
Inductive helper_error : Type :=
| ConnectionFailed (e : exn)             (* "Web3 connection failed: {}" *)
| ErrorGettingBlockTimestamps (e : exn). (* "Error getting block timestamps: {}" *)

Record hstate (W : Type) : Type := mk_hstate {
  hworld : W;
  hrequests : list Pipeline.request;
  herrors : list helper_error
}.
Arguments mk_hstate {W}.
Arguments hworld {W}.
Arguments hrequests {W}.
Arguments herrors {W}.

Section WithNode.
Context {W : Type} `{Pipeline.Node W}.

(** [def check_web3_connection(w3: Web3) -> bool] *)
Definition check_web3_connection (st : hstate W) : bool * hstate W :=
  match Pipeline.eth_block_number (hworld st) with
  | (Ok latest_block, w') =>
      (0 <? latest_block,
       mk_hstate w' (hrequests st ++ [Pipeline.ReqBlockNumber]) (herrors st))
  | (Raise e, w') =>
      (false,
       mk_hstate w' (hrequests st ++ [Pipeline.ReqBlockNumber])
         (herrors st ++ [ConnectionFailed e]))
  end.

(** [def get_block_timestamp_range(w3, from_block, to_block) -> tuple]: the
    pair of timestamps, or the pair [(None, None)]. *)
Definition get_block_timestamp_range (from_block to_block : Z) (st : hstate W)
    : (option Z * option Z) * hstate W :=
  match Pipeline.eth_get_block from_block (hworld st) with
  | (Raise e, w1) =>
      ((None, None),
       mk_hstate w1 (hrequests st ++ [Pipeline.ReqBlock from_block])
         (herrors st ++ [ErrorGettingBlockTimestamps e]))
  | (Ok start_block, w1) =>
      match Pipeline.eth_get_block to_block w1 with
      | (Raise e, w2) =>
          ((None, None),
           mk_hstate w2
             (hrequests st ++ [Pipeline.ReqBlock from_block; Pipeline.ReqBlock to_block])
             (herrors st ++ [ErrorGettingBlockTimestamps e]))
      | (Ok end_block, w2) =>
          ((Some (Chain.timestamp start_block), Some (Chain.timestamp end_block)),
           mk_hstate w2
             (hrequests st ++ [Pipeline.ReqBlock from_block; Pipeline.ReqBlock to_block])
             (herrors st))
      end
  end.

End WithNode.

End HelpersNode.

(** ** class ProgressTracker *)

Module Progress.
Import Py.

(** The fields the bar depends on; [description] and [start_time] only feed
    the text around it. *)
Record tracker : Type := mk_tracker {
  total : Z;
  current : Z
}.

(** The two glyphs of the bar: a full block and a light shade. *)
Inductive cell : Type := Full | Shade.

(** Where an [int] has no [float], Python raises [OverflowError]: [float(n)]
    needs [|n|] below 2^1024 - 2^970, half-way between the largest double and
    2^1024, and the true division [a / b] needs its quotient below the same
    bound. *)
Definition float_bound : Z := 2 ^ 1024 - 2 ^ 970.

Definition has_float (n : Z) : bool := Z.abs n <? float_bound.

Definition true_div_ok (a b : Z) : bool := Z.abs a <? float_bound * Z.abs b.

(** [s * n] for a one-character [s]: the count has to fit the 64-bit index
    type, or [OverflowError] is raised; a count of zero or less gives the
    empty string. (Memory for the string is taken for granted.) *)
Definition repeat_ok (n : Z) : bool := (- 2 ^ 63 <=? n) && (n <? 2 ^ 63).

Definition py_repeat (c : cell) (n : Z) : list cell := repeat c (Z.to_nat n).

Definition bar_length : Z := 40.

(** [filled = int(bar_length * self.current // self.total)], on integers a
    floor division. *)
Definition filled (t : tracker) : Z := bar_length * current t / total t.

Definition bar (t : tracker) : list cell :=
  py_repeat Full (filled t) ++ py_repeat Shade (bar_length - filled t).

(** What [_print_progress] sends to the terminal: the line with the bar (its
    percentage and ETA, floating-point text, are left out), and the closing
    newline. *)
Inductive output : Type :=
| Line (cells : list cell) (current total : Z)
| Newline.

(** [def _print_progress(self)]: the percentage, the ETA and the bar are
    computed, in this order, before anything is printed. *)
Definition _print_progress (t : tracker) : result (list output) :=
  if total t =? 0 then Ok []
  else if negb (true_div_ok (current t) (total t))
  then Raise OverflowError                (* self.current / self.total *)
  else if (0 <? current t)
          && negb (has_float (current t) && has_float (total t - current t))
  then Raise OverflowError                (* elapsed / self.current, .. * (total - current) *)
  else if negb (repeat_ok (filled t) && repeat_ok (bar_length - filled t))
  then Raise OverflowError                (* '#' * filled + '.' * (bar_length - filled) *)
  else
    Ok (Line (bar t) (current t) (total t)
        :: (if total t <=? current t then [Newline] else [])).

(** [def update(self, increment: int = 1)]: the counter has moved on even
    when printing raises. *)
Definition update (increment : Z) (t : tracker) : tracker * result (list output) :=
  let t' := mk_tracker (total t) (current t + increment) in
  (t', _print_progress t').

(** [n] calls of [update()] with the default increment, and all they print;
    an exception ends the sequence. *)
Fixpoint updates (n : nat) (t : tracker) : tracker * result (list output) :=
  match n with
  | O => (t, Ok [])
  | S n' =>
      match update 1 t with
      | (t1, Ok out1) =>
          match updates n' t1 with
          | (t2, Ok out2) => (t2, Ok (out1 ++ out2))
          | (t2, Raise e) => (t2, Raise e)
          end
      | (t1, Raise e) => (t1, Raise e)
      end
  end.

(** The line printed when the counter stands at [i] of [n]. *)
Definition line_at (n : Z) (i : Z) : output :=
  Line (bar (mk_tracker n i)) i n.

End Progress.

(** * config.py *)

Module Config.

(** The two environment variables the class reads with [os.getenv]: unset
    is [None]. *)
Record env : Type := mk_env {
  INFURA_PROJECT_ID : option string;
  ALCHEMY_API_KEY : option string
}.

(** Truth value of an optional string: [None] and [''] are falsy. *)
Definition truthy (v : option string) : bool :=
  match v with
  | Some s => negb (String.eqb s "")
  | None => false
  end.

Definition text_of (v : option string) : string :=
  match v with Some s => s | None => "None" end.

Definition public_endpoint : string := "https://cloudflare-eth.com".

(** [def get_web3_provider_url(cls)] *)
Definition get_web3_provider_url (c : env) : string :=
  if truthy (INFURA_PROJECT_ID c)
  then "https://mainnet.infura.io/v3/" +:+ text_of (INFURA_PROJECT_ID c)
  else if truthy (ALCHEMY_API_KEY c)
  then "https://eth-mainnet.alchemyapi.io/v2/" +:+ text_of (ALCHEMY_API_KEY c)
  else public_endpoint.

(** [def validate_config(cls)] *)
Definition validate_config (c : env) : list string :=
  if negb (truthy (INFURA_PROJECT_ID c)) && negb (truthy (ALCHEMY_API_KEY c))
  then ["No API key found. Using public endpoint (rate limited)"]
  else [].

End Config.

(** * run_pipeline.py *)

Module RunPipeline.

(** The provider URL [main] settles on: the Infura branch, or the public
    endpoint; the Alchemy branch is commented out in the source. *)
Definition provider_url (c : Config.env) : string :=
  if Config.truthy (Config.INFURA_PROJECT_ID c)
  then "https://mainnet.infura.io/v3/" +:+ Config.text_of (Config.INFURA_PROJECT_ID c)
  else "https://cloudflare-eth.com".

End RunPipeline.

(** * The read accessors of the pipeline *)

Module Reports.

(** One row of the result of [get_top_tokens]. *)
Record pair_stat : Type := mk_pair_stat {
  pair : string;
  pair_trade_count : Z;
  unique_traders : Z
}.

Definition pairs (rows : list Sqlite.trade_row) : list string :=
  map (fun r => Sqlite.pair_address (Sqlite.cols r)) rows.

Definition trades_of_pair (p : string) (rows : list Sqlite.trade_row)
    : list Sqlite.trade_row :=
  filter (fun r => Sqlite.pair_address (Sqlite.cols r) = p) rows.

(** [COUNT( * )] and [COUNT(DISTINCT sender)] of one group. *)
Definition pair_stat_of (rows : list Sqlite.trade_row) (p : string) : pair_stat :=
  let group := trades_of_pair p rows in
  mk_pair_stat p (Z.of_nat (length group))
    (Z.of_nat (length (remove_dups (Sqlite.senders group)))).

(** [ORDER BY trade_count DESC]: the larger count first. *)
Definition by_count_desc (a b : pair_stat) : Prop :=
  pair_trade_count b <= pair_trade_count a.

#[export] Instance by_count_desc_dec (a b : pair_stat) : Decision (by_count_desc a b) :=
  decide (pair_trade_count b <= pair_trade_count a).

(** [LIMIT n]: a negative [n] is no limit. *)
Definition sql_limit {A} (n : Z) (l : list A) : list A :=
  if n <? 0 then l else firstn (Z.to_nat n) l.

(** The groups of [GROUP BY pair_address] with their counts, ordered by
    [trade_count DESC]. SQL leaves the order among equal counts open; the
    model sorts the groups, listed by first appearance, with a merge sort. *)
Definition ranked_pairs (d : Sqlite.Db) : list pair_stat :=
  merge_sort by_count_desc
    (map (pair_stat_of (Sqlite.trades d)) (remove_dups (pairs (Sqlite.trades d)))).

(** [def get_top_tokens(self, limit: int = 10)], the rows of the data frame:
    [SELECT pair_address, COUNT( * ) as trade_count,
            COUNT(DISTINCT sender) as unique_traders
     FROM trades GROUP BY pair_address ORDER BY trade_count DESC LIMIT {}],
    the number written into the text with [format]. SQLite reads a number
    outside 64 bits as a REAL, which LIMIT refuses (datatype mismatch): the
    query fails and [read_sql_query] raises, [None] here. *)
Definition get_top_tokens (limit : Z) (d : Sqlite.Db) : option (list pair_stat) :=
  if Sqlite.fits_int64 limit then Some (sql_limit limit (ranked_pairs d)) else None.

End Reports.

(** * Nodes that fail *)

Module Outages.
Import Py Fixtures.

(** A node behind a gateway that has pruned its history and does not serve
    [eth_blockNumber]: blocks below [horizon] are not found; everything else
    is answered as by the scripted node. *)
Record pruned : Type := mk_pruned {
  horizon : Z;
  script : sim
}.

#[export] Instance pruned_node : Pipeline.Node pruned := {|
  Pipeline.eth_block_number w := (Raise TimeoutError, w);
  Pipeline.eth_filter_get_all_entries _ w :=
    match answers (script w) with
    | [] => (Ok [], w)
    | a :: rest => (a, mk_pruned (horizon w) (mk_sim rest (clock (script w))))
    end;
  Pipeline.eth_get_block n w :=
    if n <? horizon w then (Raise (Web3Exception "block not found"), w)
    else (Ok (Chain.mk_Block (n mod 2 ^ 32)), w);
  Pipeline.eth_get_transaction _ w := (Ok (Chain.mk_Transaction 20000000000), w);
  Pipeline.eth_get_transaction_receipt _ w := (Ok (Chain.mk_Receipt 120000), w);
  Pipeline.eth_contract _ w := (Ok tt, w);
  Pipeline.call_symbol _ w := (Ok "WETH", w);
  Pipeline.call_name _ w := (Ok "Wrapped Ether", w);
  Pipeline.call_decimals _ w := (Raise (HTTPError 502), w);
  Pipeline.call_totalSupply _ w := (Ok 1, w);
  Pipeline.current_timestamp w :=
    (sim_text (clock (script w)),
     mk_pruned (horizon w) (mk_sim (answers (script w)) (clock (script w) + 1)))
|}.

(** A node that serves no block below 200, asked for the logs of sender
    0xAA. *)
Definition pruned_world : pruned := mk_pruned 200 aa_world.

(** A swap whose first amount is 2^63, one more than SQLite's INTEGER
    holds. *)
Definition oversized_log : Chain.RawLog := swap_log 100 5 0xAA 0xBB (2 ^ 63) 0 0 7.

Definition oversized_trade : Sqlite.trade_values :=
  Sqlite.mk_trade_values 100 (HexBytes_hex (be_bytes 32 5)) pair
    "0x00000000000000000000000000000000000000aa"
    "0x00000000000000000000000000000000000000bb"
    (2 ^ 63) 0 0 7 None None 100 20000000000 120000.

Definition oversized_world : sim := mk_sim [Ok [oversized_log]] 1700000000.

End Outages.

(** * A database with two trading pairs *)

Module Markets.
Import Py Fixtures.

Definition dai_pair : string := "0xA478c2975Ab1Ea89e8196811F51A7B7Ade33eB11".

Definition trader_aa : string := "0x00000000000000000000000000000000000000aa".
Definition trader_bb : string := "0x00000000000000000000000000000000000000bb".

Definition trade_on (pair_address sender : string) : Sqlite.trade_values :=
  Sqlite.mk_trade_values 1 (HexBytes_hex (be_bytes 32 1)) pair_address sender
    "0x00000000000000000000000000000000000000cc"
    5 0 0 7 None None 100 20000000000 120000.

(** One trade on the first pair, then three on the second, by two traders. *)
Definition market_db : Sqlite.Db :=
  Pipeline.db
    (snd (Pipeline.save_trades_to_db
            [trade_on pair trader_aa; trade_on dai_pair trader_aa;
             trade_on dai_pair trader_bb; trade_on dai_pair trader_aa]
            (Pipeline.initial_state (mk_sim [] 1700000000)))).

End Markets.

(** * Batches with logs the decoder does not expect *)

Module Batches.
Import Py Fixtures.





End Batches.

(** * Vocabulary for further statements *)

Module Vocabulary.
Import Py.

(** What a trade and the log it was decoded from have in common. *)
Definition decoded_from (v : Sqlite.trade_values) (event : Chain.RawLog) : Prop :=
  Sqlite.block_number v = Chain.blockNumber event
  /\ Sqlite.transaction_hash v = Pipeline.tx_text event
  /\ Sqlite.pair_address v = Chain.address event
  /\ Sqlite.token0_address v = None
  /\ Sqlite.token1_address v = None.

Definition sum_Z (l : list Z) : Z := fold_right Z.add 0 l.

(** The blocks a sequence of requests looks up, in order. *)
Fixpoint block_lookups (rs : list Pipeline.request) : list Z :=
  match rs with
  | [] => []
  | Pipeline.ReqBlock n :: rest => n :: block_lookups rest
  | _ :: rest => block_lookups rest
  end.

(** A row of [wallets] with its [created_at] set aside. *)
Definition without_created_at (r : Sqlite.wallet_row)
    : Sqlite.sqlval * Sqlite.sqlval * Sqlite.sqlval * Sqlite.sqlval :=
  (Sqlite.total_trades r, Sqlite.total_volume_usd r,
   Sqlite.first_trade_date r, Sqlite.last_trade_date r).

End Vocabulary.

(** * Properties of [retry_web3_call] *)

Section RetryFacts.
Import Py Helpers.
Context {S A : Type}.
Variable func : S -> result A * S.

Lemma backoff_nonneg (delay : Q) (k : nat) :
  (0 <= delay)%Q -> Qle_bool 0 (backoff delay k) = true.
Proof.
  intros Hd. apply Qle_bool_iff. unfold backoff.
  apply Qmult_le_0_compat; [exact Hd|].
  unfold Qle; simpl. pose proof (Z.pow_pos_nonneg 2 (Z.of_nat k)). lia.
Qed.

Lemma backoff_doubles (delay : Q) (k : nat) :
  (backoff delay (Datatypes.S k) == 2 * backoff delay k)%Q.
Proof.
  unfold backoff.
  replace (2 ^ Z.of_nat (Datatypes.S k)) with (2 * 2 ^ Z.of_nat k).
  - rewrite inject_Z_mult. ring.
  - rewrite Nat2Z.inj_succ, Z.pow_succ_r by lia. reflexivity.
Qed.

(** While failures keep coming and attempts are left, the loop sleeps once
    per failure and goes on; the first success is returned. *)
Lemma retry_attempts_success (max_retries : Z) (delay : Q) :
  (0 <= delay)%Q ->
  forall (N a n : nat) (st : retry_state) es s1 v s2,
    failures func N (callee st) = Some (es, s1) ->
    func s1 = (Ok v, s2) ->
    (N < n)%nat ->
    Z.of_nat (a + n) = max_retries ->
    exists st',
      retry_attempts func max_retries delay (map Z.of_nat (seq a n)) st
        = (Ok (Some v), st')
      /\ callee st' = s2
      /\ sleeps st' = sleeps st ++ map (backoff delay) (seq a N).
Proof.
  intros Hd N. induction N as [|N IH]; intros a n st es s1 v s2 Hf Hok Hlt Hmax.
  - simpl in Hf. injection Hf as <- <-.
    destruct n as [|n]; [lia|]. simpl. rewrite Hok.
    eexists; repeat split; simpl. now rewrite app_nil_r.
  - simpl in Hf. destruct (func (callee st)) as [[v0|e] s0] eqn:Hcall; [discriminate|].
    destruct (failures func N s0) as [[es' s']|] eqn:Hrest; [|discriminate].
    injection Hf as <- <-.
    destruct n as [|n]; [lia|]. simpl. rewrite Hcall.
    replace (Z.of_nat a =? max_retries - 1) with false
      by (symmetry; apply Z.eqb_neq; lia).
    unfold time_sleep. simpl.
    change (delay * inject_Z (2 ^ Z.of_nat a))%Q with (backoff delay a).
    rewrite (backoff_nonneg delay a Hd).
    match goal with
    | |- context [retry_attempts _ _ _ _ ?st2] =>
        destruct (IH (Datatypes.S a) n st2 es' s' v s2) as (st' & Hrun & Hc & Hs);
          [exact Hrest | exact Hok | lia | lia |]
    end.
    exists st'. split; [exact Hrun|]. split; [exact Hc|].
    rewrite Hs. simpl. now rewrite <- app_assoc.
Qed.

(** When every attempt fails, the error of the last one is raised, after a
    sleep behind each attempt but the last. *)
Lemma retry_attempts_exhausted (max_retries : Z) (delay : Q) :
  (0 <= delay)%Q ->
  forall (n a : nat) (st : retry_state) es s',
    (0 < n)%nat ->
    failures func n (callee st) = Some (es, s') ->
    Z.of_nat (a + n) = max_retries ->
    exists e st',
      retry_attempts func max_retries delay (map Z.of_nat (seq a n)) st
        = (Raise e, st')
      /\ last es = Some e
      /\ callee st' = s'
      /\ sleeps st' = sleeps st ++ map (backoff delay) (seq a (n - 1)).
Proof.
  intros Hd n. induction n as [|n IH]; intros a st es s' Hpos Hf Hmax; [lia|].
  simpl in Hf. destruct (func (callee st)) as [[v0|e] s0] eqn:Hcall; [discriminate|].
  destruct (failures func n s0) as [[es' s1]|] eqn:Hrest; [|discriminate].
  injection Hf as <- <-.
  change (seq a (Datatypes.S n)) with (a :: seq (Datatypes.S a) n).
  cbn [map retry_attempts]. rewrite Hcall.
  destruct n as [|n].
  - simpl in Hrest. injection Hrest as <- <-.
    replace (Z.of_nat a =? max_retries - 1) with true
      by (symmetry; apply Z.eqb_eq; lia).
    exists e. eexists. repeat split; simpl. now rewrite app_nil_r.
  - replace (Z.of_nat a =? max_retries - 1) with false
      by (symmetry; apply Z.eqb_neq; lia).
    unfold time_sleep. cbn [sleeps callee warnings].
    change (delay * inject_Z (2 ^ Z.of_nat a))%Q with (backoff delay a).
    rewrite (backoff_nonneg delay a Hd).
    match goal with
    | |- context [retry_attempts _ _ _ _ ?st2] =>
        destruct (IH (Datatypes.S a) st2 es' s1) as (e' & st' & Hrun & Hlast & Hc & Hs);
          [lia | exact Hrest | lia |]
    end.
    exists e', st'. split; [exact Hrun|].
    split; [|split; [exact Hc|]].
    + destruct es' as [|e0 es']; [discriminate|]. exact Hlast.
    + rewrite Hs. simpl. rewrite Nat.sub_0_r. now rewrite <- app_assoc.
Qed.

(** C5. A callee that fails [N] times and then succeeds, with [N] below the
    number of attempts, has its result returned after exactly [N] sleeps, of
    [delay * 2 ** attempt] for attempt 0, 1, ...; a callee that fails on every
    attempt has its last error raised; and each wait is at least twice the one
    before. The number of attempts is any positive [max_retries], 3 by
    default. *)
Theorem retry_web3_call_backoff
    (max_retries : Z) (delay : Q) (st : retry_state) :
  0 < max_retries ->
  (0 <= delay)%Q ->
  (forall (N : nat) es s1 v s2,
      Z.of_nat N < max_retries ->
      failures func N (callee st) = Some (es, s1) ->
      func s1 = (Ok v, s2) ->
      exists st',
        retry_web3_call func max_retries delay st = (Ok (Some v), st')
        /\ callee st' = s2
        /\ sleeps st' = sleeps st ++ map (backoff delay) (seq 0 N))
  /\ (forall es s',
        failures func (Z.to_nat max_retries) (callee st) = Some (es, s') ->
        exists e st',
          retry_web3_call func max_retries delay st = (Raise e, st')
          /\ last es = Some e
          /\ callee st' = s'
          /\ sleeps st' = sleeps st
                           ++ map (backoff delay) (seq 0 (Z.to_nat max_retries - 1)))
  /\ (forall k : nat, (2 * backoff delay k <= backoff delay (Datatypes.S k))%Q).
Proof.
  intros Hmax Hd. split; [|split].
  - intros N es s1 v s2 HN Hf Hok. unfold retry_web3_call, py_range.
    apply (retry_attempts_success max_retries delay Hd N 0 (Z.to_nat max_retries)
             st es s1 v s2 Hf Hok); lia.
  - intros es s' Hf. unfold retry_web3_call, py_range.
    apply (retry_attempts_exhausted max_retries delay Hd (Z.to_nat max_retries) 0
             st es s'); [lia | exact Hf | lia].
  - intros k. rewrite (backoff_doubles delay k). apply Qle_refl.
Qed.

End RetryFacts.

Lemma retry_web3_call_backoff_witness :
  0 < Helpers.default_max_retries
  /\ (0 <= Helpers.default_delay)%Q
  /\ exists st',
       Helpers.retry_web3_call (Fixtures.flaky_endpoint 2)
         Helpers.default_max_retries Helpers.default_delay
         Fixtures.fresh_retry_state = (Py.Ok (Some 42), st')
       /\ Helpers.callee st' = 3%nat
       /\ Helpers.sleeps st' = [Helpers.backoff 1 0; Helpers.backoff 1 1].
Proof.
  assert (H0 : 0 < Helpers.default_max_retries) by reflexivity.
  assert (H1 : (0 <= Helpers.default_delay)%Q) by discriminate.
  split; [exact H0|]. split; [exact H1|].
  destruct (retry_web3_call_backoff (Fixtures.flaky_endpoint 2)
              Helpers.default_max_retries Helpers.default_delay
              Fixtures.fresh_retry_state H0 H1) as [Hsucc _].
  exact (Hsucc 2%nat [Py.TimeoutError; Py.TimeoutError] 2%nat 42 3%nat
           eq_refl eq_refl eq_refl).
Defined.


(** * Properties of the pipeline methods *)

Section TokenInfoFacts.
Import Py Pipeline.
Context {W : Type} `{Node W}.

(** Asking the node leaves the database and the log alone. *)
Lemma ask_frame {A} (r : request) (answer : W -> result A * W) (st : state W) :
  forall x st', ask r answer st = (x, st') ->
    db st' = db st /\ log st' = log st /\ stdout st' = stdout st
    /\ requests st' = requests st ++ [r]
    /\ answer (world st) = (x, world st').
Proof.
  intros x st'. unfold ask. destruct (answer (world st)) as [a w'].
  intros [= <- <-]. simpl. repeat split.
Qed.

Lemma token_lookup_frame (a : string) (st : state W) :
  forall r st', token_lookup a st = (r, st') ->
    db st' = db st /\ log st' = log st
    /\ match r with Ok info => address info = a | Raise _ => True end.
Proof.
  intros r st'. unfold token_lookup, bind, ret.
  repeat match goal with
  | |- context [ask ?q ?f ?s] =>
      let x := fresh "x" in let s' := fresh "st" in let E := fresh "E" in
      destruct (ask q f s) as [x s'] eqn:E;
      apply ask_frame in E; destruct E as (? & ? & _);
      destruct x
  end;
  intros [= <- <-]; repeat split; congruence.
Qed.

(** C8. [get_token_info] never raises, and the record it returns carries the
    address it was given; when anything in the on-chain lookup raises (the
    contract object or one of the four calls), the error is logged and the
    record is the sentinel: symbol UNKNOWN, name Unknown Token, 18 decimals,
    supply 0. The database is not touched. *)
Theorem get_token_info_sentinel (token_address : string) (st : state W) :
  exists info st',
    get_token_info token_address st = (Ok info, st')
    /\ address info = token_address
    /\ db st' = db st
    /\ (forall e st1,
          token_lookup token_address st = (Raise e, st1) ->
          info = mk_TokenInfo token_address "UNKNOWN" "Unknown Token" 18 0
          /\ log st' = log st ++ [(ERROR, ErrorTokenInfo token_address e)])
    /\ (forall info1 st1,
          token_lookup token_address st = (Ok info1, st1) ->
          info = info1 /\ log st' = log st).
Proof.
  unfold get_token_info, try_except.
  destruct (token_lookup token_address st) as [[info|e] st1] eqn:E;
    apply token_lookup_frame in E; destruct E as (Hdb & Hlog & Haddr).
  - exists info, st1. split; [reflexivity|]. split; [exact Haddr|].
    split; [exact Hdb|]. split.
    + intros e st2 [=].
    + intros info1 st2 [= <- <-]. split; [reflexivity | exact Hlog].
  - eexists _, _. split; [reflexivity|]. simpl. split; [reflexivity|].
    split; [exact Hdb|]. split.
    + intros e' st2 [= <- <-]. split; [reflexivity | now rewrite Hlog].
    + intros info1 st2 [=].
Qed.

End TokenInfoFacts.

(** * Slices and hexadecimal text *)

Section PyFacts.
Import Py.

Lemma clamp_index_inside (n i : Z) : 0 <= i <= n -> clamp_index n i = i.
Proof. unfold clamp_index. destruct (Z.ltb_spec i 0); lia. Qed.

Lemma clamp_index_above (n i : Z) : 0 <= n <= i -> clamp_index n i = n.
Proof. unfold clamp_index. destruct (Z.ltb_spec i 0); lia. Qed.

Lemma clamp_index_negative (n i : Z) : - n <= i < 0 -> clamp_index n i = i + n.
Proof. unfold clamp_index. destruct (Z.ltb_spec i 0); lia. Qed.

Lemma py_slice_middle {A} (p m s : list A) :
  py_slice (p ++ m ++ s) (Some (Z.of_nat (length p)))
    (Some (Z.of_nat (length p) + Z.of_nat (length m))) = m.
Proof.
  unfold py_slice. rewrite !length_app.
  do 2 (rewrite clamp_index_inside by lia).
  replace (Z.to_nat (Z.of_nat (length p) + Z.of_nat (length m) - Z.of_nat (length p)))
    with (length m) by lia.
  rewrite Nat2Z.id, drop_app_length. apply take_app_length.
Qed.

(** A slice that starts inside the sequence and whose window reaches past
    its end stops at the end. *)
Lemma py_slice_tail {A} (p m : list A) (hi : Z) :
  Z.of_nat (length p) + Z.of_nat (length m) <= hi ->
  py_slice (p ++ m) (Some (Z.of_nat (length p))) (Some hi) = m.
Proof.
  intros Hhi. unfold py_slice. rewrite !length_app.
  rewrite (clamp_index_inside _ (Z.of_nat (length p))) by lia.
  rewrite (clamp_index_above _ hi) by lia.
  rewrite Nat2Z.id, drop_app_length.
  apply firstn_all2. lia.
Qed.

(** A slice that starts at or past the end is empty. *)
Lemma py_slice_beyond {A} (l : list A) (lo hi : Z) :
  Z.of_nat (length l) <= lo -> py_slice l (Some lo) (Some hi) = [].
Proof.
  intros Hlo. unfold py_slice.
  rewrite (clamp_index_above _ lo) by lia.
  rewrite Nat2Z.id, skipn_all. apply firstn_nil.
Qed.

(** [l[-k:]] is the last [k] elements, for a positive [k] within [l]. *)
Lemma py_slice_suffix {A} (p s : list A) :
  (0 < length s)%nat ->
  py_slice (p ++ s) (Some (- Z.of_nat (length s))) None = s.
Proof.
  intros Hs. unfold py_slice. rewrite !length_app.
  rewrite clamp_index_negative by lia.
  replace (Z.to_nat (- Z.of_nat (length s) + Z.of_nat (length p + length s)))
    with (length p) by lia.
  rewrite drop_app_length. apply firstn_all2. lia.
Qed.

(** With a non-negative upper bound, [l[:hi]] is a prefix of [l] of at most
    [hi] elements. *)
Lemma py_slice_prefix {A} (l : list A) (hi : Z) :
  0 <= hi -> py_slice l None (Some hi) = firstn (Z.to_nat hi) l.
Proof.
  intros Hhi. unfold py_slice. rewrite Z.sub_0_r.
  change (Z.to_nat 0) with 0%nat. rewrite drop_0.
  destruct (Z.le_gt_cases hi (Z.of_nat (length l))).
  - now rewrite clamp_index_inside by lia.
  - rewrite clamp_index_above by lia.
    rewrite Nat2Z.id, firstn_all. symmetry. apply firstn_all2. lia.
Qed.

Lemma hex_of_byte_length (b : byte) : length (hex_of_byte b) = 2%nat.
Proof. reflexivity. Qed.

Lemma hex_length (bs : list byte) :
  length (flat_map hex_of_byte bs) = (2 * length bs)%nat.
Proof.
  induction bs as [|b bs IH]; [reflexivity|].
  cbn [flat_map]. rewrite length_app, IH, hex_of_byte_length. simpl. lia.
Qed.

Lemma chars_of_append (s t : string) :
  list_ascii_of_string (s +:+ t) = list_ascii_of_string s ++ list_ascii_of_string t.
Proof. induction s as [|c s IH]; simpl; [reflexivity | now rewrite IH]. Qed.

Lemma chars_of_bytes_hex (bs : list byte) :
  list_ascii_of_string (bytes_hex bs) = flat_map hex_of_byte bs.
Proof. apply list_ascii_of_string_of_list_ascii. Qed.

(** Two hexadecimal digits read back as the byte they were written from. *)
Lemma int16_digits_byte (b : byte) (acc : Z) (rest : list ascii) :
  int16_digits acc (hex_of_byte b ++ rest)
  = int16_digits (256 * acc + Z.of_N (Byte.to_N b)) rest.
Proof.
  assert (Hhi : hex_digit_value (hex_digit (Byte.to_N b / 16))
                = Some (Z.of_N (Byte.to_N b / 16))) by (destruct b; reflexivity).
  assert (Hlo : hex_digit_value (hex_digit (Byte.to_N b mod 16))
                = Some (Z.of_N (Byte.to_N b mod 16))) by (destruct b; reflexivity).
  unfold hex_of_byte. cbn [app int16_digits]. rewrite Hhi, Hlo. f_equal.
  rewrite N2Z.inj_div, N2Z.inj_mod. change (Z.of_N 16) with 16.
  pose proof (Z.div_mod (Z.of_N (Byte.to_N b)) 16). lia.
Qed.

Lemma int16_digits_hex (bs : list byte) (acc : Z) :
  int16_digits acc (flat_map hex_of_byte bs)
  = Some (fold_left (fun acc b => 256 * acc + Z.of_N (Byte.to_N b)) bs acc).
Proof.
  revert acc. induction bs as [|b bs IH]; intros acc; [reflexivity|].
  cbn [flat_map fold_left]. rewrite int16_digits_byte. apply IH.
Qed.

(** [int(bs.hex(), 16)] is the big-endian value of [bs]. *)
Lemma py_int16_bytes_hex (bs : list byte) :
  bs <> [] -> py_int16 (bytes_hex bs) = Ok (be_value bs).
Proof.
  intros Hne. unfold py_int16. rewrite chars_of_bytes_hex.
  destruct (flat_map hex_of_byte bs) as [|c cs] eqn:E.
  - apply (f_equal (@length ascii)) in E. rewrite hex_length in E.
    destruct bs; [congruence | discriminate].
  - rewrite <- E, int16_digits_hex. reflexivity.
Qed.

Lemma py_int16_empty : py_int16 "" = Raise ValueError.
Proof. reflexivity. Qed.

End PyFacts.

(** * Decoding one log *)

Section DecodeFacts.
Import Py Pipeline.

Lemma chars_of_data (payload : list byte) :
  list_ascii_of_string (Chain.data_of_payload payload)
  = ["0"; "x"]%char ++ flat_map hex_of_byte payload.
Proof.
  unfold Chain.data_of_payload. rewrite chars_of_append, chars_of_bytes_hex.
  reflexivity.
Qed.

(** The window [data[2 + 64 i : 66 + 64 i]] holds the digits of the [i]-th
    word of the payload. *)
Lemma data_window (payload : list byte) (i : nat) :
  str_slice (Chain.data_of_payload payload)
    (Some (2 + 64 * Z.of_nat i)) (Some (66 + 64 * Z.of_nat i))
  = bytes_hex (Chain.word i payload).
Proof.
  unfold str_slice, bytes_hex, Chain.word. f_equal. rewrite chars_of_data.
  set (pre := firstn (32 * i) payload).
  set (post := skipn (32 * i) payload).
  assert (Hsplit : payload = pre ++ firstn 32 post ++ skipn 32 post)
    by (unfold pre, post; now rewrite !firstn_skipn).
  destruct (Nat.le_gt_cases (32 * i) (length payload)) as [Hin|Hout].
  - assert (Hpre : length pre = (32 * i)%nat)
      by (unfold pre; rewrite length_firstn; lia).
    rewrite Hsplit at 1. rewrite !flat_map_app, app_assoc.
    destruct (Nat.le_gt_cases 32 (length post)) as [Hfull|Hshort].
    + replace (2 + 64 * Z.of_nat i)
        with (Z.of_nat (length (["0"; "x"]%char ++ flat_map hex_of_byte pre)))
        by (rewrite length_app, hex_length, Hpre; simpl length; lia).
      replace (66 + 64 * Z.of_nat i)
        with (Z.of_nat (length (["0"; "x"]%char ++ flat_map hex_of_byte pre))
              + Z.of_nat (length (flat_map hex_of_byte (firstn 32 post))))
        by (rewrite length_app, !hex_length, Hpre, length_firstn;
            simpl length; lia).
      apply py_slice_middle.
    + rewrite (skipn_all2 post) by lia. cbn [flat_map]. rewrite app_nil_r.
      replace (2 + 64 * Z.of_nat i)
        with (Z.of_nat (length (["0"; "x"]%char ++ flat_map hex_of_byte pre)))
        by (rewrite length_app, hex_length, Hpre; simpl length; lia).
      apply py_slice_tail.
      rewrite length_app, !hex_length, Hpre, length_firstn. simpl length. lia.
  - assert (Hpost : post = []) by (unfold post; apply skipn_all2; lia).
    rewrite Hpost. cbn [firstn flat_map]. apply py_slice_beyond.
    rewrite length_app, hex_length. simpl length. lia.
Qed.

Lemma word_nonempty (payload : list byte) (i : nat) :
  (32 * i < length payload)%nat -> Chain.word i payload <> [].
Proof.
  intros Hlt Hnil. apply (f_equal (@length byte)) in Hnil.
  unfold Chain.word in Hnil. rewrite length_firstn, length_skipn in Hnil.
  cbn [length] in Hnil. lia.
Qed.

Lemma word_empty (payload : list byte) (i : nat) :
  (length payload <= 32 * i)%nat -> Chain.word i payload = [].
Proof.
  intros Hle. unfold Chain.word. rewrite skipn_all2 by lia. apply firstn_nil.
Qed.

(** [int(data[2 + 64 i : 66 + 64 i], 16)] on a hex-encoded payload. *)
Lemma amount_window (payload : list byte) (i : nat) :
  py_int16 (str_slice (Chain.data_of_payload payload)
              (Some (2 + 64 * Z.of_nat i)) (Some (66 + 64 * Z.of_nat i)))
  = if (32 * i <? length payload)%nat
    then Ok (be_value (Chain.word i payload))
    else Raise ValueError.
Proof.
  rewrite data_window.
  destruct (Nat.ltb_spec (32 * i) (length payload)) as [Hlt|Hge].
  - apply py_int16_bytes_hex, word_nonempty, Hlt.
  - rewrite word_empty by exact Hge. reflexivity.
Qed.

Lemma amount_windows (payload : list byte) :
  let amount i lo hi :=
    py_int16 (str_slice (Chain.data_of_payload payload) (Some lo) (Some hi))
    = if (32 * i <? length payload)%nat
      then Ok (be_value (Chain.word i payload))
      else Raise ValueError in
  amount 0%nat 2 66 /\ amount 1%nat 66 130
  /\ amount 2%nat 130 194 /\ amount 3%nat 194 258.
Proof.
  repeat split.
  - exact (amount_window payload 0).
  - exact (amount_window payload 1).
  - exact (amount_window payload 2).
  - exact (amount_window payload 3).
Qed.

Lemma py_index_cons {A} (x : A) (l : list A) (i : Z) :
  0 <= i -> py_index (x :: l) (i + 1) = py_index l i.
Proof.
  intros Hi. unfold py_index. cbn [length]. rewrite Nat2Z.inj_succ.
  destruct (Z.ltb_spec (i + 1) 0); [lia|].
  destruct (Z.ltb_spec i 0); [lia|].
  replace (Z.to_nat (i + 1)) with (Datatypes.S (Z.to_nat i)) by lia.
  cbn [nth_error].
  replace (0 <=? i + 1) with (0 <=? i) by (apply eq_true_iff_eq; rewrite !Z.leb_le; lia).
  replace (i + 1 <? Z.succ (Z.of_nat (length l))) with (i <? Z.of_nat (length l))
    by (apply eq_true_iff_eq; rewrite !Z.ltb_lt; lia).
  reflexivity.
Qed.

Lemma py_index_head {A} (x : A) (l : list A) : py_index (x :: l) 0 = Ok x.
Proof.
  unfold py_index. cbn [length]. rewrite Nat2Z.inj_succ. cbn.
  destruct (Z.ltb_spec 0 (Z.succ (Z.of_nat (length l)))); [reflexivity | lia].
Qed.

Lemma py_index_1 {A} (x0 x1 : A) (l : list A) : py_index (x0 :: x1 :: l) 1 = Ok x1.
Proof.
  exact (eq_trans (py_index_cons x0 (x1 :: l) 0 (Z.le_refl 0)) (py_index_head x1 l)).
Qed.

Lemma py_index_2 {A} (x0 x1 x2 : A) (l : list A) :
  py_index (x0 :: x1 :: x2 :: l) 2 = Ok x2.
Proof.
  exact (eq_trans (py_index_cons x0 (x1 :: x2 :: l) 1 Z.le_0_1) (py_index_1 x1 x2 l)).
Qed.

(** A list shorter than three has no index 1 or no index 2. *)
Lemma py_index_short {A} (l : list A) :
  (length l < 3)%nat ->
  py_index l 1 = Raise IndexError \/ py_index l 2 = Raise IndexError.
Proof.
  intros Hlen. destruct l as [|x0 [|x1 [|x2 l]]]; cbn [length] in Hlen; try lia.
  - left. reflexivity.
  - left. reflexivity.
  - right. reflexivity.
Qed.

(** ['0x' + topic.hex()[-40:]] is the hexadecimal text of the last twenty
    bytes of a topic of twenty bytes or more. *)
Lemma low_20_bytes (topic : list byte) :
  (20 <= length topic)%nat ->
  "0x" +:+ str_slice (HexBytes_hex topic) (Some (-40)) None
  = HexBytes_hex (skipn (length topic - 20) topic).
Proof.
  intros Hlen. unfold HexBytes_hex at 2. f_equal.
  unfold str_slice, HexBytes_hex, bytes_hex. f_equal.
  rewrite chars_of_append, list_ascii_of_string_of_list_ascii.
  rewrite <- (firstn_skipn (length topic - 20) topic) at 1.
  rewrite flat_map_app, app_assoc.
  replace (-40) with (- Z.of_nat (length (flat_map hex_of_byte
                                            (skipn (length topic - 20) topic))))
    by (rewrite hex_length, length_skipn; lia).
  apply py_slice_suffix. rewrite hex_length, length_skipn. lia.
Qed.

(** The same slice of the unprefixed text newer [hexbytes] releases give. *)
Lemma low_20_bytes_unprefixed (topic : list byte) :
  (20 <= length topic)%nat ->
  str_slice (bytes_hex topic) (Some (-40)) None
  = str_slice (HexBytes_hex topic) (Some (-40)) None.
Proof.
  intros Hlen. unfold str_slice, HexBytes_hex, bytes_hex. f_equal.
  rewrite chars_of_append, !list_ascii_of_string_of_list_ascii.
  rewrite <- (firstn_skipn (length topic - 20) topic).
  rewrite flat_map_app, app_assoc.
  replace (-40) with (- Z.of_nat (length (flat_map hex_of_byte
                                            (skipn (length topic - 20) topic))))
    by (rewrite hex_length, length_skipn; lia).
  rewrite !py_slice_suffix by (rewrite hex_length, length_skipn; lia).
  reflexivity.
Qed.

(** What the dictionary literal evaluates to on a log with three topics or
    more and a hex-encoded payload of more than 96 bytes. *)
Lemma parse_swap_data_long (event : Chain.RawLog) (payload : list byte)
    (block : Chain.Block) (transaction : Chain.Transaction)
    (receipt : Chain.Receipt) (t0 t1 t2 : list byte) (ts : list (list byte)) :
  Chain.data event = Chain.data_of_payload payload ->
  Chain.topics event = t0 :: t1 :: t2 :: ts ->
  (96 < length payload)%nat ->
  parse_swap_data event block transaction receipt
  = Ok (Sqlite.mk_trade_values
          (Chain.blockNumber event)
          (HexBytes_hex (Chain.transactionHash event))
          (Chain.address event)
          ("0x" +:+ str_slice (HexBytes_hex t1) (Some (-40)) None)
          ("0x" +:+ str_slice (HexBytes_hex t2) (Some (-40)) None)
          (be_value (Chain.word 0 payload)) (be_value (Chain.word 1 payload))
          (be_value (Chain.word 2 payload)) (be_value (Chain.word 3 payload))
          None None
          (Chain.timestamp block) (Chain.gasPrice transaction)
          (Chain.gasUsed receipt)).
Proof.
  intros Hdata Htopics Hlen. unfold parse_swap_data.
  rewrite Htopics, py_index_1, py_index_2, Hdata.
  destruct (amount_windows payload) as (-> & -> & -> & ->).
  destruct (Nat.ltb_spec (32 * 0) (length payload)); [|lia].
  destruct (Nat.ltb_spec (32 * 1) (length payload)); [|lia].
  destruct (Nat.ltb_spec (32 * 2) (length payload)); [|lia].
  destruct (Nat.ltb_spec (32 * 3) (length payload)); [|lia].
  reflexivity.
Qed.

(** On a payload of 96 bytes or fewer the fourth window is empty and
    [int('', 16)] raises, whatever came before. *)
Lemma parse_swap_data_short (event : Chain.RawLog) (payload : list byte)
    (block : Chain.Block) (transaction : Chain.Transaction)
    (receipt : Chain.Receipt) :
  Chain.data event = Chain.data_of_payload payload ->
  (length payload <= 96)%nat ->
  exists e, parse_swap_data event block transaction receipt = Raise e
            /\ (e = ValueError \/ e = IndexError).
Proof.
  intros Hdata Hlen. unfold parse_swap_data.
  destruct (py_index (Chain.topics event) 1) as [t1|e1] eqn:H1.
  2: { exists e1. split; [reflexivity|]. right.
       unfold py_index in H1.
       repeat match type of H1 with
              | context [if ?c then _ else _] => destruct c
              | context [match ?c with _ => _ end] => destruct c
              end; congruence. }
  destruct (py_index (Chain.topics event) 2) as [t2|e2] eqn:H2.
  2: { exists e2. split; [reflexivity|]. right.
       unfold py_index in H2.
       repeat match type of H2 with
              | context [if ?c then _ else _] => destruct c
              | context [match ?c with _ => _ end] => destruct c
              end; congruence. }
  rewrite Hdata.
  destruct (amount_windows payload) as (-> & -> & -> & ->).
  destruct (Nat.ltb_spec (32 * 3) (length payload)); [lia|].
  exists ValueError. split; [|left; reflexivity].
  repeat match goal with
         | |- context [if ?c then _ else _] => destruct c
         end; reflexivity.
Qed.

Lemma take_exact {A} (n : nat) (w r : list A) :
  length w = n -> firstn n (w ++ r) = w.
Proof. intros <-. apply take_app_length. Qed.

Lemma drop_exact {A} (n : nat) (w r : list A) :
  length w = n -> skipn n (w ++ r) = r.
Proof. intros <-. apply drop_app_length. Qed.

Lemma word_of_words (w0 w1 w2 w3 rest : list byte) :
  length w0 = 32%nat -> length w1 = 32%nat ->
  length w2 = 32%nat -> length w3 = 32%nat ->
  Chain.word 0 (w0 ++ w1 ++ w2 ++ w3 ++ rest) = w0
  /\ Chain.word 1 (w0 ++ w1 ++ w2 ++ w3 ++ rest) = w1
  /\ Chain.word 2 (w0 ++ w1 ++ w2 ++ w3 ++ rest) = w2
  /\ Chain.word 3 (w0 ++ w1 ++ w2 ++ w3 ++ rest) = w3.
Proof.
  intros H0 H1 H2 H3. unfold Chain.word.
  change (32 * 0)%nat with 0%nat. change (32 * 1)%nat with 32%nat.
  change (32 * 2)%nat with 64%nat. change (32 * 3)%nat with 96%nat.
  repeat split.
  - rewrite drop_0. now apply take_exact.
  - rewrite (drop_exact 32 w0) by exact H0. now apply take_exact.
  - rewrite (app_assoc w0 w1).
    rewrite (drop_exact 64 (w0 ++ w1)) by (rewrite length_app; lia).
    now apply take_exact.
  - rewrite (app_assoc w0 w1), (app_assoc (w0 ++ w1) w2).
    rewrite (drop_exact 96 ((w0 ++ w1) ++ w2)) by (rewrite !length_app; lia).
    now apply take_exact.
Qed.

End DecodeFacts.

(** * Fetching *)

Section FetchFacts.
Import Py Pipeline.
Context {W : Type} `{Node W}.

Lemma bind_ok {A B} (c : M W A) (k : A -> M W B) (st st1 : state W) (a : A) :
  c st = (Ok a, st1) -> bind c k st = k a st1.
Proof. intros Hc. unfold bind. now rewrite Hc. Qed.

Lemma decode_event_frame (event : Chain.RawLog) (st : state W) :
  forall r st', decode_event event st = (r, st') ->
    db st' = db st /\ log st' = log st /\ stdout st' = stdout st.
Proof.
  intros r st'. unfold decode_event, bind, lift.
  repeat match goal with
  | |- context [ask ?q ?f ?s] =>
      let x := fresh "x" in let s' := fresh "st" in let E := fresh "E" in
      destruct (ask q f s) as [x s'] eqn:E;
      apply ask_frame in E; destruct E as (? & ? & ? & _);
      destruct x
  end;
  intros [= <- <-]; repeat split; congruence.
Qed.

(** With a node that answers, decoding is the dictionary literal applied to
    the three answers. *)
Lemma decode_event_reliable (event : Chain.RawLog) (st : state W) :
  reliable_context W ->
  exists b t r st',
    decode_event event st = (parse_swap_data event b t r, st')
    /\ db st' = db st /\ log st' = log st /\ stdout st' = stdout st
    /\ Sqlite.fits_int64 (Chain.timestamp b) = true
    /\ Sqlite.fits_int64 (Chain.gasPrice t) = true
    /\ Sqlite.fits_int64 (Chain.gasUsed r) = true.
Proof.
  intros (Hb & Ht & Hr). unfold decode_event, bind, lift, ask.
  destruct (Hb (Chain.blockNumber event) (world st)) as (b & w1 & -> & Fb).
  cbn [world].
  destruct (Ht (Chain.transactionHash event) w1) as (t & w2 & -> & Ft).
  cbn [world].
  destruct (Hr (Chain.transactionHash event) w2) as (r & w3 & -> & Fr).
  exists b, t, r. eexists. split; [reflexivity|]. cbn. repeat split; assumption.
Qed.

(** One turn of the loop: the event is appended or reported, never both, and
    the loop goes on. *)
Lemma process_events_cons (event : Chain.RawLog) (rest : list Chain.RawLog)
    (acc : list Sqlite.trade_values) (st : state W) :
  process_events (event :: rest) acc st
  = match decode_event event st with
    | (Ok swap_data, st') => process_events rest (acc ++ [swap_data]) st'
    | (Raise e, st') =>
        process_events rest acc
          (mk_state (world st') (db st')
             (log st' ++ [(ERROR, ErrorProcessingEvent
                                    (HexBytes_hex (Chain.transactionHash event)) e)])
             (requests st') (stdout st'))
    end.
Proof.
  cbn [process_events]. unfold bind at 1. unfold try_except, bind at 1.
  destruct (decode_event event st) as [[v|e] st']; reflexivity.
Qed.

(** The loop never raises, returns at most one trade per event, and leaves
    the database alone. *)
Lemma process_events_total (events : list Chain.RawLog) :
  forall (acc : list Sqlite.trade_values) (st : state W),
  exists new st',
    process_events events acc st = (Ok (acc ++ new), st')
    /\ (length new <= length events)%nat
    /\ db st' = db st /\ stdout st' = stdout st.
Proof.
  induction events as [|event rest IH]; intros acc st.
  - exists [], st. cbn. rewrite app_nil_r. repeat split. lia.
  - rewrite process_events_cons.
    destruct (decode_event event st) as [[v|e] st1] eqn:E;
      apply decode_event_frame in E; destruct E as (Hdb & Hlog & Hout).
    + destruct (IH (acc ++ [v]) st1) as (new & st' & -> & Hlen & Hdb' & Hout').
      exists (v :: new), st'. rewrite <- app_assoc. cbn [app length].
      repeat split; [lia | congruence | congruence].
    + match goal with
      | |- context [process_events rest acc ?s] =>
          destruct (IH acc s) as (new & st' & -> & Hlen & Hdb' & Hout')
      end.
      exists new, st'. cbn [length]. cbn in Hdb', Hout'.
      repeat split; [lia | congruence | congruence].
Qed.

Lemma fetch_swap_events_answered (from_block to_block : option Z) (limit : Z)
    (st : state W) (events : list Chain.RawLog) (w1 : W) :
  eth_filter_get_all_entries
    (Chain.mk_FilterParams from_block to_block [swap_topic]) (world st)
  = (Ok events, w1) ->
  exists swap_events st2,
    process_events (py_slice events None (Some limit)) []
      (after_query from_block to_block w1 st) = (Ok swap_events, st2)
    /\ fetch_swap_events from_block to_block limit st
       = (Ok swap_events,
          mk_state (world st2) (db st2)
            (log st2 ++ [(INFO, Fetched (len swap_events))])
            (requests st2) (stdout st2))
    /\ (length swap_events <= length (py_slice events None (Some limit)))%nat
    /\ db st2 = db st /\ stdout st2 = stdout st.
Proof.
  intros Hq.
  destruct (process_events_total (py_slice events None (Some limit)) []
              (after_query from_block to_block w1 st))
    as (new & st2 & Hrun & Hlen & Hdb & Hout).
  exists new, st2. cbn [app] in Hrun. split; [exact Hrun|].
  split; [|repeat split; assumption].
  unfold fetch_swap_events, bind at 1, logger at 1, try_except, bind at 1, ask.
  cbn [world]. rewrite Hq. cbn [db log requests stdout].
  unfold bind at 1. unfold after_query in Hrun. rewrite Hrun. reflexivity.
Qed.

(** A failed log query: one call, one ERROR record, an empty list. *)
Lemma fetch_swap_events_failed (from_block to_block : option Z) (limit : Z)
    (st : state W) (e : exn) (w1 : W) :
  eth_filter_get_all_entries
    (Chain.mk_FilterParams from_block to_block [swap_topic]) (world st)
  = (Raise e, w1) ->
  fetch_swap_events from_block to_block limit st
  = (Ok [],
     mk_state w1 (db st)
       (log st ++ [(INFO, Fetching from_block to_block); (ERROR, ErrorFetching e)])
       (requests st
        ++ [ReqLogs (Chain.mk_FilterParams from_block to_block [swap_topic])])
       (stdout st)).
Proof.
  intros Hq.
  unfold fetch_swap_events, bind at 1, logger at 1, try_except, bind at 1, ask.
  cbn [world]. rewrite Hq. cbn. now rewrite <- app_assoc.
Qed.

(** C6. When the log query raises, whatever the exception, the failure is
    not passed on: [fetch_swap_events] logs it at ERROR level and returns the
    empty list, the database untouched. The query is the only call it has
    made to the client library: the method has no retry or backoff of its
    own, and whether the request was sent again before the exception was
    raised is the business of the library's HTTP provider. *)
Theorem query_failure_returns_empty (from_block to_block : option Z) (limit : Z)
    (st : state W) (e : exn) (w1 : W) :
  eth_filter_get_all_entries
    (Chain.mk_FilterParams from_block to_block [swap_topic]) (world st)
  = (Raise e, w1) ->
  exists st',
    fetch_swap_events from_block to_block limit st = (Ok [], st')
    /\ requests st'
       = requests st
         ++ [ReqLogs (Chain.mk_FilterParams from_block to_block [swap_topic])]
    /\ log st'
       = log st ++ [(INFO, Fetching from_block to_block); (ERROR, ErrorFetching e)]
    /\ db st' = db st /\ world st' = w1 /\ stdout st' = stdout st.
Proof.
  intros Hq. eexists. split.
  - apply fetch_swap_events_failed, Hq.
  - cbn. repeat split.
Qed.

(** Truncation leaves no trace in what [fetch_swap_events] returns and
    leaves behind. *)
Lemma fetch_swap_events_truncated (from_block to_block : option Z) (limit : Z)
    (st : state W) (events : list Chain.RawLog) (w1 : W) :
  0 <= limit ->
  eth_filter_get_all_entries
    (Chain.mk_FilterParams from_block to_block [swap_topic]) (world st)
  = (Ok events, w1) ->
  exists swap_events st',
    fetch_swap_events from_block to_block limit st = (Ok swap_events, st')
    /\ len swap_events <= limit
    /\ (length swap_events <= length events)%nat
    /\ forall st_t : state W,
         eth_filter_get_all_entries
           (Chain.mk_FilterParams from_block to_block [swap_topic]) (world st_t)
         = (Ok (firstn (Z.to_nat limit) events), w1) ->
         db st_t = db st -> log st_t = log st ->
         requests st_t = requests st -> stdout st_t = stdout st ->
         fetch_swap_events from_block to_block limit st_t = (Ok swap_events, st').
Proof.
  intros Hlimit Hq.
  destruct (fetch_swap_events_answered from_block to_block limit st events w1 Hq)
    as (swaps & st2 & Hrun & Hfetch & Hlen & _).
  eexists _, _. split; [exact Hfetch|].
  rewrite py_slice_prefix in Hlen, Hrun by exact Hlimit.
  pose proof (firstn_le_length (Z.to_nat limit) events) as Hle.
  rewrite length_firstn in Hlen.
  split; [unfold len; lia|]. split; [lia|].
  intros st_t Hq_t Hdb Hlog Hreq Hout.
  destruct (fetch_swap_events_answered from_block to_block limit st_t _ w1 Hq_t)
    as (swaps_t & st2_t & Hrun_t & Hfetch_t & _).
  rewrite py_slice_prefix in Hrun_t by exact Hlimit.
  rewrite firstn_firstn, Nat.min_id in Hrun_t.
  assert (Hsame : after_query from_block to_block w1 st_t
                  = after_query from_block to_block w1 st)
    by (unfold after_query; now rewrite Hdb, Hlog, Hreq, Hout).
  rewrite Hsame, Hrun in Hrun_t. injection Hrun_t as <- <-.
  exact Hfetch_t.
Qed.

End FetchFacts.

(** * Storing trades *)

Section StoreFacts.
Import Py Pipeline.
Context {W : Type} `{Node W}.

Lemma id_le_max_id (rows : list Sqlite.trade_row) (r : Sqlite.trade_row) :
  In r rows -> Sqlite.id r <= Sqlite.max_id rows.
Proof.
  induction rows as [|r0 rows IH]; [intros []|].
  intros [->|Hin]; cbn [Sqlite.max_id fold_right].
  - apply Z.le_max_l.
  - specialize (IH Hin). fold (Sqlite.max_id rows). lia.
Qed.

(** The rowid AUTOINCREMENT hands out is held by no row, so the primary key
    never collides and OR IGNORE never drops the row: the INSERT always
    appends. *)
Lemma insert_or_ignore_trade_appends (now : string) (v : Sqlite.trade_values)
    (d : Sqlite.Db) :
  Sqlite.insert_or_ignore_trade now v d
  = Sqlite.mk_Db
      (Sqlite.trades d ++ [Sqlite.mk_trade_row (Sqlite.next_id d) v now])
      (Sqlite.next_id d) (Sqlite.wallets d).
Proof.
  unfold Sqlite.insert_or_ignore_trade. cbn [Sqlite.id].
  destruct (existsb _ (Sqlite.trades d)) eqn:E; [|reflexivity].
  apply existsb_exists in E. destruct E as (r & Hin & Heq).
  apply Z.eqb_eq in Heq. apply id_le_max_id in Hin.
  unfold Sqlite.next_id in Heq. lia.
Qed.



(** A trade with a number outside 64 bits makes the INSERT raise; nothing of
    the batch is committed. *)
Lemma save_trades_to_db_overflow (v : Sqlite.trade_values)
    (trades : list Sqlite.trade_values) (st : state W) :
  Sqlite.bindable v = false ->
  save_trades_to_db (v :: trades) st = (Raise OverflowError, st).
Proof.
  intros Hv. unfold save_trades_to_db, bind at 1, connect. unfold bind at 1.
  cbn [insert_trades]. unfold bind at 1, lift, Sqlite.bind_trade. rewrite Hv.
  reflexivity.
Qed.

End StoreFacts.

(** * [datetime(X, 'unixepoch')] keeps the order of the timestamps *)

Section DatetimeFacts.
Import Sqlite.

Ltac split_comparisons :=
  repeat match goal with |- context [?a <? ?b] => destruct (Z.ltb_spec a b) end;
  repeat match goal with |- context [?a <=? ?b] => destruct (Z.leb_spec a b) end.

Lemma year_day_range (doe : Z) :
  0 <= doe < 146097 ->
  0 <= year_of_era doe <= 399 /\ 0 <= day_of_year doe <= 365.
Proof.
  intros. unfold day_of_year, year_of_era. cbv zeta.
  Z.div_mod_to_equations. lia.
Qed.

Lemma year_of_era_mono (a b : Z) :
  0 <= a <= b -> b < 146097 -> year_of_era a <= year_of_era b.
Proof. intros. unfold year_of_era. Z.div_mod_to_equations. lia. Qed.

Lemma month_day_range (doy : Z) :
  0 <= doy <= 365 -> 1 <= month doy <= 12 /\ 1 <= day_of_month doy <= 31.
Proof.
  intros H. unfold month, day_of_month, month_index. cbv zeta.
  split_comparisons; Z.div_mod_to_equations; lia.
Qed.

(** Within the year that starts in March, a later day is a later date; the
    year changes name at the 1st of January. *)
Lemma month_day_lt (Y1 doy1 Y2 doy2 : Z) :
  0 <= doy1 <= 365 -> 0 <= doy2 <= 365 ->
  Y1 < Y2 \/ (Y1 = Y2 /\ doy1 < doy2) ->
  date_lt (if month doy1 <=? 2 then Y1 + 1 else Y1, month doy1, day_of_month doy1)
          (if month doy2 <=? 2 then Y2 + 1 else Y2, month doy2, day_of_month doy2).
Proof.
  intros H1 H2 Hlt. unfold date_lt, month, day_of_month, month_index. cbv zeta.
  split_comparisons; Z.div_mod_to_equations; lia.
Qed.

Lemma civil_from_days_lt (z1 z2 : Z) :
  z1 < z2 -> date_lt (civil_from_days z1) (civil_from_days z2).
Proof.
  intros Hlt. unfold civil_from_days. cbv zeta.
  set (a := z1 + 719468). set (b := z2 + 719468).
  assert (Ha : 0 <= a mod 146097 < 146097) by (apply Z.mod_pos_bound; lia).
  assert (Hb : 0 <= b mod 146097 < 146097) by (apply Z.mod_pos_bound; lia).
  apply month_day_lt.
  - apply year_day_range, Ha.
  - apply year_day_range, Hb.
  - destruct (year_day_range _ Ha) as [Hya _].
    destruct (year_day_range _ Hb) as [Hyb _].
    assert (Hera : a / 146097 < b / 146097
                   \/ (a / 146097 = b / 146097 /\ a mod 146097 < b mod 146097)).
    { assert (a < b) by (unfold a, b; lia). Z.div_mod_to_equations. lia. }
    destruct Hera as [Hera|[Hera Hdoe]]; [left; lia|].
    pose proof (year_of_era_mono (a mod 146097) (b mod 146097)
                  ltac:(lia) ltac:(lia)) as Hmono.
    destruct (Z.eq_dec (year_of_era (a mod 146097)) (year_of_era (b mod 146097)))
      as [Heq|Hne].
    + right. split; [lia|]. unfold day_of_year. cbv zeta. rewrite Heq. lia.
    + left. lia.
Qed.

Lemma civil_from_days_range (z : Z) :
  0 <= z <= 2932896 ->
  forall y m d, civil_from_days z = (y, m, d) ->
    1970 <= y <= 9999 /\ 1 <= m <= 12 /\ 1 <= d <= 31.
Proof.
  intros Hz y m d Hc.
  assert (Hmd : 1 <= m <= 12 /\ 1 <= d <= 31).
  { unfold civil_from_days in Hc. cbv zeta in Hc. injection Hc as _ <- <-.
    apply month_day_range, year_day_range, Z.mod_pos_bound. lia. }
  split; [|exact Hmd].
  pose proof (civil_from_days_lt z 2932897 ltac:(lia)) as Hhi.
  rewrite Hc in Hhi. change (civil_from_days 2932897) with (10000, 1, 1) in Hhi.
  cbn in Hhi.
  destruct (Z.eq_dec z 0) as [->|Hnz].
  - change (civil_from_days 0) with (1970, 1, 1) in Hc. injection Hc as <- <- <-. lia.
  - pose proof (civil_from_days_lt 0 z ltac:(lia)) as Hlo.
    rewrite Hc in Hlo. change (civil_from_days 0) with (1970, 1, 1) in Hlo.
    cbn in Hlo. lia.
Qed.

(** ** Text order of zero-padded numbers *)

Local Abbreviation text := string_of_list_ascii.

Lemma ascii_compare_refl (c : ascii) : Ascii.compare c c = Eq.
Proof. unfold Ascii.compare. apply N.compare_refl. Qed.

Lemma compare_same_prefix (p r1 r2 : list ascii) :
  String.compare (text (p ++ r1)) (text (p ++ r2))
  = String.compare (text r1) (text r2).
Proof.
  induction p as [|c p IH]; [reflexivity|].
  cbn. now rewrite ascii_compare_refl.
Qed.

Lemma compare_segments (l1 l2 r1 r2 : list ascii) :
  length l1 = length l2 ->
  String.compare (text (l1 ++ r1)) (text (l2 ++ r2))
  = match String.compare (text l1) (text l2) with
    | Eq => String.compare (text r1) (text r2)
    | c => c
    end.
Proof.
  revert l2. induction l1 as [|c1 l1 IH]; intros [|c2 l2] Hlen;
    try discriminate; [reflexivity|].
  cbn. destruct (Ascii.compare c1 c2); try reflexivity.
  apply IH. now injection Hlen.
Qed.

Lemma pad_digits_length (w : nat) (n : Z) : length (pad_digits w n) = w.
Proof.
  revert n. induction w as [|w IH]; intros n; [reflexivity|].
  cbn [pad_digits]. rewrite length_app, IH. cbn. lia.
Qed.

Lemma digit_char_compare (a b : Z) :
  0 <= a <= 9 -> 0 <= b <= 9 ->
  Ascii.compare (digit_char a) (digit_char b) = (a ?= b).
Proof.
  intros Ha Hb. unfold Ascii.compare, digit_char.
  rewrite !N_ascii_embedding by lia.
  rewrite Z2N.inj_compare by lia. apply Z.add_compare_mono_l.
Qed.

Lemma compare_by_digits (x y : Z) :
  match x / 10 ?= y / 10 with
  | Eq => x mod 10 ?= y mod 10
  | c => c
  end = (x ?= y).
Proof.
  destruct (Z.compare_spec (x / 10) (y / 10));
    destruct (Z.compare_spec (x mod 10) (y mod 10));
    destruct (Z.compare_spec x y);
    try reflexivity; exfalso; Z.div_mod_to_equations; lia.
Qed.

(** Zero-padded to the same width, numbers compare as their texts do. *)
Lemma pad_digits_compare (w : nat) :
  forall x y : Z,
    0 <= x < 10 ^ Z.of_nat w -> 0 <= y < 10 ^ Z.of_nat w ->
    String.compare (text (pad_digits w x)) (text (pad_digits w y)) = (x ?= y).
Proof.
  induction w as [|w IH]; intros x y Hx Hy.
  - cbn in *. assert (x = 0) by lia. assert (y = 0) by lia. now subst.
  - rewrite Nat2Z.inj_succ, Z.pow_succ_r in Hx, Hy by lia.
    cbn [pad_digits].
    rewrite compare_segments by now rewrite !pad_digits_length.
    rewrite IH by (Z.div_mod_to_equations; lia).
    cbn [string_of_list_ascii String.compare].
    rewrite digit_char_compare by (Z.div_mod_to_equations; lia).
    rewrite <- (compare_by_digits x y).
    destruct (x / 10 ?= y / 10); try reflexivity.
    now destruct (x mod 10 ?= y mod 10).
Qed.

(** Two renderings compare as their fields do, the year first. *)
Lemma render_datetime_lt (y1 m1 d1 h1 i1 s1 y2 m2 d2 h2 i2 s2 : Z) :
  0 <= y1 < 10000 -> 0 <= y2 < 10000 ->
  0 <= m1 < 100 -> 0 <= m2 < 100 -> 0 <= d1 < 100 -> 0 <= d2 < 100 ->
  0 <= h1 < 100 -> 0 <= h2 < 100 -> 0 <= i1 < 100 -> 0 <= i2 < 100 ->
  0 <= s1 < 100 -> 0 <= s2 < 100 ->
  y1 < y2 \/ (y1 = y2 /\ (m1 < m2 \/ (m1 = m2 /\ (d1 < d2 \/ (d1 = d2 /\
    (h1 < h2 \/ (h1 = h2 /\ (i1 < i2 \/ (i1 = i2 /\ s1 < s2))))))))) ->
  String.compare (text (render_datetime y1 m1 d1 h1 i1 s1))
                 (text (render_datetime y2 m2 d2 h2 i2 s2)) = Lt.
Proof.
  intros Hy1 Hy2 Hm1 Hm2 Hd1 Hd2 Hh1 Hh2 Hi1 Hi2 Hs1 Hs2 Hlt.
  unfold render_datetime.
  assert (Hfield : forall w x y r1 r2,
             0 <= x < 10 ^ Z.of_nat w -> 0 <= y < 10 ^ Z.of_nat w -> x < y ->
             String.compare (text (pad_digits w x ++ r1)) (text (pad_digits w y ++ r2))
             = Lt).
  { intros w x y r1 r2 Hx Hy Hxy.
    rewrite compare_segments by now rewrite !pad_digits_length.
    rewrite pad_digits_compare by assumption.
    now apply Z.compare_lt_iff in Hxy as ->. }
  destruct Hlt as [Hlt|[-> Hlt]]; [now apply Hfield|].
  rewrite compare_same_prefix, (compare_same_prefix ["-"%char]).
  destruct Hlt as [Hlt|[-> Hlt]]; [now apply Hfield|].
  rewrite compare_same_prefix, (compare_same_prefix ["-"%char]).
  destruct Hlt as [Hlt|[-> Hlt]]; [now apply Hfield|].
  rewrite compare_same_prefix, (compare_same_prefix [" "%char]).
  destruct Hlt as [Hlt|[-> Hlt]]; [now apply Hfield|].
  rewrite compare_same_prefix, (compare_same_prefix [":"%char]).
  destruct Hlt as [Hlt|[-> Hlt]]; [now apply Hfield|].
  rewrite compare_same_prefix, (compare_same_prefix [":"%char]).
  rewrite <- (app_nil_r (pad_digits 2 s1)), <- (app_nil_r (pad_digits 2 s2)).
  now apply Hfield.
Qed.

(** The text SQLite gives a timestamp between 1970 and the end of 9999. *)
Lemma datetime_unixepoch_text (ts : Z) :
  0 <= ts < unixepoch_end ->
  exists y m d,
    civil_from_days (ts / 86400) = (y, m, d)
    /\ 1970 <= y <= 9999 /\ 1 <= m <= 12 /\ 1 <= d <= 31
    /\ datetime_unixepoch ts
       = Some (text (render_datetime y m d (ts mod 86400 / 3600)
                       (ts mod 86400 mod 3600 / 60) (ts mod 86400 mod 60))).
Proof.
  intros Hts. unfold unixepoch_end in Hts.
  destruct (civil_from_days (ts / 86400)) as [[y m] d] eqn:Hc.
  assert (Hdays : 0 <= ts / 86400 <= 2932896) by (Z.div_mod_to_equations; lia).
  destruct (civil_from_days_range _ Hdays y m d Hc) as (Hy & Hm & Hd).
  exists y, m, d. repeat split; try lia.
  unfold datetime_unixepoch, unixepoch_min, unixepoch_end. rewrite Hc.
  destruct (Z.leb_spec (-210866760000) ts); [|lia].
  destruct (Z.ltb_spec ts 253402300800); [|lia].
  destruct (Z.ltb_spec y 0); [lia|].
  cbn [andb]. now rewrite Z.abs_eq by lia.
Qed.

(** The later of two timestamps has the greater text. *)
Lemma datetime_unixepoch_lt (a b : Z) :
  0 <= a -> a < b -> b < unixepoch_end ->
  exists ta tb,
    datetime_unixepoch a = Some ta /\ datetime_unixepoch b = Some tb
    /\ String.compare ta tb = Lt.
Proof.
  intros Ha Hab Hb.
  destruct (datetime_unixepoch_text a ltac:(lia)) as (y1 & m1 & d1 & Hc1 & Hy1 & Hm1 & Hd1 & ->).
  destruct (datetime_unixepoch_text b ltac:(lia)) as (y2 & m2 & d2 & Hc2 & Hy2 & Hm2 & Hd2 & ->).
  eexists _, _. split; [reflexivity|]. split; [reflexivity|].
  apply render_datetime_lt; try lia; try (Z.div_mod_to_equations; lia).
  destruct (Z.eq_dec (a / 86400) (b / 86400)) as [Heq|Hne].
  - rewrite Heq, Hc2 in Hc1. injection Hc1 as <- <- <-.
    right. split; [reflexivity|]. right. split; [reflexivity|].
    right. split; [reflexivity|].
    assert (Hsecs : a mod 86400 < b mod 86400) by (Z.div_mod_to_equations; lia).
    revert Hsecs. generalize (a mod 86400) (b mod 86400). intros sa sb Hsecs.
    Z.div_mod_to_equations. lia.
  - pose proof (civil_from_days_lt (a / 86400) (b / 86400)
                  ltac:(Z.div_mod_to_equations; lia)) as Hlt.
    rewrite Hc1, Hc2 in Hlt. cbn in Hlt. lia.
Qed.

Lemma ltb_irrefl (s : string) : String.ltb s s = false.
Proof.
  unfold String.ltb.
  assert (Hrefl : String.compare s s = Eq).
  { induction s as [|c s IH]; [reflexivity|]. cbn. now rewrite ascii_compare_refl. }
  now rewrite Hrefl.
Qed.

Lemma ltb_of_Lt (s t : string) :
  String.compare s t = Lt -> String.ltb s t = true /\ String.ltb t s = false.
Proof.
  intros Hlt. unfold String.ltb. rewrite Hlt. split; [reflexivity|].
  rewrite String.compare_antisym, Hlt. reflexivity.
Qed.

(** MIN and MAX over the texts pick the texts of the least and the greatest
    timestamp. *)
Lemma text_min_datetime (a b : Z) (ta tb : string) :
  0 <= a < unixepoch_end -> 0 <= b < unixepoch_end ->
  datetime_unixepoch a = Some ta -> datetime_unixepoch b = Some tb ->
  datetime_unixepoch (Z.min a b) = Some (text_min ta tb)
  /\ datetime_unixepoch (Z.max a b) = Some (text_max ta tb).
Proof.
  intros Ha Hb Hta Htb. unfold text_min, text_max.
  destruct (Z.lt_total a b) as [Hlt|[Heq|Hgt]].
  - destruct (datetime_unixepoch_lt a b) as (ta' & tb' & Ha' & Hb' & Hcmp); try lia.
    rewrite Hta in Ha'. rewrite Htb in Hb'. injection Ha' as <-. injection Hb' as <-.
    destruct (ltb_of_Lt _ _ Hcmp) as [-> ->].
    rewrite Z.min_l, Z.max_r by lia. now split.
  - subst b. rewrite Hta in Htb. injection Htb as <-.
    rewrite ltb_irrefl, Z.min_id, Z.max_id. now split.
  - destruct (datetime_unixepoch_lt b a) as (tb' & ta' & Hb' & Ha' & Hcmp); try lia.
    rewrite Hta in Ha'. rewrite Htb in Hb'. injection Ha' as <-. injection Hb' as <-.
    destruct (ltb_of_Lt _ _ Hcmp) as [-> ->].
    rewrite Z.min_r, Z.max_l by lia. now split.
Qed.

Lemma agg_datetime (ts : list Z) :
  Forall (fun t => 0 <= t < unixepoch_end) ts ->
  forall lo hi : Z,
    0 <= lo < unixepoch_end -> 0 <= hi < unixepoch_end ->
    agg text_min (datetime_unixepoch lo) (map datetime_unixepoch ts)
    = datetime_unixepoch (fold_left Z.min ts lo)
    /\ agg text_max (datetime_unixepoch hi) (map datetime_unixepoch ts)
       = datetime_unixepoch (fold_left Z.max ts hi).
Proof.
  induction 1 as [|t ts Ht _ IH]; intros lo hi Hlo Hhi; [now split|].
  cbn [map agg fold_left].
  destruct (datetime_unixepoch_text t Ht) as (? & ? & ? & _ & _ & _ & _ & Et).
  destruct (datetime_unixepoch_text lo Hlo) as (? & ? & ? & _ & _ & _ & _ & El).
  destruct (datetime_unixepoch_text hi Hhi) as (? & ? & ? & _ & _ & _ & _ & Eh).
  destruct (text_min_datetime lo t _ _ Hlo Ht El Et) as [Hmin _].
  destruct (text_min_datetime hi t _ _ Hhi Ht Eh Et) as [_ Hmax].
  rewrite Et, El, Eh, <- Hmin, <- Hmax.
  apply IH; lia.
Qed.

End DatetimeFacts.

(** * Wallet statistics *)

Section WalletFacts.
Import Py Pipeline.
Context {W : Type} `{Node W}.

(** The loop over the groups: each address of the result gets the row built
    from its group, stamped with one of the clock readings of this loop;
    every other address keeps what it had. *)
Lemma replace_wallets_spec (stats : list Sqlite.wallet_stat) :
  NoDup (map Sqlite.wallet stats) ->
  forall (pending : Sqlite.Db) (st : state W),
  exists pending' st',
    replace_wallets stats pending st = (Ok pending', st')
    /\ Sqlite.trades pending' = Sqlite.trades pending
    /\ Sqlite.trades_seq pending' = Sqlite.trades_seq pending
    /\ db st' = db st /\ log st' = log st /\ stdout st' = stdout st
    /\ (forall a, a ∉ map Sqlite.wallet stats ->
          Sqlite.wallets pending' !! a = Sqlite.wallets pending !! a)
    /\ (forall s, s ∈ stats ->
          exists now,
            now ∈ timestamps_read (length stats) (world st)
            /\ Sqlite.wallets pending' !! Sqlite.wallet s = Some (Sqlite.wallet_row_of s now)).
Proof.
  induction stats as [|s0 stats IH]; intros Hnd pending st.
  - exists pending, st. repeat split; try reflexivity.
    intros s Hs. inversion Hs.
  - cbn [map] in Hnd. apply NoDup_cons in Hnd as [Hfresh Hnd].
    cbn [replace_wallets]. unfold bind at 1, sql_now.
    cbn [timestamps_read length].
    destruct (current_timestamp (world st)) as [now w1].
    match goal with
    | |- context [replace_wallets stats ?p ?s] =>
        destruct (IH Hnd p s)
          as (pending' & st' & -> & Ht & Hseq & Hdb & Hlog & Hout & Hframe & Hrows)
    end.
    exists pending', st'. cbn in Ht, Hseq, Hdb, Hlog, Hout, Hframe, Hrows.
    repeat split; try assumption.
    + intros a Ha. cbn [map] in Ha. apply not_elem_of_cons in Ha as [Hne Ha].
      rewrite (Hframe a Ha). now apply lookup_insert_ne.
    + intros s Hs. apply elem_of_cons in Hs as [->|Hs].
      * exists now. split; [apply list_elem_of_here|].
        rewrite (Hframe _ Hfresh). apply lookup_insert_eq.
      * destruct (Hrows s Hs) as (now' & Hin & Hrow).
        exists now'. split; [now apply list_elem_of_further | exact Hrow].
Qed.

Lemma select_wallet_stats_wallets (d : Sqlite.Db) :
  map Sqlite.wallet (Sqlite.select_wallet_stats d)
  = remove_dups (Sqlite.senders (Sqlite.trades d)).
Proof.
  unfold Sqlite.select_wallet_stats. rewrite map_map. cbn. apply map_id.
Qed.

(** [update_wallet_stats] never raises and leaves the trades alone; every
    sender gets the row of its group, every other address is untouched. *)
Lemma update_wallet_stats_spec (st : state W) :
  exists st',
    update_wallet_stats st = (Ok tt, st')
    /\ Sqlite.trades (db st') = Sqlite.trades (db st)
    /\ skipped (log st') = skipped (log st)
    /\ stdout st' = stdout st
    /\ (forall a,
          a ∉ Sqlite.senders (Sqlite.trades (db st)) ->
          Sqlite.wallets (db st') !! a = Sqlite.wallets (db st) !! a)
    /\ (forall a,
          a ∈ Sqlite.senders (Sqlite.trades (db st)) ->
          exists now,
            now ∈ timestamps_read (length (Sqlite.select_wallet_stats (db st)))
                    (world st)
            /\ Sqlite.wallets (db st') !! a
               = Some (Sqlite.wallet_row_of (Sqlite.group_stat (Sqlite.trades (db st)) a) now)).
Proof.
  unfold update_wallet_stats, bind at 1, connect. unfold bind at 1.
  destruct (replace_wallets_spec (Sqlite.select_wallet_stats (db st))) with
    (pending := db st) (st := st)
    as (pending' & st' & -> & Ht & Hseq & Hdb & Hlog & Hout & Hframe & Hrows).
  { rewrite select_wallet_stats_wallets. apply NoDup_remove_dups. }
  eexists. split; [reflexivity|]. cbn.
  split; [exact Ht|]. split.
  { rewrite Hlog. clear. induction (log st) as [|[[] []] l IH]; cbn; congruence. }
  split; [exact Hout|]. split.
  - intros a Ha. apply Hframe. rewrite select_wallet_stats_wallets.
    now rewrite elem_of_remove_dups.
  - intros a Ha.
    destruct (Hrows (Sqlite.group_stat (Sqlite.trades (db st)) a)) as (now & Hin & Hrow).
    { unfold Sqlite.select_wallet_stats. apply list_elem_of_fmap.
      exists a. split; [reflexivity|]. now apply elem_of_remove_dups. }
    exists now. split; [exact Hin | exact Hrow].
Qed.

Lemma fold_left_min_max (ts : list Z) :
  forall t0 : Z,
    (fold_left Z.min ts t0 ∈ t0 :: ts
     /\ forall t, t ∈ t0 :: ts -> fold_left Z.min ts t0 <= t)
    /\ (fold_left Z.max ts t0 ∈ t0 :: ts
        /\ forall t, t ∈ t0 :: ts -> t <= fold_left Z.max ts t0).
Proof.
  induction ts as [|t1 ts IH]; intros t0.
  - cbn. repeat split; try apply list_elem_of_here;
      intros t Ht; apply list_elem_of_singleton in Ht; lia.
  - cbn [fold_left].
    destruct (IH (Z.min t0 t1)) as [[Hin Hle] _].
    destruct (IH (Z.max t0 t1)) as [_ [Hin' Hge]].
    repeat split.
    + apply elem_of_cons in Hin as [Heq|Hin].
      * rewrite Heq. destruct (Z.min_spec t0 t1) as [[_ ->]|[_ ->]].
        -- apply list_elem_of_here.
        -- apply list_elem_of_further, list_elem_of_here.
      * now do 2 apply list_elem_of_further.
    + intros t Ht. apply elem_of_cons in Ht as [->|Ht].
      * specialize (Hle (Z.min t0 t1) (list_elem_of_here _ _)). lia.
      * apply elem_of_cons in Ht as [->|Ht].
        -- specialize (Hle (Z.min t0 t1) (list_elem_of_here _ _)). lia.
        -- apply Hle. now apply list_elem_of_further.
    + apply elem_of_cons in Hin' as [Heq|Hin'].
      * rewrite Heq. destruct (Z.max_spec t0 t1) as [[_ ->]|[_ ->]].
        -- apply list_elem_of_further, list_elem_of_here.
        -- apply list_elem_of_here.
      * now do 2 apply list_elem_of_further.
    + intros t Ht. apply elem_of_cons in Ht as [->|Ht].
      * specialize (Hge (Z.max t0 t1) (list_elem_of_here _ _)). lia.
      * apply elem_of_cons in Ht as [->|Ht].
        -- specialize (Hge (Z.max t0 t1) (list_elem_of_here _ _)). lia.
        -- apply Hge. now apply list_elem_of_further.
Qed.

(** The group of a sender: as many rows as the sender has trades, and the
    texts of its least and greatest timestamp. *)
Lemma group_stat_dates (rows : list Sqlite.trade_row) (a : string) :
  Forall (fun r => 0 <= Sqlite.timestamp (Sqlite.cols r) < Sqlite.unixepoch_end) rows ->
  a ∈ Sqlite.senders rows ->
  exists tmin tmax first last,
    (tmin ∈ Sqlite.timestamps_of a rows
     /\ forall t, t ∈ Sqlite.timestamps_of a rows -> tmin <= t)
    /\ (tmax ∈ Sqlite.timestamps_of a rows
        /\ forall t, t ∈ Sqlite.timestamps_of a rows -> t <= tmax)
    /\ Sqlite.datetime_unixepoch tmin = Some first
    /\ Sqlite.datetime_unixepoch tmax = Some last
    /\ Sqlite.first_trade (Sqlite.group_stat rows a) = Some first
    /\ Sqlite.last_trade (Sqlite.group_stat rows a) = Some last.
Proof.
  intros Hrange Ha.
  assert (Hstamps : Forall (fun t => 0 <= t < Sqlite.unixepoch_end)
                      (Sqlite.timestamps_of a rows)).
  { apply Forall_forall. intros t Ht. unfold Sqlite.timestamps_of in Ht.
    apply list_elem_of_fmap in Ht as (r & -> & Hr).
    unfold Sqlite.trades_of in Hr. apply list_elem_of_filter in Hr as [_ Hr].
    rewrite Forall_forall in Hrange. now apply Hrange. }
  assert (Hne : Sqlite.timestamps_of a rows <> []).
  { unfold Sqlite.senders in Ha. apply list_elem_of_fmap in Ha as (r & -> & Hr).
    intros Hnil. apply fmap_nil_inv in Hnil.
    apply (filter_nil_not_elem_of _ _ r Hnil); [reflexivity | exact Hr]. }
  cbn [Sqlite.group_stat Sqlite.first_trade Sqlite.last_trade].
  destruct (Sqlite.timestamps_of a rows) as [|t0 ts]; [congruence|].
  apply Forall_cons in Hstamps as [Ht0 Hts].
  destruct (fold_left_min_max ts t0) as [Hmin Hmax].
  destruct (agg_datetime ts Hts t0 t0 Ht0 Ht0) as [Hagg_min Hagg_max].
  destruct (datetime_unixepoch_text t0 Ht0) as (? & ? & ? & _ & _ & _ & _ & E0).
  assert (Hlo : 0 <= fold_left Z.min ts t0 < Sqlite.unixepoch_end).
  { destruct Hmin as [Hin _]. rewrite Forall_forall in Hts.
    apply elem_of_cons in Hin as [->|Hin]; [exact Ht0 | now apply Hts]. }
  assert (Hhi : 0 <= fold_left Z.max ts t0 < Sqlite.unixepoch_end).
  { destruct Hmax as [Hin _]. rewrite Forall_forall in Hts.
    apply elem_of_cons in Hin as [->|Hin]; [exact Ht0 | now apply Hts]. }
  destruct (datetime_unixepoch_text _ Hlo) as (? & ? & ? & _ & _ & _ & _ & Emin).
  destruct (datetime_unixepoch_text _ Hhi) as (? & ? & ? & _ & _ & _ & _ & Emax).
  eexists (fold_left Z.min ts t0), (fold_left Z.max ts t0), _, _.
  split; [exact Hmin|]. split; [exact Hmax|].
  split; [exact Emin|]. split; [exact Emax|].
  unfold Sqlite.sql_MIN, Sqlite.sql_MAX. cbn [map Sqlite.agg].
  rewrite E0 in Hagg_min, Hagg_max |- *.
  rewrite Hagg_min, Hagg_max. split; assumption.
Qed.

(** C4. With every stored timestamp between 1970 and the end of the
    year 9999, the refresh gives each distinct sender exactly one wallet row
    (the table is keyed by address) whose [total_trades] is the number of the
    sender's trades and whose [first_trade_date] and [last_trade_date] are the
    texts [YYYY-MM-DD HH:MM:SS] that [datetime(.., 'unixepoch')] gives the
    least and the greatest timestamp of these trades. *)
Theorem wallet_stats_aggregation (st : state W) :
  Forall (fun r => 0 <= Sqlite.timestamp (Sqlite.cols r) < Sqlite.unixepoch_end)
    (Sqlite.trades (db st)) ->
  exists st',
    update_wallet_stats st = (Ok tt, st')
    /\ Sqlite.trades (db st') = Sqlite.trades (db st)
    /\ forall a,
         a ∈ Sqlite.senders (Sqlite.trades (db st)) ->
         exists row tmin tmax first last,
           Sqlite.wallets (db st') !! a = Some row
           /\ Sqlite.total_trades row
              = Sqlite.SqlInt
                  (Z.of_nat (length (Sqlite.trades_of a (Sqlite.trades (db st)))))
           /\ (tmin ∈ Sqlite.timestamps_of a (Sqlite.trades (db st))
               /\ forall t, t ∈ Sqlite.timestamps_of a (Sqlite.trades (db st)) ->
                             tmin <= t)
           /\ (tmax ∈ Sqlite.timestamps_of a (Sqlite.trades (db st))
               /\ forall t, t ∈ Sqlite.timestamps_of a (Sqlite.trades (db st)) ->
                             t <= tmax)
           /\ Sqlite.datetime_unixepoch tmin = Some first
           /\ Sqlite.first_trade_date row = Sqlite.SqlText first
           /\ Sqlite.datetime_unixepoch tmax = Some last
           /\ Sqlite.last_trade_date row = Sqlite.SqlText last.
Proof.
  intros Hrange.
  destruct (update_wallet_stats_spec st)
    as (st' & Hrun & Htrades & _ & _ & _ & Hrows).
  exists st'. split; [exact Hrun|]. split; [exact Htrades|].
  intros a Ha. destruct (Hrows a Ha) as (now & _ & Hrow).
  destruct (group_stat_dates _ a Hrange Ha)
    as (tmin & tmax & first & last & Hmin & Hmax & Efirst & Elast & Hf & Hl).
  eexists _, tmin, tmax, first, last. split; [exact Hrow|].
  cbn [Sqlite.wallet_row_of Sqlite.total_trades Sqlite.first_trade_date
       Sqlite.last_trade_date].
  rewrite Hf, Hl. cbn [Sqlite.text_or_null Sqlite.group_stat Sqlite.trade_count].
  repeat split; try assumption; try apply Hmin; try apply Hmax.
Qed.

(** C10. After [update_wallet_stats], the row of every address that is the
    sender of a trade has [total_volume_usd] 0 and a [created_at] read from
    the clock during this very call, whatever the row held before; the rows
    of all other addresses are as they were. *)
Theorem wallet_refresh_resets_defaults (st : state W) :
  exists st',
    update_wallet_stats st = (Ok tt, st')
    /\ (forall a,
          a ∈ Sqlite.senders (Sqlite.trades (db st)) ->
          exists row,
            Sqlite.wallets (db st') !! a = Some row
            /\ Sqlite.total_volume_usd row = Sqlite.SqlReal 0
            /\ Sqlite.wallet_created_at row
               ∈ timestamps_read (length (Sqlite.select_wallet_stats (db st)))
                   (world st))
    /\ (forall a,
          a ∉ Sqlite.senders (Sqlite.trades (db st)) ->
          Sqlite.wallets (db st') !! a = Sqlite.wallets (db st) !! a).
Proof.
  destruct (update_wallet_stats_spec st)
    as (st' & Hrun & _ & _ & _ & Hframe & Hrows).
  exists st'. split; [exact Hrun|]. split; [|exact Hframe].
  intros a Ha. destruct (Hrows a Ha) as (now & Hin & Hrow).
  eexists. split; [exact Hrow|]. split; [reflexivity | exact Hin].
Qed.

End WalletFacts.

(** * What the decoder accepts and what it extracts *)

Section DecodeClaims.
Import Py Pipeline.

(** C2. For a log with its three topics and a hex-encoded payload:
    when the payload is exactly four 32-byte words [w0 w1 w2 w3], the
    dictionary holds their big-endian values as [amount0_in], [amount1_in],
    [amount0_out], [amount1_out]; a payload of 96 bytes or fewer raises
    [ValueError] (the caller then skips the log); any payload of more than 96
    bytes, 128 or not, is accepted, each amount being the value of its 32-byte
    window of the payload. *)
Theorem decode_amounts (event : Chain.RawLog) (payload : list byte)
    (block : Chain.Block) (transaction : Chain.Transaction)
    (receipt : Chain.Receipt) (t0 t1 t2 : list byte) (ts : list (list byte)) :
  Chain.data event = Chain.data_of_payload payload ->
  Chain.topics event = t0 :: t1 :: t2 :: ts ->
  (forall w0 w1 w2 w3 : list byte,
      length w0 = 32%nat -> length w1 = 32%nat ->
      length w2 = 32%nat -> length w3 = 32%nat ->
      payload = w0 ++ w1 ++ w2 ++ w3 ->
      exists v,
        parse_swap_data event block transaction receipt = Ok v
        /\ Sqlite.amount0_in v = be_value w0
        /\ Sqlite.amount1_in v = be_value w1
        /\ Sqlite.amount0_out v = be_value w2
        /\ Sqlite.amount1_out v = be_value w3)
  /\ ((length payload <= 96)%nat ->
      parse_swap_data event block transaction receipt = Raise ValueError)
  /\ ((96 < length payload)%nat ->
      exists v,
        parse_swap_data event block transaction receipt = Ok v
        /\ Sqlite.amount0_in v = be_value (Chain.word 0 payload)
        /\ Sqlite.amount1_in v = be_value (Chain.word 1 payload)
        /\ Sqlite.amount0_out v = be_value (Chain.word 2 payload)
        /\ Sqlite.amount1_out v = be_value (Chain.word 3 payload)).
Proof.
  intros Hdata Htopics. split; [|split].
  - intros w0 w1 w2 w3 H0 H1 H2 H3 ->.
    rewrite (parse_swap_data_long event _ block transaction receipt t0 t1 t2 ts
               Hdata Htopics)
      by (rewrite !length_app; lia).
    eexists. split; [reflexivity|].
    cbn [Sqlite.amount0_in Sqlite.amount1_in Sqlite.amount0_out Sqlite.amount1_out].
    destruct (word_of_words w0 w1 w2 w3 [] H0 H1 H2 H3) as (E0 & E1 & E2 & E3).
    rewrite app_nil_r in E0, E1, E2, E3. now rewrite E0, E1, E2, E3.
  - intros Hlen.
    destruct (parse_swap_data_short event payload block transaction receipt
                Hdata Hlen) as (e & Hraise & [->| ->]); [exact Hraise|].
    exfalso. unfold parse_swap_data in Hraise.
    rewrite Htopics, py_index_1, py_index_2, Hdata in Hraise.
    destruct (amount_windows payload) as (E0 & E1 & E2 & E3).
    rewrite E0, E1, E2, E3 in Hraise.
    repeat match type of Hraise with
           | context [if ?c then _ else _] => destruct c
           end; discriminate.
  - intros Hlen.
    rewrite (parse_swap_data_long event _ block transaction receipt t0 t1 t2 ts
               Hdata Htopics Hlen).
    eexists. split; [reflexivity|]. repeat split.
Qed.

(** C7. The decoder never looks at [topics[0]]: the Swap signature
    is only the topic filter of the log query, and whatever log the node
    returns is decoded. For every log turned into a trade, [sender] is [0x]
    and the digits of the low 20 bytes of the 32-byte [topics[1]], and
    [to_address] likewise from [topics[2]]; replacing [topics[0]] by anything
    else gives the same trade. *)
Theorem sender_and_recipient (event : Chain.RawLog)
    (block : Chain.Block) (transaction : Chain.Transaction)
    (receipt : Chain.Receipt) (v : Sqlite.trade_values) :
  parse_swap_data event block transaction receipt = Ok v ->
  exists (t0 t1 t2 : list byte) (ts : list (list byte)),
    Chain.topics event = t0 :: t1 :: t2 :: ts
    /\ (length t1 = 32%nat -> Sqlite.sender v = HexBytes_hex (skipn 12 t1))
    /\ (length t2 = 32%nat -> Sqlite.to_address v = HexBytes_hex (skipn 12 t2))
    /\ (forall t0' : list byte,
          parse_swap_data
            (Chain.mk_RawLog (Chain.blockNumber event) (Chain.transactionHash event)
               (Chain.address event) (t0' :: t1 :: t2 :: ts) (Chain.data event))
            block transaction receipt = Ok v).
Proof.
  intros Hparse.
  destruct (Chain.topics event) as [|t0 [|t1 [|t2 ts]]] eqn:Htopics;
    try (unfold parse_swap_data in Hparse; rewrite Htopics in Hparse;
         discriminate).
  exists t0, t1, t2, ts. split; [reflexivity|].
  assert (Hany : forall t0' : list byte,
             parse_swap_data
               (Chain.mk_RawLog (Chain.blockNumber event) (Chain.transactionHash event)
                  (Chain.address event) (t0' :: t1 :: t2 :: ts) (Chain.data event))
               block transaction receipt
             = parse_swap_data event block transaction receipt).
  { intros t0'. unfold parse_swap_data.
    cbn [Chain.topics Chain.data Chain.blockNumber Chain.transactionHash
         Chain.address].
    now rewrite Htopics, !py_index_1, !py_index_2. }
  split; [|split]; [| |intros t0'; now rewrite Hany].
  - intros Hlen. unfold parse_swap_data in Hparse.
    rewrite Htopics, py_index_1, py_index_2 in Hparse.
    repeat match type of Hparse with
           | context [match ?c with _ => _ end] => destruct c; try discriminate
           end.
    injection Hparse as <-. cbn [Sqlite.sender].
    rewrite low_20_bytes by lia. now rewrite Hlen.
  - intros Hlen. unfold parse_swap_data in Hparse.
    rewrite Htopics, py_index_1, py_index_2 in Hparse.
    repeat match type of Hparse with
           | context [match ?c with _ => _ end] => destruct c; try discriminate
           end.
    injection Hparse as <-. cbn [Sqlite.to_address].
    rewrite low_20_bytes by lia. now rewrite Hlen.
Qed.

End DecodeClaims.

Lemma decode_amounts_witness :
  exists v,
    Pipeline.parse_swap_data (Fixtures.swap_log 100 1 0xAA 0xBB 5 0 0 7)
      (Chain.mk_Block 100) (Chain.mk_Transaction 20000000000)
      (Chain.mk_Receipt 120000) = Py.Ok v
    /\ Sqlite.amount0_in v = 5 /\ Sqlite.amount1_in v = 0
    /\ Sqlite.amount0_out v = 0 /\ Sqlite.amount1_out v = 7.
Proof.
  destruct (decode_amounts (Fixtures.swap_log 100 1 0xAA 0xBB 5 0 0 7)
              (Fixtures.be_bytes 32 5 ++ Fixtures.be_bytes 32 0
               ++ Fixtures.be_bytes 32 0 ++ Fixtures.be_bytes 32 7)
              (Chain.mk_Block 100) (Chain.mk_Transaction 20000000000)
              (Chain.mk_Receipt 120000)
              Fixtures.swap_topic_bytes (Fixtures.be_bytes 32 0xAA)
              (Fixtures.be_bytes 32 0xBB) [] eq_refl eq_refl) as [Hwords _].
  exact (Hwords (Fixtures.be_bytes 32 5) (Fixtures.be_bytes 32 0)
           (Fixtures.be_bytes 32 0) (Fixtures.be_bytes 32 7)
           eq_refl eq_refl eq_refl eq_refl eq_refl).
Defined.

(** A payload of 160 bytes, five words, is not rejected: the first four words
    become the amounts and the fifth is ignored. *)
Lemma decode_accepts_160_bytes :
  let payload := Fixtures.be_bytes 32 1 ++ Fixtures.be_bytes 32 2
                 ++ Fixtures.be_bytes 32 3 ++ Fixtures.be_bytes 32 4
                 ++ Fixtures.be_bytes 32 5 in
  let event := Fixtures.long_log 101 3 0xAA 0xCC 1 2 3 4 5 in
  Chain.data event = Chain.data_of_payload payload
  /\ length payload = 160%nat
  /\ exists v,
       Pipeline.parse_swap_data event (Chain.mk_Block 101)
         (Chain.mk_Transaction 20000000000) (Chain.mk_Receipt 120000) = Py.Ok v
       /\ Sqlite.amount0_in v = 1 /\ Sqlite.amount1_in v = 2
       /\ Sqlite.amount0_out v = 3 /\ Sqlite.amount1_out v = 4.
Proof.
  split; [reflexivity|]. split; [reflexivity|].
  eexists. split; [vm_compute; reflexivity|]. repeat split.
Qed.

Lemma sender_and_recipient_witness :
  exists v,
    Pipeline.parse_swap_data (Fixtures.swap_log 100 1 0xAA 0xBB 5 0 0 7)
      (Chain.mk_Block 100) (Chain.mk_Transaction 20000000000)
      (Chain.mk_Receipt 120000) = Py.Ok v
    /\ Sqlite.sender v = "0x00000000000000000000000000000000000000aa"
    /\ Sqlite.to_address v = "0x00000000000000000000000000000000000000bb".
Proof.
  eexists. split; [vm_compute; reflexivity|].
  destruct (sender_and_recipient (Fixtures.swap_log 100 1 0xAA 0xBB 5 0 0 7)
              (Chain.mk_Block 100) (Chain.mk_Transaction 20000000000)
              (Chain.mk_Receipt 120000) _ eq_refl)
    as (t0 & t1 & t2 & ts & Htopics & Hsender & Hto & _).
  injection Htopics as <- <- <- <-.
  split; [exact (Hsender eq_refl) | exact (Hto eq_refl)].
Defined.

(** A log whose first topic is the signature of another event (here ERC-20
    Transfer) is decoded into a trade all the same. *)
Lemma decoder_ignores_topic0 :
  let event := Fixtures.foreign_log 102 4 0xAA 0xBB 9 8 7 6 in
  Py.py_index (Chain.topics event) 0
    <> Py.Ok Fixtures.swap_topic_bytes
  /\ exists v,
       Pipeline.parse_swap_data event (Chain.mk_Block 102)
         (Chain.mk_Transaction 20000000000) (Chain.mk_Receipt 120000) = Py.Ok v
       /\ Sqlite.sender v = "0x00000000000000000000000000000000000000aa".
Proof.
  split; [vm_compute; discriminate|].
  eexists. split; [vm_compute; reflexivity|]. reflexivity.
Qed.

(** * Batches with malformed logs *)

Section BatchFacts.
Import Py Pipeline.
Context {W : Type} `{Node W}.

Lemma chars_length (s : string) :
  length (list_ascii_of_string s) = String.length s.
Proof. induction s as [|c s IH]; cbn; [reflexivity | now rewrite IH]. Qed.

Lemma data_of_payload_length (payload : list byte) :
  String.length (Chain.data_of_payload payload) = (2 + 2 * length payload)%nat.
Proof.
  rewrite <- chars_length, chars_of_data, length_app, hex_length. reflexivity.
Qed.

(** A malformed log makes the dictionary literal raise, whatever the block,
    the transaction and the receipt. *)
Lemma parse_swap_data_malformed (event : Chain.RawLog) (block : Chain.Block)
    (transaction : Chain.Transaction) (receipt : Chain.Receipt) :
  malformed_log event = true ->
  exists e, parse_swap_data event block transaction receipt = Raise e.
Proof.
  unfold malformed_log. intros Hmal. apply orb_true_iff in Hmal.
  unfold parse_swap_data.
  destruct (py_index (Chain.topics event) 1) as [t1|e1] eqn:H1; [|now exists e1].
  destruct (py_index (Chain.topics event) 2) as [t2|e2] eqn:H2; [|now exists e2].
  destruct Hmal as [Hshort|Hdata].
  { apply Nat.ltb_lt in Hshort.
    destruct (py_index_short (Chain.topics event) Hshort); congruence. }
  apply Nat.leb_le in Hdata.
  assert (Hlast : str_slice (Chain.data event) (Some 194) (Some 258) = "").
  { unfold str_slice. rewrite py_slice_beyond; [reflexivity|].
    rewrite chars_length. lia. }
  rewrite Hlast, py_int16_empty.
  repeat match goal with
         | |- context [match ?c with _ => _ end] => destruct c
         end; eexists; reflexivity.
Qed.

(** A storable Swap log is not malformed, and with numbers from the node
    that fit, its dictionary can be bound to the INSERT. *)
Lemma parse_swap_data_storable (event : Chain.RawLog) (block : Chain.Block)
    (transaction : Chain.Transaction) (receipt : Chain.Receipt) :
  storable_swap_log event ->
  Sqlite.fits_int64 (Chain.timestamp block) = true ->
  Sqlite.fits_int64 (Chain.gasPrice transaction) = true ->
  Sqlite.fits_int64 (Chain.gasUsed receipt) = true ->
  malformed_log event = false
  /\ exists v,
       parse_swap_data event block transaction receipt = Ok v
       /\ Sqlite.bindable v = true
       /\ Sqlite.transaction_hash v = HexBytes_hex (Chain.transactionHash event).
Proof.
  intros (t0 & t1 & t2 & w0 & w1 & w2 & w3 & Htopics & H0 & H1 & H2 & H3
          & Hdata & Hblock & B0 & B1 & B2 & B3) Fb Ft Fr.
  split.
  - unfold malformed_log. rewrite Htopics, Hdata, data_of_payload_length.
    rewrite !length_app, H0, H1, H2, H3. reflexivity.
  - rewrite (parse_swap_data_long event _ block transaction receipt t0 t1 t2 []
               Hdata Htopics) by (rewrite !length_app; lia).
    eexists. split; [reflexivity|]. split; [|reflexivity].
    destruct (word_of_words w0 w1 w2 w3 [] H0 H1 H2 H3) as (E0 & E1 & E2 & E3).
    rewrite app_nil_r in E0, E1, E2, E3.
    unfold Sqlite.bindable.
    cbn [Sqlite.block_number Sqlite.amount0_in Sqlite.amount1_in
         Sqlite.amount0_out Sqlite.amount1_out Sqlite.timestamp Sqlite.gas_price
         Sqlite.gas_used].
    rewrite E0, E1, E2, E3, Hblock, Fb, Ft, Fr.
    assert (Hpos : forall bs, 0 <= be_value bs).
    { intros bs. unfold be_value.
      assert (Hgen : forall acc, 0 <= acc ->
                0 <= fold_left (fun acc b => 256 * acc + Z.of_N (Byte.to_N b)) bs acc).
      { induction bs as [|b bs IH]; intros acc Hacc; [exact Hacc|].
        cbn [fold_left]. apply IH. lia. }
      apply Hgen. lia. }
    unfold Sqlite.fits_int64.
    repeat match goal with
           | |- context [be_value ?w] =>
               let Hw := fresh "Hw" in
               pose proof (Hpos w) as Hw;
               generalize dependent (be_value w); intros
           end.
    repeat (apply andb_true_iff; split); try reflexivity;
      first [apply Z.leb_le | apply Z.ltb_lt]; lia.
Qed.

Lemma skipped_app (l1 l2 : list (level * message)) :
  skipped (l1 ++ l2) = skipped l1 ++ skipped l2.
Proof.
  induction l1 as [|[[] []] l1 IH]; cbn; try exact IH; try reflexivity.
  now rewrite IH.
Qed.

(** The loop over a batch in which every log is either malformed or a
    storable Swap log: the storable ones are appended in order, the malformed
    ones are reported in order, and nothing else happens. *)
Lemma process_events_classified (events : list Chain.RawLog) :
  reliable_context W ->
  Forall (fun ev => malformed_log ev = true \/ storable_swap_log ev) events ->
  forall (acc : list Sqlite.trade_values) (st : state W),
  exists new st',
    process_events events acc st = (Ok (acc ++ new), st')
    /\ map Sqlite.transaction_hash new
       = map tx_text (List.filter (fun ev => negb (malformed_log ev)) events)
    /\ Forall (fun v => Sqlite.bindable v = true) new
    /\ skipped (log st')
       = skipped (log st) ++ map tx_text (List.filter malformed_log events)
    /\ db st' = db st /\ stdout st' = stdout st.
Proof.
  intros Hnode Hall. induction Hall as [|event rest Hev _ IH]; intros acc st.
  - exists [], st. cbn. rewrite !app_nil_r. repeat split. constructor.
  - rewrite process_events_cons.
    destruct (decode_event_reliable event st Hnode)
      as (b & t & r & st1 & -> & Hdb & Hlog & Hout & Fb & Ft & Fr).
    destruct Hev as [Hmal|Hgood].
    + destruct (parse_swap_data_malformed event b t r Hmal) as (e & ->).
      match goal with
      | |- context [process_events rest acc ?s] =>
          destruct (IH acc s) as (new & st' & -> & Hhash & Hfit & Hskip & Hdb' & Hout')
      end.
      exists new, st'. split; [reflexivity|].
      cbn [List.filter]. rewrite Hmal. cbn [negb map].
      cbn [log db stdout] in Hskip, Hdb', Hout'.
      rewrite skipped_app, Hlog in Hskip. cbn [skipped] in Hskip.
      rewrite <- app_assoc in Hskip.
      repeat split; try assumption; congruence.
    + destruct (parse_swap_data_storable event b t r Hgood Fb Ft Fr)
        as (Hnot & v & -> & Hv & Hhash0).
      destruct (IH (acc ++ [v]) st1)
        as (new & st' & -> & Hhash & Hfit & Hskip & Hdb' & Hout').
      exists (v :: new), st'. rewrite <- app_assoc. split; [reflexivity|].
      cbn [List.filter]. rewrite Hnot. cbn [negb map].
      rewrite Hhash, Hhash0.
      repeat split; try congruence. now constructor.
Qed.


End BatchFacts.

(** * Runs on simulated nodes *)

Section Simulations.
Import Py Pipeline Fixtures.

Lemma sim_reliable : reliable_context sim.
Proof.
  repeat split; intros; eexists _, _; (split; [reflexivity|]); cbn;
    try reflexivity.
  unfold Sqlite.fits_int64. apply andb_true_iff.
  pose proof (Z.mod_pos_bound n (2 ^ 32) ltac:(lia)).
  split; [apply Z.leb_le | apply Z.ltb_lt]; lia.
Qed.

Lemma swap_log_storable_100 : storable_swap_log (swap_log 100 1 0xAA 0xBB 5 0 0 7).
Proof.
  exists swap_topic_bytes, (be_bytes 32 0xAA), (be_bytes 32 0xBB),
    (be_bytes 32 5), (be_bytes 32 0), (be_bytes 32 0), (be_bytes 32 7).
  repeat split.
Qed.




(** C1. Running the pipeline twice over the same range,
    the node returning the same logs both times: the three trades of the first
    run are stored a second time by the second run, under new rowids. The
    table has no key but its rowid, so INSERT OR IGNORE ignores nothing (see
    [save_trades_to_db_appends]). *)
Theorem rerun_duplicates_rows :
  let st1 := snd (run_full_pipeline (Some 100) (Some 500) (initial_state aa_world)) in
  let st2 := snd (run_full_pipeline (Some 100) (Some 500) st1) in
  map (fun r => (Sqlite.id r, Sqlite.transaction_hash (Sqlite.cols r),
                 Sqlite.block_number (Sqlite.cols r)))
      (Sqlite.trades (db st1))
  = [(1, "0x0000000000000000000000000000000000000000000000000000000000000001", 100);
     (2, "0x0000000000000000000000000000000000000000000000000000000000000003", 500);
     (3, "0x0000000000000000000000000000000000000000000000000000000000000004", 300)]
  /\ map (fun r => (Sqlite.id r, Sqlite.transaction_hash (Sqlite.cols r),
                    Sqlite.block_number (Sqlite.cols r)))
         (Sqlite.trades (db st2))
     = [(1, "0x0000000000000000000000000000000000000000000000000000000000000001", 100);
        (2, "0x0000000000000000000000000000000000000000000000000000000000000003", 500);
        (3, "0x0000000000000000000000000000000000000000000000000000000000000004", 300);
        (4, "0x0000000000000000000000000000000000000000000000000000000000000001", 100);
        (5, "0x0000000000000000000000000000000000000000000000000000000000000003", 500);
        (6, "0x0000000000000000000000000000000000000000000000000000000000000004", 300)]
  /\ map Sqlite.cols (skipn 3 (Sqlite.trades (db st2)))
     = map Sqlite.cols (Sqlite.trades (db st1)).
Proof. vm_compute. repeat split. Qed.

Lemma query_failure_returns_empty_witness :
  exists st',
    fetch_swap_events (Some 100) (Some 200) default_limit
      (initial_state rate_limited_world) = (Ok [], st')
    /\ length (requests st') = 1%nat
    /\ log st' = [(INFO, Fetching (Some 100) (Some 200));
                  (ERROR, ErrorFetching (HTTPError 429))].
Proof.
  destruct (query_failure_returns_empty (H := sim_node) (Some 100) (Some 200) default_limit
              (initial_state rate_limited_world) (HTTPError 429)
              (mk_sim [] 1700000000) eq_refl)
    as (st' & Hrun & Hreq & Hlog & _).
  exists st'. split; [exact Hrun|]. split.
  - rewrite Hreq. reflexivity.
  - exact Hlog.
Defined.

(** A log query that ends in HTTP 429 is not raised: after this one call the
    caller gets an empty list, as from a range without swaps. *)
Lemma rate_limit_becomes_empty_result :
  fst (fetch_swap_events (Some 100) (Some 200) default_limit
         (initial_state rate_limited_world)) = Ok []
  /\ requests (snd (fetch_swap_events (Some 100) (Some 200) default_limit
                      (initial_state rate_limited_world)))
     = [ReqLogs (Chain.mk_FilterParams (Some 100) (Some 200) [swap_topic])]
  /\ fst (fetch_swap_events (Some 100) (Some 200) default_limit
            (initial_state (mk_sim [Ok []] 1700000000))) = Ok [].
Proof. repeat split. Qed.

Lemma wallet_stats_aggregation_witness :
  exists st' row,
    update_wallet_stats aa_stored = (Ok tt, st')
    /\ Sqlite.wallets (db st') !! "0x00000000000000000000000000000000000000aa"
       = Some row
    /\ Sqlite.total_trades row = Sqlite.SqlInt 3
    /\ Sqlite.first_trade_date row = Sqlite.SqlText "1970-01-01 00:01:40"
    /\ Sqlite.last_trade_date row = Sqlite.SqlText "1970-01-01 00:08:20".
Proof.
  assert (Hsenders : Sqlite.senders (Sqlite.trades (db aa_stored))
                     = ["0x00000000000000000000000000000000000000aa";
                        "0x00000000000000000000000000000000000000aa";
                        "0x00000000000000000000000000000000000000aa"])
    by (vm_compute; reflexivity).
  assert (Hstamps : Sqlite.timestamps_of "0x00000000000000000000000000000000000000aa"
                      (Sqlite.trades (db aa_stored)) = [100; 500; 300])
    by (vm_compute; reflexivity).
  assert (Hcount : length (Sqlite.trades_of "0x00000000000000000000000000000000000000aa"
                             (Sqlite.trades (db aa_stored))) = 3%nat)
    by (vm_compute; reflexivity).
  assert (Hrange : Forall (fun r => 0 <= Sqlite.timestamp (Sqlite.cols r)
                                    < Sqlite.unixepoch_end)
                     (Sqlite.trades (db aa_stored))).
  { let rows := eval vm_compute in (Sqlite.trades (db aa_stored)) in
    change (Sqlite.trades (db aa_stored)) with rows.
    unfold Sqlite.unixepoch_end.
    repeat (constructor; [cbn; lia|]). constructor. }
  destruct (wallet_stats_aggregation aa_stored Hrange) as (st' & Hrun & _ & Hrows).
  destruct (Hrows "0x00000000000000000000000000000000000000aa")
    as (row & tmin & tmax & first & last & Hrow & Htotal & [Hmin_in Hmin]
        & [Hmax_in Hmax] & Hfirst & Hfd & Hlast & Hld).
  { rewrite Hsenders. apply list_elem_of_here. }
  rewrite Hstamps in Hmin_in, Hmin, Hmax_in, Hmax.
  assert (Htmin : tmin = 100).
  { pose proof (Hmin 100 ltac:(repeat constructor)).
    repeat (apply elem_of_cons in Hmin_in as [->|Hmin_in]; [lia|]).
    inversion Hmin_in. }
  assert (Htmax : tmax = 500).
  { pose proof (Hmax 500 ltac:(repeat constructor)).
    repeat (apply elem_of_cons in Hmax_in as [->|Hmax_in]; [lia|]).
    inversion Hmax_in. }
  subst tmin tmax.
  change (Sqlite.datetime_unixepoch 100) with (Some "1970-01-01 00:01:40") in Hfirst.
  change (Sqlite.datetime_unixepoch 500) with (Some "1970-01-01 00:08:20") in Hlast.
  injection Hfirst as <-. injection Hlast as <-.
  exists st', row. rewrite Hcount in Htotal.
  repeat split; assumption.
Defined.

(** For sender 0xAA with trades at 100, 500 and 300, the wallet row holds
    date texts, not the numbers 100 and 500; and
    with a trade stamped past the year 9999, for which [datetime] gives NULL,
    the last trade date is that of an earlier trade. *)
Lemma wallet_dates_are_text :
  (exists row,
      Sqlite.wallets (db (snd (update_wallet_stats aa_stored)))
        !! "0x00000000000000000000000000000000000000aa" = Some row
      /\ Sqlite.total_trades row = Sqlite.SqlInt 3
      /\ Sqlite.first_trade_date row = Sqlite.SqlText "1970-01-01 00:01:40"
      /\ Sqlite.first_trade_date row <> Sqlite.SqlInt 100
      /\ Sqlite.last_trade_date row = Sqlite.SqlText "1970-01-01 00:08:20"
      /\ Sqlite.last_trade_date row <> Sqlite.SqlInt 500)
  /\ (Sqlite.timestamps_of "0x00000000000000000000000000000000000000aa"
        (Sqlite.trades (db far_future_stored)) = [100; 253402300800]
      /\ exists row,
           Sqlite.wallets (db (snd (update_wallet_stats far_future_stored)))
             !! "0x00000000000000000000000000000000000000aa" = Some row
           /\ Sqlite.datetime_unixepoch 253402300800 = None
           /\ Sqlite.datetime_unixepoch 100 = Some "1970-01-01 00:01:40"
           /\ Sqlite.last_trade_date row = Sqlite.SqlText "1970-01-01 00:01:40").
Proof.
  split.
  - eexists. split; [vm_compute; reflexivity|].
    repeat split; discriminate.
  - split; [vm_compute; reflexivity|].
    eexists. split; [vm_compute; reflexivity|].
    repeat split.
Qed.

(** The topic the log query filters on is the text of the 32-byte Swap
    signature. *)
Lemma swap_topic_text :
  swap_topic = HexBytes_hex swap_topic_bytes /\ length swap_topic_bytes = 32%nat.
Proof. split; reflexivity. Qed.

End Simulations.

(** * More on fetching: what is returned, in which order, and what is not *)

Section FetchMore.
Import Py Pipeline Vocabulary.
Context {W : Type} `{Node W}.

Lemma parse_swap_data_fields (event : Chain.RawLog) (block : Chain.Block)
    (transaction : Chain.Transaction) (receipt : Chain.Receipt)
    (v : Sqlite.trade_values) :
  parse_swap_data event block transaction receipt = Ok v -> decoded_from v event.
Proof.
  unfold parse_swap_data. intros Hparse.
  repeat match type of Hparse with
         | context [match ?c with _ => _ end] => destruct c; try discriminate
         end.
  injection Hparse as <-. repeat split.
Qed.

Lemma decode_event_fields (event : Chain.RawLog) (st st' : state W)
    (v : Sqlite.trade_values) :
  decode_event event st = (Ok v, st') -> decoded_from v event.
Proof.
  unfold decode_event, bind, lift, ask.
  destruct (eth_get_block _ _) as [[b|e] w1]; [|discriminate].
  cbn [world].
  destruct (eth_get_transaction _ _) as [[t|e] w2]; [|discriminate].
  cbn [world].
  destruct (eth_get_transaction_receipt _ _) as [[r|e] w3]; [|discriminate].
  intros [= Hparse _]. exact (parse_swap_data_fields _ _ _ _ _ Hparse).
Qed.

(** The loop, for any node: the trades appended come from a subsequence of
    the logs, in their order, and every other log is reported once. *)
Lemma process_events_trace (events : list Chain.RawLog) :
  forall (acc : list Sqlite.trade_values) (st : state W),
  exists new kept reported st',
    process_events events acc st = (Ok (acc ++ new), st')
    /\ sublist kept events
    /\ Forall2 decoded_from new kept
    /\ skipped (log st') = skipped (log st) ++ reported
    /\ (length new + length reported = length events)%nat
    /\ db st' = db st /\ stdout st' = stdout st.
Proof.
  induction events as [|event rest IH]; intros acc st.
  - exists [], [], [], st. cbn. rewrite !app_nil_r. repeat split; constructor.
  - rewrite process_events_cons.
    destruct (decode_event event st) as [[v|e] st1] eqn:E.
    + pose proof (decode_event_fields _ _ _ _ E) as Hv.
      apply decode_event_frame in E. destruct E as (Hdb & Hlog & Hout).
      destruct (IH (acc ++ [v]) st1)
        as (new & kept & rep & st' & -> & Hsub & Hall & Hskip & Hlen & Hdb' & Hout').
      exists (v :: new), (event :: kept), rep, st'. rewrite <- app_assoc.
      split; [reflexivity|]. cbn [length].
      repeat split; try congruence.
      * now apply sublist_skip.
      * now constructor.
      * lia.
    + apply decode_event_frame in E. destruct E as (Hdb & Hlog & Hout).
      match goal with
      | |- context [process_events rest acc ?s] =>
          destruct (IH acc s)
            as (new & kept & rep & st' & -> & Hsub & Hall & Hskip & Hlen & Hdb' & Hout')
      end.
      cbn [log db stdout] in Hskip, Hdb', Hout'.
      rewrite skipped_app, Hlog in Hskip. cbn [skipped] in Hskip.
      rewrite <- app_assoc in Hskip.
      exists new, kept, (HexBytes_hex (Chain.transactionHash event) :: rep), st'.
      split; [reflexivity|]. cbn [length app] in *.
      repeat split; try congruence.
      * now apply sublist_cons.
      * lia.
Qed.

(** [fetch_swap_events] returns a list whatever the node does: it never
    raises, and it never touches the database or the standard output. *)
Theorem fetch_swap_events_never_raises (from_block to_block : option Z)
    (limit : Z) (st : state W) :
  exists swap_events st',
    fetch_swap_events from_block to_block limit st = (Ok swap_events, st')
    /\ db st' = db st /\ stdout st' = stdout st.
Proof.
  destruct (eth_filter_get_all_entries
              (Chain.mk_FilterParams from_block to_block [swap_topic]) (world st))
    as [[events|e] w1] eqn:Hq.
  - destruct (fetch_swap_events_answered from_block to_block limit st events w1 Hq)
      as (swaps & st2 & _ & Hfetch & _ & Hdb & Hout).
    eexists _, _. split; [exact Hfetch|]. cbn. now split.
  - eexists _, _. split; [exact (fetch_swap_events_failed _ _ _ _ _ _ Hq)|].
    cbn. now split.
Qed.

(** The trades returned come from the logs [events[:limit]] of the answer, at
    most one per log and in the order of the logs: each carries the block
    number, the transaction hash and the emitting address of its log, and no
    token address. *)
Theorem fetch_swap_events_keeps_log_order (from_block to_block : option Z)
    (limit : Z) (st : state W) (events : list Chain.RawLog) (w1 : W) :
  eth_filter_get_all_entries
    (Chain.mk_FilterParams from_block to_block [swap_topic]) (world st)
  = (Ok events, w1) ->
  exists swap_events st' kept,
    fetch_swap_events from_block to_block limit st = (Ok swap_events, st')
    /\ sublist kept (py_slice events None (Some limit))
    /\ Forall2 decoded_from swap_events kept.
Proof.
  intros Hq.
  destruct (fetch_swap_events_answered from_block to_block limit st events w1 Hq)
    as (swaps & st2 & Hrun & Hfetch & _).
  destruct (process_events_trace (py_slice events None (Some limit)) []
              (after_query from_block to_block w1 st))
    as (new & kept & rep & st' & Hrun' & Hsub & Hall & _).
  rewrite Hrun in Hrun'. cbn [app] in Hrun'. injection Hrun' as <- <-.
  eexists _, _, kept. split; [exact Hfetch|]. now split.
Qed.

(** No log of [events[:limit]] disappears without a trace: each one either
    yields a returned trade or is reported in an ERROR record naming its
    transaction. *)
Theorem fetch_swap_events_accounts_for_logs (from_block to_block : option Z)
    (limit : Z) (st : state W) (events : list Chain.RawLog) (w1 : W) :
  eth_filter_get_all_entries
    (Chain.mk_FilterParams from_block to_block [swap_topic]) (world st)
  = (Ok events, w1) ->
  exists swap_events st' reported,
    fetch_swap_events from_block to_block limit st = (Ok swap_events, st')
    /\ skipped (log st') = skipped (log st) ++ reported
    /\ (length swap_events + length reported
        = length (py_slice events None (Some limit)))%nat.
Proof.
  intros Hq.
  destruct (fetch_swap_events_answered from_block to_block limit st events w1 Hq)
    as (swaps & st2 & Hrun & Hfetch & _).
  destruct (process_events_trace (py_slice events None (Some limit)) []
              (after_query from_block to_block w1 st))
    as (new & kept & rep & st' & Hrun' & _ & _ & Hskip & Hlen & _).
  rewrite Hrun in Hrun'. cbn [app] in Hrun'. injection Hrun' as <- <-.
  eexists _, _, rep. split; [exact Hfetch|]. cbn [log].
  rewrite skipped_app, Hskip. unfold after_query. cbn [log skipped].
  rewrite skipped_app. cbn [skipped]. rewrite !app_nil_r. now split.
Qed.

(** A block lookup that fails costs only its own log: the log is reported,
    its transaction and receipt are not even asked for, and the loop goes on
    with the next log. *)
Theorem block_lookup_failure_skips_one_log (event : Chain.RawLog)
    (rest : list Chain.RawLog) (acc : list Sqlite.trade_values)
    (st : state W) (e : exn) (w1 : W) :
  eth_get_block (Chain.blockNumber event) (world st) = (Raise e, w1) ->
  process_events (event :: rest) acc st
  = process_events rest acc
      (mk_state w1 (db st)
         (log st ++ [(ERROR, ErrorProcessingEvent (tx_text event) e)])
         (requests st ++ [ReqBlock (Chain.blockNumber event)])
         (stdout st)).
Proof.
  intros Hblock. rewrite process_events_cons.
  unfold decode_event, bind at 1, ask at 1. rewrite Hblock. reflexivity.
Qed.

(** A negative [limit] does not mean "no limit": [events[:limit]] then drops
    the last [-limit] logs, which are never decoded. *)
Theorem negative_limit_drops_last_logs (from_block to_block : option Z)
    (limit : Z) (st : state W) (events : list Chain.RawLog) (w1 : W) :
  limit < 0 ->
  eth_filter_get_all_entries
    (Chain.mk_FilterParams from_block to_block [swap_topic]) (world st)
  = (Ok events, w1) ->
  exists swap_events st' kept,
    fetch_swap_events from_block to_block limit st = (Ok swap_events, st')
    /\ sublist kept (firstn (length events - Z.to_nat (- limit)) events)
    /\ Forall2 decoded_from swap_events kept
    /\ (length swap_events <= length events - Z.to_nat (- limit))%nat.
Proof.
  intros Hneg Hq.
  assert (Hslice : py_slice events None (Some limit)
                   = firstn (length events - Z.to_nat (- limit)) events).
  { unfold py_slice, clamp_index.
    destruct (Z.ltb_spec limit 0); [|lia].
    change (Z.to_nat 0) with 0%nat. rewrite drop_0, Z.sub_0_r. f_equal. lia. }
  destruct (fetch_swap_events_answered from_block to_block limit st events w1 Hq)
    as (swaps & st2 & Hrun & Hfetch & _).
  destruct (process_events_trace (py_slice events None (Some limit)) []
              (after_query from_block to_block w1 st))
    as (new & kept & rep & st' & Hrun' & Hsub & Hall & _ & Hlen & _).
  rewrite Hrun in Hrun'. cbn [app] in Hrun'. injection Hrun' as <- <-.
  rewrite Hslice in Hsub, Hlen.
  eexists _, _, kept. split; [exact Hfetch|]. split; [exact Hsub|].
  split; [exact Hall|]. rewrite length_firstn in Hlen. lia.
Qed.

End FetchMore.

(** * The limit: which logs are processed *)

Section LimitFacts.
Import Py Pipeline Vocabulary.
Context {W : Type} `{Node W}.

Lemma block_lookups_app (l1 l2 : list request) :
  block_lookups (l1 ++ l2) = block_lookups l1 ++ block_lookups l2.
Proof.
  induction l1 as [|r l1 IH]; [reflexivity|].
  destruct r; cbn [app block_lookups]; now rewrite IH.
Qed.

(** Decoding a log begins with the lookup of its block, and looks up no
    other block. *)
Lemma decode_event_block_lookup (event : Chain.RawLog) (st : state W) :
  forall r st', decode_event event st = (r, st') ->
    exists more,
      requests st' = requests st ++ more
      /\ block_lookups more = [Chain.blockNumber event].
Proof.
  intros r st'. unfold decode_event, bind, lift, ask.
  destruct (eth_get_block _ _) as [[b|e] w1]; cbn [world db log requests stdout].
  2:{ intros [= <- <-]. eexists. split; reflexivity. }
  destruct (eth_get_transaction _ _) as [[t|e] w2];
    cbn [world db log requests stdout].
  2:{ intros [= <- <-]. eexists. cbn [requests]. rewrite <- app_assoc.
      split; reflexivity. }
  destruct (eth_get_transaction_receipt _ _) as [[rc|e] w3];
    intros [= <- <-]; eexists; cbn [requests]; rewrite <- !app_assoc;
    split; reflexivity.
Qed.

(** The loop looks up the block of every log it is given, in the order of
    the logs, whether the log ends up decoded or reported. *)
Lemma process_events_block_lookups (events : list Chain.RawLog) :
  forall (acc : list Sqlite.trade_values) (st : state W) r st',
    process_events events acc st = (r, st') ->
    exists more,
      requests st' = requests st ++ more
      /\ block_lookups more = map Chain.blockNumber events.
Proof.
  induction events as [|event rest IH]; intros acc st r st'.
  - cbn. intros [= <- <-]. exists []. now rewrite app_nil_r.
  - rewrite process_events_cons.
    destruct (decode_event event st) as [[v|e] st1] eqn:E;
      apply decode_event_block_lookup in E; destruct E as (m1 & Hm1 & Hb1);
      intros Hrun; apply IH in Hrun; destruct Hrun as (m2 & Hm2 & Hb2);
      cbn [requests] in Hm2; exists (m1 ++ m2);
      (split; [rewrite Hm2, Hm1; now rewrite app_assoc|]);
      rewrite block_lookups_app, Hb1, Hb2; reflexivity.
Qed.

(** What [fetch_swap_events] does with an answer of the node, for a
    non-negative limit: the loop runs over the first [limit] logs. *)
Lemma fetch_swap_events_prefix (from_block to_block : option Z) (limit : Z)
    (st : state W) (events : list Chain.RawLog) (w1 : W) :
  0 <= limit ->
  eth_filter_get_all_entries
    (Chain.mk_FilterParams from_block to_block [swap_topic]) (world st)
  = (Ok events, w1) ->
  forall swap_events st',
    fetch_swap_events from_block to_block limit st = (Ok swap_events, st') ->
    exists kept reported more,
      requests st'
      = requests st
        ++ ReqLogs (Chain.mk_FilterParams from_block to_block [swap_topic]) :: more
      /\ block_lookups more
         = map Chain.blockNumber (firstn (Z.to_nat limit) events)
      /\ sublist kept (firstn (Z.to_nat limit) events)
      /\ Forall2 decoded_from swap_events kept
      /\ skipped (log st') = skipped (log st) ++ reported
      /\ (length swap_events + length reported
          = length (firstn (Z.to_nat limit) events))%nat
      /\ (reliable_context W ->
          Forall (fun ev => malformed_log ev = true \/ storable_swap_log ev)
            (firstn (Z.to_nat limit) events) ->
          map Sqlite.transaction_hash swap_events
          = map tx_text
              (List.filter (fun ev => negb (malformed_log ev))
                 (firstn (Z.to_nat limit) events))
          /\ reported
             = map tx_text
                 (List.filter malformed_log (firstn (Z.to_nat limit) events))).
Proof.
  intros Hlimit Hq swaps st' Hfetch.
  destruct (fetch_swap_events_answered from_block to_block limit st events w1 Hq)
    as (swaps0 & st2 & Hrun & Hfetch0 & _).
  rewrite Hfetch0 in Hfetch. injection Hfetch as <- <-.
  rewrite py_slice_prefix in Hrun by exact Hlimit.
  destruct (process_events_trace (firstn (Z.to_nat limit) events) []
              (after_query from_block to_block w1 st))
    as (new & kept & rep & st2' & Hrun' & Hsub & Hall & Hskip & Hlen & _).
  rewrite Hrun in Hrun'. cbn [app] in Hrun'. injection Hrun' as <- <-.
  destruct (process_events_block_lookups _ _ _ _ _ Hrun) as (more & Hreq & Hblocks).
  exists kept, rep, more. cbn [requests log].
  split.
  { rewrite Hreq. unfold after_query. cbn [requests]. now rewrite <- app_assoc. }
  split; [exact Hblocks|]. split; [exact Hsub|]. split; [exact Hall|].
  split.
  { rewrite skipped_app, Hskip. unfold after_query. cbn [log skipped].
    rewrite skipped_app. cbn [skipped]. now rewrite !app_nil_r. }
  split; [exact Hlen|].
  intros Hnode Hcls.
  destruct (process_events_classified _ Hnode Hcls []
              (after_query from_block to_block w1 st))
    as (new' & st2'' & Hrun'' & Hhash & _ & Hskip2 & _).
  rewrite Hrun in Hrun''. cbn [app] in Hrun''. injection Hrun'' as <- <-.
  split; [exact Hhash|].
  rewrite Hskip in Hskip2. now apply app_inv_head in Hskip2.
Qed.

(** C9. With a non-negative [limit] (1000 by default), [fetch_swap_events]
    processes the first [limit] logs of the answer and no other: after the
    log query it looks up the blocks of exactly these logs, in their order;
    each of them yields a returned trade or an ERROR record, the trades in
    the order of their logs and carrying their block number, transaction
    hash and address; against a node that answers, the trades are those of
    the storable logs among the first [limit] and the reports those of the
    malformed ones. At most [limit] trades are returned. The logs behind the
    first [limit] leave no trace: result and state (log records, requests,
    database) are what they would have been had the node returned only the
    first [limit] logs, and a whole run ends in the same state, printed
    summary included, as a run on the truncated answer. *)
Theorem fetch_swap_events_limit (from_block to_block : option Z) (limit : Z)
    (st : state W) (events : list Chain.RawLog) (w1 : W) :
  0 <= limit ->
  eth_filter_get_all_entries
    (Chain.mk_FilterParams from_block to_block [swap_topic]) (world st)
  = (Ok events, w1) ->
  (exists swap_events st' kept reported more,
      fetch_swap_events from_block to_block limit st = (Ok swap_events, st')
      /\ len swap_events <= limit
      /\ (length swap_events <= length events)%nat
      /\ requests st'
         = requests st
           ++ ReqLogs (Chain.mk_FilterParams from_block to_block [swap_topic])
              :: more
      /\ block_lookups more
         = map Chain.blockNumber (firstn (Z.to_nat limit) events)
      /\ sublist kept (firstn (Z.to_nat limit) events)
      /\ Forall2 decoded_from swap_events kept
      /\ skipped (log st') = skipped (log st) ++ reported
      /\ (length swap_events + length reported
          = length (firstn (Z.to_nat limit) events))%nat
      /\ (reliable_context W ->
          Forall (fun ev => malformed_log ev = true \/ storable_swap_log ev)
            (firstn (Z.to_nat limit) events) ->
          map Sqlite.transaction_hash swap_events
          = map tx_text
              (List.filter (fun ev => negb (malformed_log ev))
                 (firstn (Z.to_nat limit) events))
          /\ reported
             = map tx_text
                 (List.filter malformed_log (firstn (Z.to_nat limit) events)))
      /\ forall st_t : state W,
           eth_filter_get_all_entries
             (Chain.mk_FilterParams from_block to_block [swap_topic]) (world st_t)
           = (Ok (firstn (Z.to_nat limit) events), w1) ->
           db st_t = db st -> log st_t = log st ->
           requests st_t = requests st -> stdout st_t = stdout st ->
           fetch_swap_events from_block to_block limit st_t = (Ok swap_events, st'))
  /\ (forall (first_block : Z) (st_t : state W),
        from_block = Some first_block ->
        eth_filter_get_all_entries
          (Chain.mk_FilterParams from_block to_block [swap_topic]) (world st_t)
        = (Ok (firstn (Z.to_nat default_limit) events), w1) ->
        db st_t = db st -> log st_t = log st ->
        requests st_t = requests st -> stdout st_t = stdout st ->
        run_full_pipeline from_block to_block st_t
        = run_full_pipeline from_block to_block st).
Proof.
  intros Hlimit Hq. split.
  - destruct (fetch_swap_events_truncated from_block to_block limit st events w1
                Hlimit Hq)
      as (swaps & st' & Hrun & Hlen1 & Hlen2 & Hsame).
    destruct (fetch_swap_events_prefix from_block to_block limit st events w1
                Hlimit Hq swaps st' Hrun)
      as (kept & rep & more & Hreq & Hblocks & Hsub & Hall & Hskip & Hlen & Hexact).
    exists swaps, st', kept, rep, more.
    repeat (split; [assumption|]). exact Hsame.
  - intros first_block st_t -> Hq_t Hdb Hlog Hreq Hout.
    unfold run_full_pipeline.
    do 3 (erewrite bind_ok by reflexivity). symmetry.
    do 3 (erewrite bind_ok by reflexivity). symmetry.
    cbn [fst snd].
    match goal with
    | |- bind _ _ ?sa = bind _ _ ?sb =>
        destruct (fetch_swap_events_truncated (Some first_block) to_block
                    default_limit sb events w1 ltac:(unfold default_limit; lia) Hq)
          as (swaps & st' & Hrun & _ & _ & Hsame);
        specialize (Hsame sa Hq_t)
    end.
    cbn [db log requests stdout] in Hsame.
    rewrite (bind_ok _ _ _ _ _ Hrun).
    rewrite (bind_ok _ _ _ _ _
               (Hsame Hdb ltac:(now rewrite Hlog) Hreq Hout)).
    reflexivity.
Qed.

End LimitFacts.

(** * More on storing: rowids and batches that cannot be bound *)

Section StoreMore.
Import Py Pipeline Vocabulary.
Context {W : Type} `{Node W}.

Lemma insert_trades_frame (trades : list Sqlite.trade_values) :
  forall (pending : Sqlite.Db) (st : state W) r st',
    insert_trades trades pending st = (r, st') ->
    db st' = db st /\ log st' = log st /\ stdout st' = stdout st
    /\ requests st' = requests st.
Proof.
  induction trades as [|v trades IH]; intros pending st r st'.
  - cbn. intros [= <- <-]. repeat split.
  - cbn [insert_trades]. unfold bind at 1, lift, Sqlite.bind_trade.
    destruct (Sqlite.bindable v).
    + unfold bind at 1, sql_now.
      destruct (current_timestamp (world st)) as [now w1].
      intros Hrun. apply IH in Hrun. cbn in Hrun. exact Hrun.
    + intros [= <- <-]. repeat split.
Qed.

(** One trade that cannot be bound makes the loop of INSERTs raise. *)
Lemma insert_trades_overflow (trades : list Sqlite.trade_values) :
  Exists (fun v => Sqlite.bindable v = false) trades ->
  forall (pending : Sqlite.Db) (st : state W),
  exists st', insert_trades trades pending st = (Raise OverflowError, st').
Proof.
  induction trades as [|v trades IH]; intros Hex pending st.
  - inversion Hex.
  - cbn [insert_trades]. unfold bind at 1, lift, Sqlite.bind_trade.
    destruct (Sqlite.bindable v) eqn:Hv.
    + unfold bind at 1, sql_now.
      destruct (current_timestamp (world st)) as [now w1].
      apply IH. apply Exists_cons in Hex as [Hex|Hex]; [congruence | exact Hex].
    + eexists. reflexivity.
Qed.

Lemma save_trades_to_db_overflow_any (trades : list Sqlite.trade_values)
    (st : state W) :
  Exists (fun v => Sqlite.bindable v = false) trades ->
  exists st',
    save_trades_to_db trades st = (Raise OverflowError, st')
    /\ db st' = db st /\ log st' = log st.
Proof.
  intros Hex. destruct trades as [|v trades]; [inversion Hex|].
  unfold save_trades_to_db, bind at 1, connect. unfold bind at 1.
  destruct (insert_trades_overflow (v :: trades) Hex (db st) st) as (st' & Hrun).
  pose proof (insert_trades_frame _ _ _ _ _ Hrun) as (Hdb & Hlog & _).
  rewrite Hrun. exists st'. now repeat split.
Qed.

(** A batch holding one trade with a number outside 64 bits is lost as a
    whole: [save_trades_to_db] raises [OverflowError] and the database is as
    before, the trades ahead of the offending one included. *)
Theorem save_trades_to_db_all_or_nothing (trades : list Sqlite.trade_values)
    (st : state W) :
  Exists (fun v => Sqlite.bindable v = false) trades ->
  exists st',
    save_trades_to_db trades st = (Raise OverflowError, st')
    /\ db st' = db st /\ log st' = log st.
Proof. exact (save_trades_to_db_overflow_any trades st). Qed.

Lemma max_id_app (rows more : list Sqlite.trade_row) :
  Sqlite.max_id (rows ++ more) = Z.max (Sqlite.max_id rows) (Sqlite.max_id more).
Proof.
  induction rows as [|r rows IH]; cbn [app Sqlite.max_id fold_right].
  - fold (Sqlite.max_id more).
    assert (Hpos : forall l, 0 <= Sqlite.max_id l).
    { induction l as [|x l IHl]; cbn; [lia|]. fold (Sqlite.max_id l). lia. }
    specialize (Hpos more). lia.
  - fold (Sqlite.max_id rows) (Sqlite.max_id (rows ++ more)). rewrite IH. lia.
Qed.

(** The rows a batch adds: one per trade, behind the old rows, with rowids
    that grow from row to row and start above every rowid in use. *)
Lemma insert_trades_rowids (trades : list Sqlite.trade_values) :
  Forall (fun v => Sqlite.bindable v = true) trades ->
  forall (pending : Sqlite.Db) (st : state W),
  exists new pending' st',
    insert_trades trades pending st = (Ok pending', st')
    /\ Sqlite.trades pending' = Sqlite.trades pending ++ new
    /\ map Sqlite.cols new = trades
    /\ Forall (fun r => Sqlite.next_id pending <= Sqlite.id r) new
    /\ StronglySorted Z.lt (map Sqlite.id new).
Proof.
  induction 1 as [|v trades Hv _ IH]; intros pending st.
  - exists [], pending, st. cbn. rewrite app_nil_r. repeat split; constructor.
  - cbn [insert_trades]. unfold bind at 1, lift, Sqlite.bind_trade. rewrite Hv.
    unfold bind at 1, sql_now.
    destruct (current_timestamp (world st)) as [now w1].
    rewrite insert_or_ignore_trade_appends.
    match goal with
    | |- context [insert_trades trades ?p ?s] =>
        destruct (IH p s) as (new & pending' & st' & -> & Hrows & Hcols & Hids & Hsorted);
        assert (Hnext : Sqlite.next_id pending + 1 <= Sqlite.next_id p)
          by (unfold Sqlite.next_id at 2; cbn [Sqlite.trades Sqlite.trades_seq]; lia)
    end.
    cbn [Sqlite.trades] in Hrows.
    exists (Sqlite.mk_trade_row (Sqlite.next_id pending) v now :: new), pending', st'.
    split; [reflexivity|]. rewrite Hrows, <- app_assoc. cbn [app map Sqlite.id].
    split; [reflexivity|]. split; [now rewrite Hcols|].
    assert (Habove : Forall (fun r => Sqlite.next_id pending < Sqlite.id r) new).
    { eapply Forall_impl; [exact Hids|]. cbn. intros r Hr. lia. }
    split.
    + constructor; [cbn; lia|]. eapply Forall_impl; [exact Habove|].
      cbn. intros r Hr. lia.
    + constructor; [exact Hsorted|].
      apply Forall_fmap. eapply Forall_impl; [exact Habove|]. now cbn.
Qed.

(** [save_trades_to_db] never rewrites or drops a stored row and never reuses
    a rowid: the rows it adds, one per trade and in the order of the batch,
    follow the old rows with rowids above all of theirs, so rowids that were
    distinct stay distinct. *)
Theorem save_trades_to_db_fresh_rowids (trades : list Sqlite.trade_values)
    (st : state W) :
  Forall (fun v => Sqlite.bindable v = true) trades ->
  exists new st',
    save_trades_to_db trades st = (Ok tt, st')
    /\ Sqlite.trades (db st') = Sqlite.trades (db st) ++ new
    /\ map Sqlite.cols new = trades
    /\ Forall (fun r => Sqlite.max_id (Sqlite.trades (db st)) < Sqlite.id r) new
    /\ (NoDup (map Sqlite.id (Sqlite.trades (db st))) ->
        NoDup (map Sqlite.id (Sqlite.trades (db st')))).
Proof.
  intros Hfit. destruct trades as [|v trades].
  - exists [], st. cbn. rewrite app_nil_r. repeat split; [constructor | tauto].
  - unfold save_trades_to_db, bind at 1, connect. unfold bind at 1.
    destruct (insert_trades_rowids (v :: trades) Hfit (db st) st)
      as (new & pending' & st' & Hrun & Hrows & Hcols & Hids & Hsorted).
    pose proof (insert_trades_frame _ _ _ _ _ Hrun) as (Hdb & _).
    rewrite Hrun. eexists new, _. split; [reflexivity|]. cbn [db commit logger].
    assert (Habove : Forall (fun r => Sqlite.max_id (Sqlite.trades (db st))
                                      < Sqlite.id r) new).
    { eapply Forall_impl; [exact Hids|]. cbn. unfold Sqlite.next_id. intros r Hr. lia. }
    split; [exact Hrows|]. split; [exact Hcols|]. split; [exact Habove|].
    intros Hnodup. rewrite Hrows, map_app. apply NoDup_app. split; [exact Hnodup|].
    split.
    + intros i Hold Hnew.
      apply list_elem_of_fmap in Hold as (r & -> & Hr).
      apply list_elem_of_fmap in Hnew as (r' & Heq & Hr').
      rewrite Forall_forall in Habove. specialize (Habove r' Hr').
      pose proof (id_le_max_id _ r (proj1 (list_elem_of_In _ _) Hr)). lia.
    + clear -Hsorted. induction Hsorted as [|i ids _ IH Hall]; constructor.
      * intros Hin. rewrite Forall_forall in Hall. specialize (Hall i Hin). lia.
      * exact IH.
Qed.

End StoreMore.

(** * More on whole runs *)

Section RunMore.
Import Py Pipeline Vocabulary.
Context {W : Type} `{Node W}.

Lemma decode_event_requests (event : Chain.RawLog) (st : state W) :
  forall r st', decode_event event st = (r, st') ->
    exists more, requests st' = requests st ++ more.
Proof.
  intros r st'. unfold decode_event, bind, lift.
  repeat match goal with
  | |- context [ask ?q ?f ?s] =>
      let x := fresh "x" in let s' := fresh "st" in let E := fresh "E" in
      destruct (ask q f s) as [x s'] eqn:E;
      apply ask_frame in E; destruct E as (_ & _ & _ & ? & _);
      destruct x
  end;
  intros [= <- <-];
  repeat match goal with Hr : requests _ = _ |- _ => rewrite Hr; clear Hr end;
  rewrite <- ?app_assoc; eexists; reflexivity.
Qed.

Lemma process_events_requests (events : list Chain.RawLog) :
  forall (acc : list Sqlite.trade_values) (st : state W) r st',
    process_events events acc st = (r, st') ->
    exists more, requests st' = requests st ++ more.
Proof.
  induction events as [|event rest IH]; intros acc st r st'.
  - cbn. intros [= <- <-]. exists []. now rewrite app_nil_r.
  - rewrite process_events_cons.
    destruct (decode_event event st) as [[v|e] st1] eqn:E;
      apply decode_event_requests in E; destruct E as (m1 & Hm1);
      intros Hrun; apply IH in Hrun; destruct Hrun as (m2 & Hm2);
      cbn [requests] in Hm2; exists (m1 ++ m2);
      rewrite Hm2, Hm1; now rewrite app_assoc.
Qed.

(** The first thing [fetch_swap_events] sends is the log query for its
    range, with the Swap signature as only topic. *)
Lemma fetch_swap_events_requests (from_block to_block : option Z) (limit : Z)
    (st : state W) :
  exists swap_events st' more,
    fetch_swap_events from_block to_block limit st = (Ok swap_events, st')
    /\ requests st'
       = requests st
         ++ ReqLogs (Chain.mk_FilterParams from_block to_block [swap_topic]) :: more.
Proof.
  destruct (eth_filter_get_all_entries
              (Chain.mk_FilterParams from_block to_block [swap_topic]) (world st))
    as [[events|e] w1] eqn:Hq.
  - destruct (fetch_swap_events_answered from_block to_block limit st events w1 Hq)
      as (swaps & st2 & Hrun & Hfetch & _).
    apply process_events_requests in Hrun. destruct Hrun as (more & Hmore).
    eexists _, _, more. split; [exact Hfetch|]. cbn [requests].
    rewrite Hmore. unfold after_query. cbn [requests]. now rewrite <- app_assoc.
  - eexists _, _, []. split; [exact (fetch_swap_events_failed _ _ _ _ _ _ Hq)|].
    reflexivity.
Qed.

Lemma save_trades_to_db_frame (trades : list Sqlite.trade_values) (st : state W) :
  forall r st', save_trades_to_db trades st = (r, st') ->
    requests st' = requests st /\ stdout st' = stdout st.
Proof.
  intros r st'. destruct trades as [|v trades].
  - cbn. now intros [= <- <-].
  - unfold save_trades_to_db, bind at 1, connect. unfold bind at 1.
    destruct (insert_trades (v :: trades) (db st) st) as [[pending|e] st1] eqn:E;
      apply insert_trades_frame in E; destruct E as (_ & _ & Hout & Hreq).
    + cbn. now intros [= <- <-].
    + now intros [= <- <-].
Qed.

Lemma replace_wallets_requests (stats : list Sqlite.wallet_stat) :
  forall (pending : Sqlite.Db) (st : state W) r st',
    replace_wallets stats pending st = (r, st') -> requests st' = requests st.
Proof.
  induction stats as [|s0 stats IH]; intros pending st r st'.
  - cbn. now intros [= <- <-].
  - cbn [replace_wallets]. unfold bind at 1, sql_now.
    destruct (current_timestamp (world st)) as [now w1].
    intros Hrun. apply IH in Hrun. exact Hrun.
Qed.

Lemma update_wallet_stats_requests (st : state W) :
  exists st', update_wallet_stats st = (Ok tt, st') /\ requests st' = requests st.
Proof.
  destruct (update_wallet_stats_spec st) as (st' & Hrun & _).
  exists st'. split; [exact Hrun|].
  unfold update_wallet_stats, bind at 1, connect in Hrun. unfold bind at 1 in Hrun.
  destruct (replace_wallets _ (db st) st) as [[pending|e] st1] eqn:E;
    [|discriminate].
  apply replace_wallets_requests in E. cbn in Hrun. injection Hrun as <-.
  exact E.
Qed.

Lemma fetch_swap_events_frame (from_block to_block : option Z) (limit : Z)
    (st : state W) :
  forall r st', fetch_swap_events from_block to_block limit st = (r, st') ->
    db st' = db st /\ stdout st' = stdout st.
Proof.
  intros r st' Hrun.
  destruct (eth_filter_get_all_entries
              (Chain.mk_FilterParams from_block to_block [swap_topic]) (world st))
    as [[events|e] w1] eqn:Hq.
  - destruct (fetch_swap_events_answered from_block to_block limit st events w1 Hq)
      as (swaps & st2 & _ & Hfetch & _ & Hdb & Hout).
    rewrite Hfetch in Hrun. injection Hrun as <- <-. now split.
  - rewrite (fetch_swap_events_failed _ _ _ _ _ _ Hq) in Hrun.
    injection Hrun as <- <-. now split.
Qed.

(** With no range given, the run asks the node for the latest block and
    queries the logs of the hundred blocks up to it; the [to_block] argument
    plays no part. *)
Theorem default_range_is_last_100_blocks (to_block : option Z) (st : state W)
    (latest_block : Z) (w1 : W) :
  eth_block_number (world st) = (Ok latest_block, w1) ->
  exists more,
    requests (snd (run_full_pipeline None to_block st))
    = requests st
      ++ ReqBlockNumber
         :: ReqLogs (Chain.mk_FilterParams (Some (latest_block - 100))
                       (Some latest_block) [swap_topic])
         :: more.
Proof.
  intros Hlatest. unfold run_full_pipeline.
  erewrite bind_ok by reflexivity.
  unfold bind at 1. unfold bind at 1, ask at 1. cbn [world logger]. rewrite Hlatest.
  cbn [ret fst snd].
  erewrite bind_ok by reflexivity.
  cbn [world db log requests stdout logger].
  match goal with
  | |- context [bind (fetch_swap_events ?f ?t ?l) _ ?s] =>
      destruct (fetch_swap_events_requests f t l s)
        as (swaps & st1 & more & Hfetch & Hreq)
  end.
  rewrite (bind_ok _ _ _ _ _ Hfetch).
  erewrite bind_ok by reflexivity.
  cbn [world db log requests stdout logger] in *.
  match goal with
  | |- context [bind (save_trades_to_db swaps) _ ?s] =>
      destruct (save_trades_to_db swaps s) as [[[]|e] st2] eqn:Hsave;
      pose proof (proj1 (save_trades_to_db_frame _ _ _ _ Hsave)) as Hreq2;
      cbn [requests] in Hreq2
  end.
  - rewrite (bind_ok _ _ _ _ _ Hsave).
    erewrite bind_ok by reflexivity.
    match goal with
    | |- context [bind update_wallet_stats _ ?s] =>
        destruct (update_wallet_stats_requests s) as (st3 & Hupd & Hreq3)
    end.
    rewrite (bind_ok _ _ _ _ _ Hupd). cbn [print snd requests].
    cbn [requests] in Hreq3.
    exists more. rewrite Hreq3, Hreq2, Hreq. now rewrite <- app_assoc.
  - unfold bind at 1. rewrite Hsave. cbn [snd].
    exists more. rewrite Hreq2, Hreq. now rewrite <- app_assoc.
Qed.

(** When the node does not answer the question for the latest block, a run
    without a range stops there: the exception reaches the caller, no log
    query is sent and the database is not touched. *)
Theorem run_without_range_needs_latest_block (to_block : option Z)
    (st : state W) (e : exn) (w1 : W) :
  eth_block_number (world st) = (Raise e, w1) ->
  run_full_pipeline None to_block st
  = (Raise e,
     mk_state w1 (db st)
       (log st ++ [(INFO, Progress "Starting full DeFi data pipeline...")])
       (requests st ++ [ReqBlockNumber]) (stdout st)).
Proof.
  intros Hlatest. unfold run_full_pipeline.
  erewrite bind_ok by reflexivity.
  unfold bind at 1. unfold bind at 1, ask at 1. cbn [world logger].
  rewrite Hlatest. reflexivity.
Qed.

(** One decoded trade with a number outside 64 bits fails the whole run:
    [run_full_pipeline] raises [OverflowError], none of the fetched trades is
    stored, the wallet statistics are not refreshed and no summary is
    printed. *)
Theorem oversized_amount_aborts_run (from_block : Z) (to_block : option Z)
    (st : state W) (swap_events : list Sqlite.trade_values) (st1 : state W) :
  fetch_swap_events (Some from_block) to_block default_limit
    (mk_state (world st) (db st)
       (log st ++ [(INFO, Progress "Starting full DeFi data pipeline...");
                   (INFO, Progress "Step 1: Extracting swap events...")])
       (requests st) (stdout st))
  = (Ok swap_events, st1) ->
  Exists (fun v => Sqlite.bindable v = false) swap_events ->
  exists st',
    run_full_pipeline (Some from_block) to_block st = (Raise OverflowError, st')
    /\ db st' = db st /\ stdout st' = stdout st.
Proof.
  intros Hfetch Hbig. unfold run_full_pipeline.
  do 3 (erewrite bind_ok by reflexivity).
  cbn [world db log requests stdout logger fst snd].
  rewrite <- app_assoc. cbn [app].
  rewrite (bind_ok _ _ _ _ _ Hfetch).
  erewrite bind_ok by reflexivity.
  match goal with
  | |- context [bind (save_trades_to_db swap_events) _ ?s] =>
      destruct (save_trades_to_db_overflow_any swap_events s Hbig)
        as (st' & Hsave & Hdb & _)
  end.
  unfold bind at 1. rewrite Hsave.
  exists st'. split; [reflexivity|]. cbn [db] in Hdb.
  destruct (fetch_swap_events_frame (Some from_block) to_block
              default_limit _ _ _ Hfetch) as (Hdb1 & Hout1).
  cbn [db stdout] in Hdb1, Hout1. split; [congruence|].
  pose proof (proj2 (save_trades_to_db_frame _ _ _ _ Hsave)) as Hout.
  cbn [stdout] in Hout. congruence.
Qed.

End RunMore.

(** * Counting rows by group *)

Section CountingFacts.
Import Vocabulary.

Lemma sum_Z_add {K} (f g : K -> Z) (ks : list K) :
  sum_Z (map (fun k => f k + g k) ks) = sum_Z (map f ks) + sum_Z (map g ks).
Proof.
  induction ks as [|k ks IH]; cbn; [reflexivity|].
  fold (sum_Z (map (fun k => f k + g k) ks)) (sum_Z (map f ks)) (sum_Z (map g ks)).
  lia.
Qed.

Lemma sum_Z_zero {K} (f : K -> Z) (ks : list K) :
  (forall k, k ∈ ks -> f k = 0) -> sum_Z (map f ks) = 0.
Proof.
  induction ks as [|k ks IH]; intros Hz; cbn; [reflexivity|].
  fold (sum_Z (map f ks)).
  rewrite (Hz k) by apply list_elem_of_here.
  rewrite IH; [reflexivity|]. intros k' Hk'. apply Hz. now apply list_elem_of_further.
Qed.

Lemma count_one {K} `{EqDecision K} (k0 : K) (ks : list K) :
  NoDup ks -> k0 ∈ ks ->
  sum_Z (map (fun k => if decide (k0 = k) then 1 else 0) ks) = 1.
Proof.
  induction 1 as [|k ks Hfresh Hnd IH]; intros Hin; [inversion Hin|].
  cbn. fold (sum_Z (map (fun k => if decide (k0 = k) then 1 else 0) ks)).
  destruct (decide (k0 = k)) as [->|Hne].
  - rewrite sum_Z_zero; [reflexivity|].
    intros k' Hk'. destruct (decide (k = k')) as [->|]; [contradiction | reflexivity].
  - apply elem_of_cons in Hin as [?|Hin]; [contradiction|]. now rewrite IH.
Qed.

(** The groups of a key partition the rows: their sizes add up to the number
    of rows. *)
Lemma group_sizes_sum {A K} `{EqDecision K} (f : A -> K) (rows : list A)
    (ks : list K) :
  NoDup ks ->
  (forall r, r ∈ rows -> f r ∈ ks) ->
  sum_Z (map (fun k => Z.of_nat (length (filter (fun r => f r = k) rows))) ks)
  = Z.of_nat (length rows).
Proof.
  intros Hnd. induction rows as [|r rows IH]; intros Hin.
  - cbn [filter]. apply sum_Z_zero. reflexivity.
  - assert (Hstep : forall k,
               Z.of_nat (length (filter (fun r => f r = k) (r :: rows)))
               = (if decide (f r = k) then 1 else 0)
                 + Z.of_nat (length (filter (fun r => f r = k) rows))).
    { intros k. rewrite filter_cons. destruct (decide (f r = k)); cbn [length]; lia. }
    rewrite (map_ext _ _ Hstep), sum_Z_add, IH, count_one.
    + cbn [length]. lia.
    + exact Hnd.
    + apply Hin, list_elem_of_here.
    + intros r' Hr'. apply Hin. now apply list_elem_of_further.
Qed.

End CountingFacts.

(** * More on the wallet refresh *)

Section WalletMore.
Import Py Pipeline Vocabulary.
Context {W : Type} `{Node W}.

(** The refresh only adds and replaces: every address that had a wallet row
    keeps one, also when it is no longer the sender of any trade; the
    addresses with a row afterwards are those and the senders of the trades. *)
Theorem wallet_refresh_keeps_every_wallet (st : state W) :
  exists st',
    update_wallet_stats st = (Ok tt, st')
    /\ forall a,
         is_Some (Sqlite.wallets (db st') !! a)
         <-> is_Some (Sqlite.wallets (db st) !! a)
             \/ a ∈ Sqlite.senders (Sqlite.trades (db st)).
Proof.
  destruct (update_wallet_stats_spec st)
    as (st' & Hrun & _ & _ & _ & Hframe & Hrows).
  exists st'. split; [exact Hrun|]. intros a.
  destruct (decide (a ∈ Sqlite.senders (Sqlite.trades (db st)))) as [Ha|Ha].
  - destruct (Hrows a Ha) as (now & _ & ->). split; [now right | now eexists].
  - rewrite (Hframe a Ha). split; [now left | now intros [?|?]].
Qed.

(** After the refresh the [total_trades] of the senders' rows add up to the
    number of stored trades: every trade is counted for exactly one wallet. *)
Theorem wallet_counts_add_up (st : state W) :
  exists st' counts,
    update_wallet_stats st = (Ok tt, st')
    /\ Forall2 (fun a n => exists row,
                   Sqlite.wallets (db st') !! a = Some row
                   /\ Sqlite.total_trades row = Sqlite.SqlInt n)
         (remove_dups (Sqlite.senders (Sqlite.trades (db st)))) counts
    /\ sum_Z counts = len (Sqlite.trades (db st')).
Proof.
  destruct (update_wallet_stats_spec st)
    as (st' & Hrun & Htrades & _ & _ & _ & Hrows).
  exists st',
    (map (fun a => Z.of_nat (length (Sqlite.trades_of a (Sqlite.trades (db st)))))
       (remove_dups (Sqlite.senders (Sqlite.trades (db st))))).
  split; [exact Hrun|]. split.
  - apply Forall2_fmap_r, Forall_Forall2_diag, Forall_forall.
    intros a Ha. rewrite elem_of_remove_dups in Ha.
    destruct (Hrows a Ha) as (now & _ & Hrow).
    eexists. split; [exact Hrow | reflexivity].
  - rewrite Htrades. unfold len, Sqlite.trades_of.
    apply (group_sizes_sum (fun r => Sqlite.sender (Sqlite.cols r))).
    + apply NoDup_remove_dups.
    + intros r Hr. apply elem_of_remove_dups. unfold Sqlite.senders.
      apply list_elem_of_fmap. now exists r.
Qed.

(** Refreshing a second time changes nothing but [created_at]: the trades
    are as they were and every wallet row keeps its counts and dates. *)
Theorem wallet_refresh_twice (st : state W) :
  exists st1 st2,
    update_wallet_stats st = (Ok tt, st1)
    /\ update_wallet_stats st1 = (Ok tt, st2)
    /\ Sqlite.trades (db st2) = Sqlite.trades (db st)
    /\ forall a,
         without_created_at <$> Sqlite.wallets (db st2) !! a
         = without_created_at <$> Sqlite.wallets (db st1) !! a.
Proof.
  destruct (update_wallet_stats_spec st)
    as (st1 & Hrun1 & Htrades1 & _ & _ & _ & Hrows1).
  destruct (update_wallet_stats_spec st1)
    as (st2 & Hrun2 & Htrades2 & _ & _ & Hframe2 & Hrows2).
  exists st1, st2. split; [exact Hrun1|]. split; [exact Hrun2|].
  split; [congruence|]. intros a.
  destruct (decide (a ∈ Sqlite.senders (Sqlite.trades (db st1)))) as [Ha|Ha].
  - destruct (Hrows2 a Ha) as (now2 & _ & ->).
    rewrite Htrades1 in Ha |- *.
    destruct (Hrows1 a Ha) as (now1 & _ & ->). reflexivity.
  - now rewrite (Hframe2 a Ha).
Qed.

End WalletMore.

(** * More on [get_token_info] *)

Section TokenMore.
Import Py Pipeline.
Context {W : Type} `{Node W}.

(** The steps of the lookup go out in the order contract, symbol, name,
    decimals, total supply, and the first failure ends it. *)
Lemma token_lookup_requests (a : string) (st : state W) :
  forall r st1,
    token_lookup a st = (r, st1) ->
    exists k,
      (1 <= k <= 5)%nat
      /\ requests st1
         = requests st
           ++ take k [ReqContract a; ReqSymbol a; ReqName a; ReqDecimals a;
                      ReqTotalSupply a]
      /\ ((k < 5)%nat -> is_ok r = false).
Proof.
  intros r st1. unfold token_lookup.
  unfold bind at 1, ask at 1.
  destruct (eth_contract a (world st)) as [[[]|e] w1].
  2:{ intros [= <- <-]. exists 1%nat. cbn. repeat split; lia. }
  unfold bind at 1, ask at 1. cbn [world db log requests stdout].
  destruct (call_symbol a w1) as [[symbol|e] w2].
  2:{ intros [= <- <-]. exists 2%nat. cbn. rewrite <- app_assoc.
      repeat split; lia. }
  unfold bind at 1, ask at 1. cbn [world db log requests stdout].
  destruct (call_name a w2) as [[name|e] w3].
  2:{ intros [= <- <-]. exists 3%nat. cbn. rewrite <- !app_assoc.
      repeat split; lia. }
  unfold bind at 1, ask at 1. cbn [world db log requests stdout].
  destruct (call_decimals a w3) as [[decimals|e] w4].
  2:{ intros [= <- <-]. exists 4%nat. cbn. rewrite <- !app_assoc.
      repeat split; lia. }
  unfold bind at 1, ask at 1. cbn [world db log requests stdout].
  destruct (call_totalSupply a w4) as [[supply|e] w5];
    intros [= <- <-]; exists 5%nat; cbn; rewrite <- !app_assoc;
    repeat split; lia.
Qed.

(** The lookup stops at the first step that fails, and the record is all or
    nothing: a prefix of the steps contract, symbol, name, decimals, total
    supply is sent; either all five are answered, nothing is logged and the
    record holds the answers, or the step sent last has failed, what the
    earlier ones returned is discarded, and the sentinel record comes back
    with one ERROR record logged. *)
Theorem get_token_info_all_or_nothing (a : string) (st : state W) :
  exists info st' k,
    get_token_info a st = (Ok info, st')
    /\ (1 <= k <= 5)%nat
    /\ requests st'
       = requests st
         ++ take k [ReqContract a; ReqSymbol a; ReqName a; ReqDecimals a;
                    ReqTotalSupply a]
    /\ ((k = 5%nat /\ token_lookup a st = (Ok info, st') /\ log st' = log st)
        \/ (info = unknown_token a
            /\ exists e st1,
                 token_lookup a st = (Raise e, st1)
                 /\ log st' = log st ++ [(ERROR, ErrorTokenInfo a e)])).
Proof.
  unfold get_token_info, try_except.
  destruct (token_lookup a st) as [[info|e] st1] eqn:E.
  - destruct (token_lookup_requests a st _ _ E) as (k & Hk & Hreq & Hfail).
    destruct (token_lookup_frame a st _ _ E) as (_ & Hlog & _).
    assert (k = 5%nat) as ->.
    { destruct (decide (k < 5)%nat) as [Hlt|]; [|lia].
      specialize (Hfail Hlt). discriminate. }
    exists info, st1, 5%nat. split; [reflexivity|]. split; [lia|].
    split; [exact Hreq|]. left. now repeat split.
  - destruct (token_lookup_requests a st _ _ E) as (k & Hk & Hreq & _).
    destruct (token_lookup_frame a st _ _ E) as (_ & Hlog & _).
    eexists _, _, k. split; [reflexivity|]. split; [exact Hk|]. cbn.
    split; [exact Hreq|]. right. split; [reflexivity|].
    exists e, st1. split; [reflexivity | now rewrite Hlog].
Qed.

End TokenMore.

(** * More on [retry_web3_call] *)

Section RetryMore.
Import Py Helpers.
Context {S A : Type}.
Variable func : S -> result A * S.

(** With [max_retries] zero or negative the callee is never called: the loop
    body does not run, nothing is raised and the caller gets [None]. *)
Theorem retry_web3_call_without_attempts (max_retries : Z) (delay : Q)
    (st : retry_state) :
  max_retries <= 0 ->
  retry_web3_call func max_retries delay st = (Ok None, st).
Proof.
  intros Hmax. unfold retry_web3_call, py_range.
  replace (Z.to_nat max_retries) with 0%nat by lia. reflexivity.
Qed.

(** With a negative [delay] the first failure is never retried: the warning
    announces the retry, [time.sleep] raises [ValueError], and this error,
    not the callee's, reaches the caller after a single call. *)
Theorem negative_delay_hides_the_error (max_retries : Z) (delay : Q)
    (st : retry_state) (e : exn) (s1 : S) :
  1 < max_retries ->
  (delay < 0)%Q ->
  func (callee st) = (Raise e, s1) ->
  retry_web3_call func max_retries delay st
  = (Raise ValueError,
     mk_retry_state s1 (sleeps st)
       (warnings st ++ [(1, e, (delay * inject_Z (2 ^ 0))%Q)])).
Proof.
  intros Hmax Hneg Hcall. unfold retry_web3_call, py_range.
  destruct (Z.to_nat max_retries) as [|n] eqn:Hn; [lia|].
  change (seq 0 (Datatypes.S n)) with (0%nat :: seq 1 n).
  cbn [map retry_attempts]. rewrite Hcall.
  replace (Z.of_nat 0 =? max_retries - 1) with false
    by (symmetry; apply Z.eqb_neq; lia).
  unfold time_sleep. cbn [callee sleeps warnings].
  change (Z.of_nat 0) with 0.
  destruct (Qle_bool 0 (delay * inject_Z (2 ^ 0))) eqn:Hle; [|reflexivity].
  apply Qle_bool_iff in Hle. exfalso.
  apply (Qlt_not_le _ _ Hneg).
  change (inject_Z (2 ^ 0)) with 1%Q in Hle. now rewrite Qmult_1_r in Hle.
Qed.

End RetryMore.

(** * [format_address] *)

Section TextFacts.
Import Py HelpersText.

Lemma string_of_chars_length (l : list ascii) :
  String.length (string_of_list_ascii l) = length l.
Proof. now rewrite <- chars_length, list_ascii_of_string_of_list_ascii. Qed.

(** The result is never longer than 13 characters (six, three dots, four),
    and for an address of fewer than ten characters the two slices overlap:
    the result is then longer than the address itself. *)
Theorem format_address_length (a : string) :
  a <> "" ->
  String.length (format_address (Some a))
  = (Nat.min 6 (String.length a) + 3 + Nat.min 4 (String.length a))%nat.
Proof.
  intros Hne. unfold format_address.
  destruct (String.eqb a "") eqn:E; [apply String.eqb_eq in E; contradiction|].
  rewrite <- !chars_length, !chars_of_append, !length_app.
  unfold str_slice. rewrite !list_ascii_of_string_of_list_ascii.
  unfold py_slice, clamp_index. cbn [Z.ltb Z.compare].
  rewrite !length_firstn, !length_skipn. cbn [length list_ascii_of_string].
  lia.
Qed.

(** An address of at least ten characters is shown as its first six
    characters, three dots and its last four. *)
Theorem format_address_long (p m s : string) :
  String.length p = 6%nat ->
  String.length s = 4%nat ->
  format_address (Some (p +:+ m +:+ s)) = p +:+ "..." +:+ s.
Proof.
  intros Hp Hs. unfold format_address.
  destruct (String.eqb (p +:+ m +:+ s) "") eqn:E.
  { apply String.eqb_eq in E. destruct p; discriminate. }
  unfold str_slice. rewrite !chars_of_append.
  rewrite <- chars_length in Hp, Hs.
  rewrite py_slice_prefix by lia.
  replace (Z.to_nat 6) with (length (list_ascii_of_string p)) by lia.
  rewrite take_app_length.
  rewrite app_assoc.
  replace (-4) with (- Z.of_nat (length (list_ascii_of_string s))) by lia.
  rewrite py_slice_suffix by lia.
  now rewrite !string_of_list_ascii_of_string.
Qed.

End TextFacts.

(** * The helpers that take a node *)

Section NodeHelperFacts.
Import Py Pipeline HelpersNode.
Context {W : Type} `{Node W}.

(** [check_web3_connection] never raises and asks the node once. Its answer
    is [True] exactly when the node reported a positive block number; a node
    that answers 0, as a fresh chain does, counts as not working, and this
    without any error being logged. *)
Theorem check_web3_connection_verdict (st : hstate W) :
  (fst (check_web3_connection st) = true
   <-> exists n w', eth_block_number (hworld st) = (Ok n, w') /\ 0 < n)
  /\ hrequests (snd (check_web3_connection st)) = hrequests st ++ [ReqBlockNumber]
  /\ (forall n w',
        eth_block_number (hworld st) = (Ok n, w') -> n <= 0 ->
        fst (check_web3_connection st) = false
        /\ herrors (snd (check_web3_connection st)) = herrors st)
  /\ (forall e w',
        eth_block_number (hworld st) = (Raise e, w') ->
        herrors (snd (check_web3_connection st))
        = herrors st ++ [ConnectionFailed e]).
Proof.
  unfold check_web3_connection.
  destruct (eth_block_number (hworld st)) as [[n|e] w1]; cbn.
  - split; [split|split; [reflexivity|split]].
    + intros Hpos. exists n, w1. split; [reflexivity | now apply Z.ltb_lt].
    + intros (n' & w' & [= <- <-] & Hpos). now apply Z.ltb_lt.
    + intros n' w' [= <- <-] Hle. split; [apply Z.ltb_ge; lia | reflexivity].
    + intros e w' [=].
  - split; [split|split; [reflexivity|split]].
    + discriminate.
    + intros (n' & w' & [=] & _).
    + intros n' w' [=].
    + intros e' w' [= <- <-]. reflexivity.
Qed.

(** [get_block_timestamp_range] never raises and returns both timestamps or
    neither: a pair of numbers when both blocks are served, the pair
    [(None, None)] with one ERROR record otherwise. When the first block is
    not served the second is not even asked for; and the two lookups are sent
    also when both ends are the same block. *)
Theorem get_block_timestamp_range_both_or_neither (from_block to_block : Z)
    (st : hstate W) :
  ((fst (get_block_timestamp_range from_block to_block st) = (None, None)
    /\ exists e,
         herrors (snd (get_block_timestamp_range from_block to_block st))
         = herrors st ++ [ErrorGettingBlockTimestamps e])
   \/ (exists b1 w1 b2 w2,
         eth_get_block from_block (hworld st) = (Ok b1, w1)
         /\ eth_get_block to_block w1 = (Ok b2, w2)
         /\ get_block_timestamp_range from_block to_block st
            = ((Some (Chain.timestamp b1), Some (Chain.timestamp b2)),
               mk_hstate w2
                 (hrequests st ++ [ReqBlock from_block; ReqBlock to_block])
                 (herrors st))))
  /\ (forall e w1,
        eth_get_block from_block (hworld st) = (Raise e, w1) ->
        hrequests (snd (get_block_timestamp_range from_block to_block st))
        = hrequests st ++ [ReqBlock from_block]).
Proof.
  unfold get_block_timestamp_range.
  destruct (eth_get_block from_block (hworld st)) as [[b1|e1] w1] eqn:E1.
  - destruct (eth_get_block to_block w1) as [[b2|e2] w2] eqn:E2; cbn.
    + split; [|discriminate]. right. now exists b1, w1, b2, w2.
    + split; [|discriminate]. left. split; [reflexivity | now exists e2].
  - cbn. split.
    + left. split; [reflexivity | now exists e1].
    + intros e w [= <- <-]. reflexivity.
Qed.

End NodeHelperFacts.

(** * The progress bar *)

Section ProgressFacts.
Import Py Progress.

Lemma float_bound_large : 2 ^ 64 < float_bound.
Proof. reflexivity. Qed.

Lemma filled_range (t : tracker) :
  0 < total t -> 0 <= current t <= total t ->
  0 <= filled t <= 40 /\ (filled t = 40 <-> current t = total t).
Proof.
  intros Htotal Hcur. unfold filled, bar_length.
  pose proof (Z.div_mod (40 * current t) (total t) ltac:(lia)) as Hdiv.
  pose proof (Z.mod_pos_bound (40 * current t) (total t) Htotal) as Hmod.
  repeat split; try nia.
Qed.

(** Within its range the tracker prints one line, and the closing newline
    with the last one. *)
Lemma print_progress_within (t : tracker) :
  0 < total t < float_bound ->
  0 <= current t <= total t ->
  _print_progress t
  = Ok (Line (bar t) (current t) (total t)
        :: (if current t =? total t then [Newline] else [])).
Proof.
  intros Htotal Hcur.
  destruct (filled_range t ltac:(lia) Hcur) as [Hfilled _].
  pose proof float_bound_large as Hbig.
  unfold _print_progress.
  assert (H1 : (total t =? 0) = false) by (apply Z.eqb_neq; lia).
  assert (H2 : true_div_ok (current t) (total t) = true)
    by (apply Z.ltb_lt; nia).
  assert (H3 : has_float (current t) = true) by (apply Z.ltb_lt; lia).
  assert (H4 : has_float (total t - current t) = true) by (apply Z.ltb_lt; lia).
  assert (H5 : repeat_ok (filled t) = true)
    by (apply andb_true_iff; split; [apply Z.leb_le | apply Z.ltb_lt]; lia).
  assert (H6 : repeat_ok (bar_length - filled t) = true)
    by (unfold bar_length; apply andb_true_iff;
        split; [apply Z.leb_le | apply Z.ltb_lt]; lia).
  rewrite H1, H2, H3, H4, H5, H6. cbn [negb andb]. rewrite andb_false_r.
  destruct (Z.leb_spec (total t) (current t)), (Z.eqb_spec (current t) (total t));
    try lia; reflexivity.
Qed.

(** While the count is between 0 and the total, the bar has exactly 40
    cells, full ones followed by shaded ones, and it is completely full
    exactly when the count has reached the total, which is also when the
    closing newline is printed. *)
Theorem progress_bar_has_40_cells (t : tracker) :
  0 < total t < float_bound ->
  0 <= current t <= total t ->
  _print_progress t
  = Ok (Line (bar t) (current t) (total t)
        :: (if current t =? total t then [Newline] else []))
  /\ length (bar t) = 40%nat
  /\ bar t = repeat Full (Z.to_nat (filled t))
             ++ repeat Shade (40 - Z.to_nat (filled t))
  /\ (filled t = 40 <-> current t = total t).
Proof.
  intros Htotal Hcur.
  destruct (filled_range t ltac:(lia) Hcur) as [Hfilled Hfull].
  split; [exact (print_progress_within t Htotal Hcur)|].
  unfold bar, py_repeat, bar_length.
  rewrite length_app, !repeat_length.
  split; [lia|]. split; [|exact Hfull].
  f_equal. f_equal. lia.
Qed.

Lemma updates_to_total (N : Z) :
  0 < N < float_bound ->
  forall (k c : nat),
    (0 < k)%nat ->
    Z.of_nat (c + k) = N ->
    updates k (mk_tracker N (Z.of_nat c))
    = (mk_tracker N N,
       Ok (map (line_at N) (map Z.of_nat (seq (Datatypes.S c) k)) ++ [Newline])).
Proof.
  intros HN k. induction k as [|k IH]; intros c Hk Hsum; [lia|].
  cbn [updates]. unfold update. cbn [total current].
  rewrite print_progress_within by (cbn [total current]; lia).
  cbn [total current].
  replace (Z.of_nat c + 1) with (Z.of_nat (Datatypes.S c)) by lia.
  destruct k as [|k].
  - cbn [updates seq map app].
    replace (Z.of_nat (Datatypes.S c)) with N by lia.
    rewrite Z.eqb_refl. reflexivity.
  - rewrite IH by lia.
    replace (Z.of_nat (Datatypes.S c) =? N) with false
      by (symmetry; apply Z.eqb_neq; lia).
    reflexivity.
Qed.

(** A tracker for [n] items, updated once per item, prints [n] lines, the
    i-th showing i of n, and closes the bar with a single newline, after the
    last line. *)
Theorem updates_run_to_completion (n : nat) :
  (0 < n)%nat ->
  Z.of_nat n < float_bound ->
  updates n (mk_tracker (Z.of_nat n) 0)
  = (mk_tracker (Z.of_nat n) (Z.of_nat n),
     Ok (map (line_at (Z.of_nat n)) (map Z.of_nat (seq 1 n)) ++ [Newline])).
Proof.
  intros Hn Hbound.
  exact (updates_to_total (Z.of_nat n) ltac:(lia) n 0%nat Hn eq_refl).
Qed.

(** Past the total the bar is not capped: it has no shaded cell and grows
    beyond its 40 cells, and every such line is followed by a newline. *)
Theorem progress_bar_overshoots (t : tracker) :
  0 < total t ->
  total t < current t < float_bound ->
  filled t < 2 ^ 63 ->
  _print_progress t
  = Ok [Line (repeat Full (Z.to_nat (filled t))) (current t) (total t); Newline]
  /\ 40 <= filled t
  /\ (2 * total t <= current t -> 80 <= filled t).
Proof.
  intros Htotal Hcur Hfit.
  pose proof float_bound_large as Hbig.
  assert (Hfilled : 40 <= filled t
                    /\ (2 * total t <= current t -> 80 <= filled t)).
  { unfold filled, bar_length in *.
    pose proof (Z.div_mod (40 * current t) (total t) ltac:(lia)) as Hdiv.
    pose proof (Z.mod_pos_bound (40 * current t) (total t) Htotal) as Hmod.
    split; [nia|]. intros Htwice. nia. }
  split; [|exact Hfilled]. destruct Hfilled as [Hfilled _].
  unfold _print_progress.
  assert (H1 : (total t =? 0) = false) by (apply Z.eqb_neq; lia).
  assert (H2 : true_div_ok (current t) (total t) = true)
    by (apply Z.ltb_lt; nia).
  assert (H3 : has_float (current t) = true) by (apply Z.ltb_lt; lia).
  assert (H4 : has_float (total t - current t) = true) by (apply Z.ltb_lt; lia).
  assert (H5 : repeat_ok (filled t) = true)
    by (apply andb_true_iff; split; [apply Z.leb_le | apply Z.ltb_lt]; lia).
  assert (H6 : repeat_ok (bar_length - filled t) = true)
    by (unfold bar_length; apply andb_true_iff;
        split; [apply Z.leb_le | apply Z.ltb_lt]; lia).
  rewrite H1, H2, H3, H4, H5, H6. cbn [negb andb]. rewrite andb_false_r.
  replace (total t <=? current t) with true by (symmetry; apply Z.leb_le; lia).
  unfold bar, py_repeat, bar_length.
  replace (Z.to_nat (40 - filled t)) with 0%nat by lia.
  cbn [repeat]. now rewrite app_nil_r.
Qed.

End ProgressFacts.

(** * config.py *)

Section ConfigFacts.
Import Config.

(** [validate_config] reports an issue exactly when [get_web3_provider_url]
    falls back to the public endpoint: an Infura or Alchemy URL is never
    flagged, the fallback always is. *)
Theorem validate_config_flags_public_endpoint (c : env) :
  validate_config c = [] <-> get_web3_provider_url c <> public_endpoint.
Proof.
  unfold validate_config, get_web3_provider_url, public_endpoint.
  destruct (truthy (INFURA_PROJECT_ID c)); cbn.
  - split; [discriminate | reflexivity].
  - destruct (truthy (ALCHEMY_API_KEY c)); cbn.
    + split; [discriminate | reflexivity].
    + split; [discriminate | congruence].
Qed.

(** The runner script and [Config] agree on the provider except in one case:
    with only an Alchemy key set, [Config.get_web3_provider_url] gives the
    Alchemy URL while [main] of run_pipeline.py falls back to the public
    endpoint. *)
Theorem main_ignores_alchemy_key (c : env) :
  RunPipeline.provider_url c = get_web3_provider_url c
  <-> truthy (INFURA_PROJECT_ID c) = true \/ truthy (ALCHEMY_API_KEY c) = false.
Proof.
  unfold RunPipeline.provider_url, get_web3_provider_url, public_endpoint.
  destruct (truthy (INFURA_PROJECT_ID c)); cbn.
  - split; [now left | reflexivity].
  - destruct (truthy (ALCHEMY_API_KEY c)); cbn.
    + split; [discriminate | now intros [?|?]].
    + split; [now right | reflexivity].
Qed.

End ConfigFacts.

(** * The ranking of the trading pairs *)

Section ReportFacts.
Import Py Pipeline Reports Vocabulary.

Lemma by_count_desc_transitive : Transitive by_count_desc.
Proof. intros a b c. unfold by_count_desc. lia. Qed.

Lemma by_count_desc_total : Total by_count_desc.
Proof. intros a b. unfold by_count_desc. lia. Qed.

Lemma ranked_pairs_groups (d : Sqlite.Db) :
  ranked_pairs d
  ≡ₚ map (pair_stat_of (Sqlite.trades d)) (remove_dups (pairs (Sqlite.trades d))).
Proof. apply merge_sort_Permutation. Qed.

Lemma ranked_pairs_sorted (d : Sqlite.Db) :
  StronglySorted by_count_desc (ranked_pairs d).
Proof.
  apply StronglySorted_merge_sort;
    [exact by_count_desc_transitive | exact by_count_desc_total].
Qed.

Lemma ranked_pairs_names (d : Sqlite.Db) :
  map pair (ranked_pairs d) ≡ₚ remove_dups (pairs (Sqlite.trades d)).
Proof.
  rewrite ranked_pairs_groups, map_map. cbn. now rewrite map_id.
Qed.

Lemma sql_limit_prefix {A} (n : Z) (l : list A) :
  exists rest, l = sql_limit n l ++ rest.
Proof.
  unfold sql_limit. destruct (n <? 0).
  - exists []. now rewrite app_nil_r.
  - exists (skipn (Z.to_nat n) l). now rewrite firstn_skipn.
Qed.

Lemma remove_dups_length {A} `{EqDecision A} (l : list A) :
  (length (remove_dups l) <= length l)%nat.
Proof.
  induction l as [|x l IH]; cbn; [lia|].
  destruct (decide_rel elem_of x l); cbn; lia.
Qed.

Lemma sum_Z_Permutation (l l' : list Z) : l ≡ₚ l' -> sum_Z l = sum_Z l'.
Proof.
  unfold sum_Z.
  induction 1 as [|x k k' _ IH|x y k|k k' k'' _ IH1 _ IH2]; cbn; lia.
Qed.

(** The rows come ranked: largest trade count first, one row per pair and at
    most [limit] of them; and no pair that was left out has more trades than
    a pair that is listed. *)
Theorem get_top_tokens_ranked (limit : Z) (d : Sqlite.Db) (rows : list pair_stat) :
  get_top_tokens limit d = Some rows ->
  StronglySorted by_count_desc rows
  /\ NoDup (map pair rows)
  /\ (0 <= limit -> len rows <= limit)
  /\ (forall p r,
        p ∈ pairs (Sqlite.trades d) -> p ∉ map pair rows -> r ∈ rows ->
        pair_trade_count (pair_stat_of (Sqlite.trades d) p) <= pair_trade_count r).
Proof.
  unfold get_top_tokens. destruct (Sqlite.fits_int64 limit); [|discriminate].
  intros [= <-].
  destruct (sql_limit_prefix limit (ranked_pairs d)) as (rest & Hsplit).
  pose proof (ranked_pairs_sorted d) as Hsorted.
  pose proof (ranked_pairs_names d) as Hnames.
  rewrite Hsplit in Hsorted, Hnames.
  split; [exact (StronglySorted_app_1_l _ _ _ Hsorted)|].
  assert (Hnd : NoDup (map pair (sql_limit limit (ranked_pairs d) ++ rest))).
  { rewrite Hnames. apply NoDup_remove_dups. }
  rewrite map_app in Hnd. apply NoDup_app in Hnd as (Hnd & _ & _).
  split; [exact Hnd|]. split.
  - intros Hlimit. unfold sql_limit, len.
    destruct (Z.ltb_spec limit 0); [lia|]. rewrite length_firstn. lia.
  - intros p r Hp Hout Hr.
    assert (Hin : p ∈ map pair (sql_limit limit (ranked_pairs d) ++ rest)).
    { rewrite Hnames. now apply elem_of_remove_dups. }
    rewrite map_app in Hin. apply elem_of_app in Hin as [Hin|Hin]; [contradiction|].
    apply list_elem_of_fmap in Hin as (r' & -> & Hr').
    pose proof (StronglySorted_app_1_elem_of _ _ _ _ _ Hsorted Hr Hr') as Hle.
    assert (Hall : r' ∈ ranked_pairs d)
      by (rewrite Hsplit; apply elem_of_app; now right).
    rewrite ranked_pairs_groups in Hall.
    apply list_elem_of_fmap in Hall as (p' & -> & _). exact Hle.
Qed.

(** Every row describes a pair that has trades: its [trade_count] is the
    number of stored trades of the pair, and its [unique_traders] lies
    between 1 and that count. *)
Theorem get_top_tokens_counts (limit : Z) (d : Sqlite.Db) (rows : list pair_stat)
    (r : pair_stat) :
  get_top_tokens limit d = Some rows ->
  r ∈ rows ->
  pair r ∈ pairs (Sqlite.trades d)
  /\ pair_trade_count r = len (trades_of_pair (pair r) (Sqlite.trades d))
  /\ 1 <= unique_traders r <= pair_trade_count r.
Proof.
  unfold get_top_tokens. destruct (Sqlite.fits_int64 limit); [|discriminate].
  intros [= <-] Hr.
  destruct (sql_limit_prefix limit (ranked_pairs d)) as (rest & Hsplit).
  assert (Hall : r ∈ ranked_pairs d)
    by (rewrite Hsplit; apply elem_of_app; now left).
  rewrite ranked_pairs_groups in Hall.
  apply list_elem_of_fmap in Hall as (p & -> & Hp).
  rewrite elem_of_remove_dups in Hp.
  cbn [pair pair_trade_count unique_traders pair_stat_of].
  split; [exact Hp|]. split; [reflexivity|].
  pose proof (remove_dups_length
                (Sqlite.senders (trades_of_pair p (Sqlite.trades d)))) as Hle.
  unfold Sqlite.senders in Hle at 2. rewrite length_map in Hle.
  split; [|lia].
  unfold pairs in Hp. apply list_elem_of_fmap in Hp as (row & -> & Hrow).
  assert (Hgroup : row ∈ trades_of_pair (Sqlite.pair_address (Sqlite.cols row))
                         (Sqlite.trades d)).
  { unfold trades_of_pair. apply list_elem_of_filter. now split. }
  assert (Hsender : Sqlite.sender (Sqlite.cols row)
                    ∈ remove_dups
                        (Sqlite.senders
                           (trades_of_pair (Sqlite.pair_address (Sqlite.cols row))
                              (Sqlite.trades d)))).
  { apply elem_of_remove_dups. unfold Sqlite.senders.
    apply list_elem_of_fmap. now exists row. }
  destruct (remove_dups _) as [|x l]; [inversion Hsender|]. cbn [length]. lia.
Qed.

(** Without an effective limit (a negative one, or one of at least the
    number of pairs) every pair is listed once and the trade counts add up
    to the number of stored trades. *)
Theorem get_top_tokens_complete (limit : Z) (d : Sqlite.Db) :
  Sqlite.fits_int64 limit = true ->
  limit < 0 \/ len (remove_dups (pairs (Sqlite.trades d))) <= limit ->
  exists rows,
    get_top_tokens limit d = Some rows
    /\ map pair rows ≡ₚ remove_dups (pairs (Sqlite.trades d))
    /\ sum_Z (map pair_trade_count rows) = len (Sqlite.trades d).
Proof.
  intros Hfit Hall. unfold get_top_tokens. rewrite Hfit.
  exists (ranked_pairs d).
  assert (Hwhole : sql_limit limit (ranked_pairs d) = ranked_pairs d).
  { unfold sql_limit. destruct (Z.ltb_spec limit 0); [reflexivity|].
    destruct Hall as [?|Hall]; [lia|].
    apply firstn_all2.
    rewrite <- (length_map pair), (Permutation_length (ranked_pairs_names d)).
    unfold len in Hall. lia. }
  split; [now rewrite Hwhole|]. split; [apply ranked_pairs_names|].
  rewrite (sum_Z_Permutation _ _
             (Permutation_map pair_trade_count (ranked_pairs_groups d))).
  rewrite map_map. cbn [pair_stat_of pair_trade_count]. unfold len, trades_of_pair.
  apply (group_sizes_sum (fun r => Sqlite.pair_address (Sqlite.cols r))).
  - apply NoDup_remove_dups.
  - intros r Hr. apply elem_of_remove_dups. unfold pairs.
    apply list_elem_of_fmap. now exists r.
Qed.

End ReportFacts.

(** * Further runs on simulated nodes *)

Section MoreSimulations.
Import Py Pipeline Fixtures Outages Markets Vocabulary.

Lemma fetch_swap_events_keeps_log_order_witness :
  exists swap_events st' kept,
    fetch_swap_events (Some 100) (Some 500) default_limit (initial_state aa_world)
    = (Ok swap_events, st')
    /\ sublist kept (py_slice aa_events None (Some default_limit))
    /\ Forall2 decoded_from swap_events kept.
Proof.
  exact (fetch_swap_events_keeps_log_order (H := sim_node) (Some 100) (Some 500)
           default_limit (initial_state aa_world) aa_events
           (mk_sim [Ok aa_events] 1700000000) eq_refl).
Defined.

Lemma fetch_swap_events_accounts_for_logs_witness :
  exists swap_events st' reported,
    fetch_swap_events (Some 100) (Some 500) default_limit (initial_state aa_world)
    = (Ok swap_events, st')
    /\ skipped (log st') = [] ++ reported
    /\ (length swap_events + length reported = 4)%nat.
Proof.
  exact (fetch_swap_events_accounts_for_logs (H := sim_node) (Some 100) (Some 500)
           default_limit (initial_state aa_world) aa_events
           (mk_sim [Ok aa_events] 1700000000) eq_refl).
Defined.

Lemma block_lookup_failure_skips_one_log_witness :
  process_events
    [swap_log 100 1 0xAA 0xBB 5 0 0 7; swap_log 500 3 0xAA 0xBB 0 9 4 0] []
    (initial_state pruned_world)
  = process_events [swap_log 500 3 0xAA 0xBB 0 9 4 0] []
      (mk_state pruned_world Sqlite.init_database
         ([] ++ [(ERROR,
                  ErrorProcessingEvent (tx_text (swap_log 100 1 0xAA 0xBB 5 0 0 7))
                    (Web3Exception "block not found"))])
         ([] ++ [ReqBlock 100]) []).
Proof.
  exact (block_lookup_failure_skips_one_log (H := pruned_node)
           (swap_log 100 1 0xAA 0xBB 5 0 0 7) [swap_log 500 3 0xAA 0xBB 0 9 4 0] []
           (initial_state pruned_world) (Web3Exception "block not found")
           pruned_world eq_refl).
Defined.

Lemma negative_limit_drops_last_logs_witness :
  exists swap_events st' kept,
    fetch_swap_events (Some 100) (Some 500) (-1) (initial_state aa_world)
    = (Ok swap_events, st')
    /\ sublist kept (firstn 3 aa_events)
    /\ Forall2 decoded_from swap_events kept
    /\ (length swap_events <= 3)%nat.
Proof.
  exact (negative_limit_drops_last_logs (H := sim_node) (Some 100) (Some 500) (-1)
           (initial_state aa_world) aa_events (mk_sim [Ok aa_events] 1700000000)
           eq_refl eq_refl).
Defined.

Lemma save_trades_to_db_all_or_nothing_witness :
  exists st',
    save_trades_to_db [aa_trade 1 100; oversized_trade]
      (initial_state (mk_sim [] 1700000000))
    = (Raise OverflowError, st')
    /\ db st' = Sqlite.init_database /\ log st' = [].
Proof.
  assert (Hbig : Exists (fun v => Sqlite.bindable v = false)
                   [aa_trade 1 100; oversized_trade])
    by (right; left; reflexivity).
  exact (save_trades_to_db_all_or_nothing (H := sim_node)
           [aa_trade 1 100; oversized_trade] (initial_state (mk_sim [] 1700000000))
           Hbig).
Defined.

Lemma save_trades_to_db_fresh_rowids_witness :
  exists new st',
    save_trades_to_db [aa_trade 7 100; aa_trade 8 200] aa_stored = (Ok tt, st')
    /\ Sqlite.trades (db st') = Sqlite.trades (db aa_stored) ++ new
    /\ map Sqlite.cols new = [aa_trade 7 100; aa_trade 8 200]
    /\ Forall (fun r => Sqlite.max_id (Sqlite.trades (db aa_stored)) < Sqlite.id r) new
    /\ (NoDup (map Sqlite.id (Sqlite.trades (db aa_stored))) ->
        NoDup (map Sqlite.id (Sqlite.trades (db st')))).
Proof.
  assert (Hfit : Forall (fun v => Sqlite.bindable v = true)
                   [aa_trade 7 100; aa_trade 8 200])
    by (repeat constructor).
  exact (save_trades_to_db_fresh_rowids (H := sim_node)
           [aa_trade 7 100; aa_trade 8 200] aa_stored Hfit).
Defined.

Lemma default_range_is_last_100_blocks_witness :
  exists more,
    requests (snd (run_full_pipeline None None (initial_state aa_world)))
    = [] ++ ReqBlockNumber
         :: ReqLogs (Chain.mk_FilterParams (Some (18000000 - 100)) (Some 18000000)
                       [swap_topic])
         :: more.
Proof.
  exact (default_range_is_last_100_blocks (H := sim_node) None
           (initial_state aa_world) 18000000 aa_world eq_refl).
Defined.

Lemma run_without_range_needs_latest_block_witness :
  run_full_pipeline None None (initial_state pruned_world)
  = (Raise TimeoutError,
     mk_state pruned_world Sqlite.init_database
       ([] ++ [(INFO, Progress "Starting full DeFi data pipeline...")])
       ([] ++ [ReqBlockNumber]) []).
Proof.
  exact (run_without_range_needs_latest_block (H := pruned_node) None
           (initial_state pruned_world) TimeoutError pruned_world eq_refl).
Defined.

Lemma oversized_amount_aborts_run_witness :
  exists st',
    run_full_pipeline (Some 100) (Some 100) (initial_state oversized_world)
    = (Raise OverflowError, st')
    /\ db st' = Sqlite.init_database /\ stdout st' = [].
Proof.
  destruct (fetch_swap_events (H := sim_node) (Some 100) (Some 100) default_limit
              (mk_state oversized_world Sqlite.init_database
                 ([] ++ [(INFO, Progress "Starting full DeFi data pipeline...");
                         (INFO, Progress "Step 1: Extracting swap events...")])
                 [] []))
    as [r st1] eqn:Hfetch.
  assert (Hr : r = Ok [oversized_trade]).
  { apply (f_equal fst) in Hfetch. vm_compute in Hfetch. symmetry. exact Hfetch. }
  subst r.
  assert (Hbig : Exists (fun v => Sqlite.bindable v = false) [oversized_trade])
    by (left; reflexivity).
  exact (oversized_amount_aborts_run (H := sim_node) 100 (Some 100)
           (initial_state oversized_world) [oversized_trade] st1 Hfetch Hbig).
Defined.

Lemma retry_web3_call_without_attempts_witness :
  Helpers.retry_web3_call (flaky_endpoint 0) 0 Helpers.default_delay fresh_retry_state
  = (Ok None, fresh_retry_state).
Proof.
  exact (retry_web3_call_without_attempts (flaky_endpoint 0) 0 Helpers.default_delay
           fresh_retry_state (Z.le_refl 0)).
Defined.

Lemma negative_delay_hides_the_error_witness :
  Helpers.retry_web3_call (flaky_endpoint 1) Helpers.default_max_retries (-1)%Q
    fresh_retry_state
  = (Raise ValueError,
     Helpers.mk_retry_state 1%nat []
       ([] ++ [(1, TimeoutError, (-1 * inject_Z (2 ^ 0))%Q)])).
Proof.
  exact (negative_delay_hides_the_error (flaky_endpoint 1)
           Helpers.default_max_retries (-1)%Q fresh_retry_state TimeoutError 1%nat
           eq_refl eq_refl eq_refl).
Defined.

Lemma format_address_length_witness :
  String.length (HelpersText.format_address (Some "0x12")) = 11%nat.
Proof.
  exact (format_address_length "0x12" ltac:(discriminate)).
Defined.

Lemma format_address_long_witness :
  HelpersText.format_address (Some pair) = "0xB4e1...C9Dc".
Proof.
  exact (format_address_long "0xB4e1" "6d0168e52d35CaCD2c6185b44281Ec28" "C9Dc"
           eq_refl eq_refl).
Defined.

Lemma progress_bar_has_40_cells_witness :
  Progress._print_progress (Progress.mk_tracker 8 2)
  = Ok [Progress.Line (repeat Progress.Full 10 ++ repeat Progress.Shade 30) 2 8]
  /\ length (Progress.bar (Progress.mk_tracker 8 2)) = 40%nat.
Proof.
  assert (Htotal : 0 < 8 < Progress.float_bound) by (split; reflexivity).
  assert (Hcur : 0 <= 2 <= 8) by lia.
  destruct (progress_bar_has_40_cells (Progress.mk_tracker 8 2) Htotal Hcur)
    as (Hprint & Hlen & _).
  split; [exact Hprint | exact Hlen].
Defined.

Lemma updates_run_to_completion_witness :
  Progress.updates 3 (Progress.mk_tracker 3 0)
  = (Progress.mk_tracker 3 3,
     Ok [Progress.line_at 3 1; Progress.line_at 3 2; Progress.line_at 3 3;
         Progress.Newline]).
Proof.
  assert (Hn : (0 < 3)%nat) by lia.
  exact (updates_run_to_completion 3 Hn eq_refl).
Defined.

Lemma progress_bar_overshoots_witness :
  Progress._print_progress (Progress.mk_tracker 2 5)
  = Ok [Progress.Line (repeat Progress.Full 100) 5 2; Progress.Newline].
Proof.
  assert (Hcur : 2 < 5 < Progress.float_bound) by (split; reflexivity).
  exact (proj1 (progress_bar_overshoots (Progress.mk_tracker 2 5)
                  eq_refl Hcur eq_refl)).
Defined.

Lemma get_top_tokens_ranked_witness :
  Reports.get_top_tokens 1 market_db = Some [Reports.mk_pair_stat dai_pair 3 2]
  /\ forall p r,
       p ∈ Reports.pairs (Sqlite.trades market_db) ->
       p ∉ [dai_pair] ->
       r ∈ [Reports.mk_pair_stat dai_pair 3 2] ->
       Reports.pair_trade_count (Reports.pair_stat_of (Sqlite.trades market_db) p)
       <= Reports.pair_trade_count r.
Proof.
  assert (Hrun : Reports.get_top_tokens 1 market_db
                 = Some [Reports.mk_pair_stat dai_pair 3 2])
    by (vm_compute; reflexivity).
  split; [exact Hrun|].
  exact (proj2 (proj2 (proj2 (get_top_tokens_ranked 1 market_db _ Hrun)))).
Defined.

Lemma get_top_tokens_counts_witness :
  dai_pair ∈ Reports.pairs (Sqlite.trades market_db)
  /\ 3 = len (Reports.trades_of_pair dai_pair (Sqlite.trades market_db))
  /\ 1 <= 2 <= 3.
Proof.
  assert (Hrun : Reports.get_top_tokens 10 market_db
                 = Some [Reports.mk_pair_stat dai_pair 3 2;
                         Reports.mk_pair_stat pair 1 1])
    by (vm_compute; reflexivity).
  exact (get_top_tokens_counts 10 market_db _ (Reports.mk_pair_stat dai_pair 3 2)
           Hrun (list_elem_of_here _ _)).
Defined.

Lemma get_top_tokens_complete_witness :
  exists rows,
    Reports.get_top_tokens (-1) market_db = Some rows
    /\ map Reports.pair rows ≡ₚ remove_dups (Reports.pairs (Sqlite.trades market_db))
    /\ sum_Z (map Reports.pair_trade_count rows) = len (Sqlite.trades market_db).
Proof.
  exact (get_top_tokens_complete (-1) market_db eq_refl (or_introl eq_refl)).
Defined.

Lemma fetch_swap_events_limit_witness :
  exists swap_events st',
    fetch_swap_events (Some 100) (Some 500) 2 (initial_state aa_world)
    = (Ok swap_events, st')
    /\ len swap_events <= 2
    /\ map Sqlite.transaction_hash swap_events
       = ["0x0000000000000000000000000000000000000000000000000000000000000001"]
    /\ skipped (log st')
       = ["0x0000000000000000000000000000000000000000000000000000000000000002"]
    /\ block_lookups (requests st') = [100; 100]
    /\ fetch_swap_events (Some 100) (Some 500) 2
         (initial_state (mk_sim [Ok (firstn 2 aa_events); Ok aa_events] 1700000000))
       = (Ok swap_events, st').
Proof.
  assert (Hlimit : 0 <= 2) by lia.
  assert (Hcls : Forall (fun ev => malformed_log ev = true \/ storable_swap_log ev)
                   (firstn (Z.to_nat 2) aa_events)).
  { change (firstn (Z.to_nat 2) aa_events)
      with [swap_log 100 1 0xAA 0xBB 5 0 0 7; short_log 100 2 0xAA 0xBB 10].
    constructor; [right; exact swap_log_storable_100|].
    constructor; [left; reflexivity|]. constructor. }
  destruct (fetch_swap_events_limit (H := sim_node) (Some 100) (Some 500) 2
              (initial_state aa_world) aa_events (mk_sim [Ok aa_events] 1700000000)
              Hlimit eq_refl)
    as [(swaps & st' & kept & rep & more & Hrun & Hlen & _ & Hreq & Hblocks & _ & _
         & Hskip & _ & Hexact & Hsame) _].
  destruct (Hexact sim_reliable Hcls) as (Hhash & Hrep).
  exists swaps, st'. split; [exact Hrun|]. split; [exact Hlen|].
  split; [exact Hhash|]. split; [rewrite Hskip, Hrep; reflexivity|].
  split; [rewrite Hreq; cbn [initial_state requests app block_lookups];
          rewrite Hblocks; reflexivity|].
  exact (Hsame (initial_state (mk_sim [Ok (firstn 2 aa_events); Ok aa_events]
                                 1700000000))
           eq_refl eq_refl eq_refl eq_refl eq_refl).
Defined.


End MoreSimulations.
